(** * Result-processing pipeline of the EE research agent

    A shallow embedding of [src/processors/result_processor.py]
    (class [ResultProcessor]), of the classification paths of
    [src/providers/trl_provider.py] (class [TRLProvider]) and of the
    component scoring of [agents/aggregators/report_generator.py]
    (class [ReportGenerator]), followed by the properties the design
    document states about them.

    Conventions of the embedding.
    - A Python [dict] record becomes a Rocq record; a key that may be
      missing is an [option] field ([None] = key absent, so
      [d.get(k)] is the field itself and [d.get(k, dflt)] is
      [default dflt]).  Dictionaries that are only iterated
      ([availability]) are association lists in insertion order.
    - [str] is [string]; [lower] and [len] are the ASCII ones, which is
      what they are on the ASCII text the providers deliver.
    - [float] confidences and scores are binary64 floats ([float] of
      [PrimFloat]), added and compared as the interpreter does; a
      decimal literal stands for the nearest float.  A price, which is
      only compared with a constant, is a rational ([Qc]).
    - [hashlib.md5], the clock and the [.1f] formatting of a float are
      library services: they are parameters of the development.
    - An exception is a value of type [exn]; a function that can raise
      returns [exn + A]. *)

From Stdlib Require Import PrimFloat.
From Stdlib Require Uint63.
From Stdlib Require Import Ascii String DecimalString QArith Qcanon.
From Stdlib Require OrderedTypeEx DecimalPos DecimalZ.
From stdpp Require Import base numbers list sorting strings gmap.

Set Warnings "-inexact-float".

Open Scope string_scope.
Open Scope list_scope.
Open Scope stdpp_scope.

(** ** Python strings *)

Module Py.

Definition lower_ascii (c : ascii) : ascii :=
  let n := nat_of_ascii c in
  if (65 <=? n)%nat && (n <=? 90)%nat then ascii_of_nat (n + 32) else c.

(** [s.lower()] *)
Fixpoint lower (s : string) : string :=
  match s with
  | EmptyString => EmptyString
  | String c s' => String (lower_ascii c) (lower s')
  end.

(** [sub in s] for strings *)
Fixpoint contains (sub s : string) : bool :=
  if String.prefix sub s then true
  else match s with
       | EmptyString => false
       | String _ s' => contains sub s'
       end.

Definition is_space (c : ascii) : bool :=
  let n := nat_of_ascii c in
  ((9 <=? n)%nat && (n <=? 13)%nat) || ((28 <=? n)%nat && (n <=? 32)%nat).

Definition flush (word : string) (acc : list string) : list string :=
  if decide (word = "") then acc else word :: acc.

Fixpoint split_from (word s : string) : list string :=
  match s with
  | EmptyString => flush word []
  | String c s' =>
      if is_space c then flush word (split_from "" s')
      else split_from (word +:+ String c "") s'
  end.

(** [s.split()] : the maximal runs of non-blank characters *)
Definition split (s : string) : list string := split_from "" s.

(** [sep.join(l)] *)
Definition join (sep : string) (l : list string) : string := String.concat sep l.

(** [bool(s)] of a [d.get(k)] that is a string or missing *)
Definition truthy (o : option string) : bool :=
  match o with
  | Some s => negb (String.eqb s "")
  | None => false
  end.

(** [str(n)] for integers *)
Definition str_of_nat (n : nat) : string := NilEmpty.string_of_uint (Nat.to_uint n).
Definition str_of_Z (z : Z) : string := NilZero.string_of_int (Z.to_int z).

(** [f"{x}"] of an optional string: a missing value prints as [None] *)
Definition fmt_str (o : option string) : string := default "None" o.
Definition fmt_Z (o : option Z) : string := from_option str_of_Z "None" o.

(** [l[:n]] *)
Definition slice_to {A} (n : nat) (l : list A) : list A := take n l.

(** [sorted(l, key=key, reverse=True)] / [l.sort(key=key, reverse=True)]:
    a stable descending sort (records with equal keys keep their order).
    [ltb] is [<] on the keys. *)
Section Sort.
  Context {A K : Type} (ltb : K -> K -> bool) (key : A -> K).

Fixpoint insert_desc (x : A) (l : list A) : list A :=
    match l with
    | [] => [x]
    | y :: l' => if ltb (key x) (key y) then y :: insert_desc x l' else x :: l
    end.

Definition sort_desc (l : list A) : list A := foldr insert_desc [] l.
End Sort.

End Py.

(** ** Exceptions *)

Inductive exn :=
| AttributeError (msg : string)
| KeyError (key : string).

(** [str(e)] *)
Definition str_exn (e : exn) : string :=
  match e with
  | AttributeError msg => msg
  | KeyError key => "'" +:+ key +:+ "'"
  end.

(** [None.get(...)] *)
Definition none_has_no_get : exn :=
  AttributeError "'NoneType' object has no attribute 'get'".

(** A computation that returns an [A] or raises. *)
Definition result (A : Type) : Type := exn + A.

#[global] Instance result_ret : MRet result := fun A a => inr a.
#[global] Instance result_bind : MBind result :=
  fun A B f m => match m with
                 | inl e => inl e
                 | inr a => f a
                 end.

(** ** Data model *)

(** One distributor entry of an [availability] / [supply_chain] mapping. *)
Module Dist.
Record t := mk {
    stock : option Z;
    lead_time_weeks : option Z;
    region : option string
  }.
End Dist.

(** [distributor -> entry], in insertion order *)
Abbreviation availability_map := (list (string * Dist.t)).

Definition values (m : availability_map) : list Dist.t := map snd m.

(** [sum(d.get("stock", 0) for d in m.values())] *)
Definition total_stock (m : availability_map) : Z :=
  foldr Z.add 0%Z (map (fun d => default 0%Z (Dist.stock d)) (values m)).

Module Paper.
Record t := mk {
    oid : nat;                       (* identity of the dict object *)
    title : option string;
    authors : list string;
    abstract : option string;
    year : option Z;
    doi : option string;
    trl : option Z
  }.
Definition set_trl (v : Z) (p : t) : t :=
    mk (oid p) (title p) (authors p) (abstract p) (year p) (doi p) (Some v).
End Paper.

Module Patent.
Record t := mk {
    oid : nat;
    patent_number : option string;
    title : option string;
    abstract : option string;
    filing_date : option string;
    status : option string;
    trl : option Z
  }.
Definition set_trl (v : Z) (p : t) : t :=
    mk (oid p) (patent_number p) (title p) (abstract p) (filing_date p) (status p) (Some v).
End Patent.

Module Component.
Record t := mk {
    oid : nat;
    part_number : option string;
    manufacturer : option string;
    category : option string;
    lifecycle : option string;
    specifications : list (string * string);
    features : list string;
    applications : list string;
    datasheet_url : option string;
    availability : availability_map;
    (* the keys the aggregator's ReportGenerator reads *)
    supply_chain : availability_map;
    specs_efficiency : option float;
    pricing_unit_price_usd : option Qc;
    trl : option Z
  }.
Definition set_trl (v : Z) (c : t) : t :=
    mk (oid c) (part_number c) (manufacturer c) (category c) (lifecycle c)
       (specifications c) (features c) (applications c) (datasheet_url c)
       (availability c) (supply_chain c) (specs_efficiency c)
       (pricing_unit_price_usd c) (Some v).
End Component.

Module SupplyChain.
Record t := mk {
    oid : nat;
    part_number : option string;
    lifecycle : option string;
    availability : availability_map
  }.
End SupplyChain.

(** The response every provider builds with [_create_response]: six keys,
    [data] being [None] when the provider failed.  [Some l] is a [data]
    dictionary whose item list is [l]. *)
Module Response.
Record t (A : Type) := mk {
    provider : string;
    success : bool;
    data : option (list A);
    error : option string;
    timestamp : string
  }.
  Arguments mk {A}.
  Arguments provider {A}.
  Arguments success {A}.
  Arguments data {A}.
  Arguments error {A}.
  Arguments timestamp {A}.
  (** [len(response)] : provider, success, data, error, metadata, timestamp *)
Definition len {A} (r : t A) : nat := 6.
Definition set_data {A} (l : option (list A)) (r : t A) : t A :=
    mk (provider r) (success r) l (error r) (timestamp r).
End Response.

(** [raw_results]: one provider response per source, a key may be missing. *)
Module Raw.
Record t := mk {
    papers : option (Response.t Paper.t);
    patents : option (Response.t Patent.t);
    components : option (Response.t Component.t);
    supply_chain : option (Response.t SupplyChain.t)
  }.
End Raw.

(** [results.get(k, {}).get("data", {}).get(items, [])] *)
Definition raw_items {A} (entry : option (Response.t A)) : result (list A) :=
  match entry with
  | None => inr []
  | Some r =>
      match Response.data r with
      | None => inl none_has_no_get
      | Some l => inr l
      end
  end.

(** [query_understanding] *)
Module Query.
Record t := mk {
    query : option string;                       (* parameters.query *)
    regions : option (list string);              (* parameters.regions *)
    entities : list (string * list string)       (* entities: name -> list *)
  }.
End Query.

Module PaperPatent.
Record t := mk { paper : option string; patent : option string }.
End PaperPatent.

Module PatentComponent.
Record t := mk { patent : option string; component : option string }.
End PatentComponent.

Module CrossRefs.
Record t := mk {
    paper_to_patent : list PaperPatent.t;
    patent_to_component : list PatentComponent.t;
    paper_to_component : list (option string * option string)
  }.
End CrossRefs.

(** The [results] dictionary the stages pass along. *)
Module Results.
Record t := mk {
    papers : list Paper.t;
    patents : list Patent.t;
    components : list Component.t;
    supply_chain : list SupplyChain.t;
    cross_references : option CrossRefs.t;
    component_clusters : option (list (string * list Component.t))
  }.
End Results.

(** ** Stage 1: deduplication *)

Section Dedup.
  Context {A : Type} (key : A -> option string).

  (** One iteration of the three loops: a record whose key is missing is
      skipped, a record whose key was seen is skipped, any other is
      appended and its key recorded. *)
Definition dedup_step (st : gset string * list A) (x : A) : gset string * list A :=
    match key x with
    | Some k => if decide (k ∈ st.1) then st else ({[k]} ∪ st.1, st.2 ++ [x])
    | None => st
    end.

Definition dedup_loop (l : list A) : list A := (foldl dedup_step (∅, []) l).2.
End Dedup.

Section Stage1.
  (** [hashlib.md5(s.encode()).hexdigest()] *)
  Variable md5_hexdigest : string -> string.

  (** The identifier of a paper: its DOI, or the digest of its lowered
      title when [paper.get("doi")] is missing or empty. *)
Definition paper_identifier (paper : Paper.t) : string :=
    if Py.truthy (Paper.doi paper) then default "" (Paper.doi paper)
    else md5_hexdigest (Py.lower (default "" (Paper.title paper))).

Definition _deduplicate_papers (papers : list Paper.t) : list Paper.t :=
    (foldl (fun (st : gset string * list Paper.t) paper =>
              let identifier := paper_identifier paper in
              if decide (identifier ∈ st.1) then st
              else ({[identifier]} ∪ st.1, st.2 ++ [paper]))
           (∅, []) papers).2.

Definition _deduplicate_patents (patents : list Patent.t) : list Patent.t :=
    (foldl (fun (st : gset string * list Patent.t) patent =>
              let pn := Patent.patent_number patent in
              if Py.truthy pn && negb (bool_decide (default "" pn ∈ st.1))
              then ({[default "" pn]} ∪ st.1, st.2 ++ [patent])
              else st)
           (∅, []) patents).2.

Definition _deduplicate_components (components : list Component.t) : list Component.t :=
    (foldl (fun (st : gset string * list Component.t) component =>
              let pn := Component.part_number component in
              if Py.truthy pn && negb (bool_decide (default "" pn ∈ st.1))
              then ({[default "" pn]} ∪ st.1, st.2 ++ [component])
              else st)
           (∅, []) components).2.

  (** The supply-chain list is passed on as it is ("already unique by
      part number"). *)
Definition _deduplicate (results : Raw.t) : result Results.t :=
    papers ← raw_items (Raw.papers results);
    let papers' := _deduplicate_papers papers in
    patents ← raw_items (Raw.patents results);
    let patents' := _deduplicate_patents patents in
    components ← raw_items (Raw.components results);
    let components' := _deduplicate_components components in
    supply_chain ← raw_items (Raw.supply_chain results);
    mret (Results.mk papers' patents' components' supply_chain None None).
End Stage1.

(** ** Stage 2: quality filter *)

Definition paper_quality (p : Paper.t) : bool :=
  Py.truthy (Paper.title p)
  && negb (bool_decide (Paper.authors p = []))
  && bool_decide (50 < String.length (default "" (Paper.abstract p)))%nat.

Definition patent_quality (p : Patent.t) : bool :=
  Py.truthy (Patent.title p) && Py.truthy (Patent.abstract p)
  && Py.truthy (Patent.patent_number p).

Definition component_quality (c : Component.t) : bool :=
  Py.truthy (Component.part_number c) && Py.truthy (Component.manufacturer c).

Definition _filter_quality (results : Results.t) : Results.t :=
  Results.mk (List.filter paper_quality (Results.papers results))
             (List.filter patent_quality (Results.patents results))
             (List.filter component_quality (Results.components results))
             (Results.supply_chain results)
             None None.

(** ** Stage 3: relevance filter *)

(** [sum(1 for x in l if f(x))] *)
Definition count_if {A} (f : A -> bool) (l : list A) : nat := length (List.filter f l).

(** [_is_relevant] reads only the title and the abstract of the item.
    The test [matches >= len(query_words) * 0.3] is on a float; for
    integers [m] and [n] it holds exactly when [3 * n <= 10 * m]. *)
Definition _is_relevant (title abstract : option string) (query : string)
    (entities : list (string * list string)) : bool :=
  let text := Py.lower (default "" title +:+ " " +:+ default "" abstract) in
  let query_words := Py.split query in
  let matches := count_if (fun word => Py.contains word text) query_words in
  let matches :=
    foldl (fun m entity_list =>
             m + count_if (fun entity => Py.contains (Py.lower entity) text) entity_list)%nat
          matches (map snd entities) in
  bool_decide (3 * length query_words <= 10 * matches)%nat.

Definition _filter_relevance (results : Results.t) (q : Query.t) : Results.t :=
  let query := Py.lower (default "" (Query.query q)) in
  let entities := Query.entities q in
  Results.mk
    (List.filter (fun p => _is_relevant (Paper.title p) (Paper.abstract p) query entities)
                 (Results.papers results))
    (List.filter (fun p => _is_relevant (Patent.title p) (Patent.abstract p) query entities)
                 (Results.patents results))
    (Results.components results)
    (Results.supply_chain results)
    None None.

(** ** Stage 4: regional filter *)

Definition eu_mfrs : list string :=
  ["infineon"; "stmicroelectronics"; "st"; "nxp"; "philips"].
Definition asia_mfrs : list string :=
  ["renesas"; "rohm"; "toshiba"; "panasonic"; "samsung"].

(** [x in l] for a list of strings *)
Definition mem (x : string) (l : list string) : bool := bool_decide (x ∈ l).

Definition _is_regional_match (manufacturer : string) (target_regions : list string) : bool :=
  let mfr_lower := Py.lower manufacturer in
  if mem "EU" target_regions && existsb (fun m => Py.contains m mfr_lower) eu_mfrs
  then true
  else if mem "Asia" target_regions && existsb (fun m => Py.contains m mfr_lower) asia_mfrs
  then true
  else (* "allow if no strict filtering" *) true.

(** [dist.get("region") in target_regions] *)
Definition region_in (target_regions : list string) (dist : Dist.t) : bool :=
  match Dist.region dist with
  | Some r => mem r target_regions
  | None => false
  end.

Definition supply_chain_regional (target_regions : list string) (sc : SupplyChain.t) : bool :=
  existsb (region_in target_regions) (values (SupplyChain.availability sc)).

Definition target_regions_of (q : Query.t) : list string :=
  default ["EU"; "Asia"] (Query.regions q).

Definition _filter_regional (results : Results.t) (q : Query.t) : Results.t :=
  let target_regions := target_regions_of q in
  Results.mk
    (Results.papers results)
    (Results.patents results)
    (List.filter (fun c => _is_regional_match (default "" (Component.manufacturer c))
                                              target_regions)
                 (Results.components results))
    (List.filter (supply_chain_regional target_regions) (Results.supply_chain results))
    (Results.cross_references results)
    (Results.component_clusters results).

(** ** Stage 5: TRL placeholders

    "This would normally call TRLProvider, but we'll add placeholders":
    a record that has no [trl] yet gets one from its lifecycle or status
    alone. *)

Definition placeholder_component (component : Component.t) : Component.t :=
  match Component.trl component with
  | Some _ => component
  | None =>
      if bool_decide (Component.lifecycle component = Some "Active")
      then Component.set_trl 9 component
      else Component.set_trl 7 component
  end.

Definition placeholder_paper (paper : Paper.t) : Paper.t :=
  match Paper.trl paper with
  | Some _ => paper
  | None => Paper.set_trl 2 paper
  end.

Definition placeholder_patent (patent : Patent.t) : Patent.t :=
  match Patent.trl patent with
  | Some _ => patent
  | None =>
      Patent.set_trl (if bool_decide (Patent.status patent = Some "Granted") then 5 else 4)
                     patent
  end.

Definition _classify_trl (results : Results.t) : Results.t :=
  Results.mk (map placeholder_paper (Results.papers results))
             (map placeholder_patent (Results.patents results))
             (map placeholder_component (Results.components results))
             (Results.supply_chain results)
             (Results.cross_references results)
             (Results.component_clusters results).

(** The assignments [component["trl"] = ...] are made on the dictionaries
    themselves, and the lists of stages 1 to 4 hold the very objects of
    [raw_results]: after stage 5 the caller's [raw_results] shows the
    [trl] of every record that survived the filters.  Objects are told
    apart by [oid]. *)
Definition assigned_in_place {A} (oid : A -> nat) (assign : A -> A)
    (survivors : list A) (x : A) : A :=
  if bool_decide (oid x ∈ map oid survivors) then assign x else x.

Definition response_map {A} (f : A -> A) (r : Response.t A) : Response.t A :=
  Response.set_data (option_map (map f) (Response.data r)) r.

Definition raw_after_classify (raw : Raw.t) (survivors : Results.t) : Raw.t :=
  Raw.mk
    (option_map (response_map (assigned_in_place Paper.oid placeholder_paper
                                 (Results.papers survivors))) (Raw.papers raw))
    (option_map (response_map (assigned_in_place Patent.oid placeholder_patent
                                 (Results.patents survivors))) (Raw.patents raw))
    (option_map (response_map (assigned_in_place Component.oid placeholder_component
                                 (Results.components survivors))) (Raw.components raw))
    (Raw.supply_chain raw).

(** ** Stage 6: cross-referencing *)

Definition text_of (title abstract : option string) : string :=
  Py.lower (default "" title +:+ " " +:+ default "" abstract).

Definition paper_to_patent (papers : list Paper.t) (patents : list Patent.t)
    : list PaperPatent.t :=
  flat_map (fun paper =>
    let paper_text := text_of (Paper.title paper) (Paper.abstract paper) in
    flat_map (fun patent =>
      let patent_num := Py.lower (default "" (Patent.patent_number patent)) in
      if negb (String.eqb patent_num "") && Py.contains patent_num paper_text
      then [PaperPatent.mk (Paper.title paper) (Patent.patent_number patent)]
      else []) patents) papers.

Definition patent_to_component (patents : list Patent.t) (components : list Component.t)
    : list PatentComponent.t :=
  flat_map (fun patent =>
    let patent_text := text_of (Patent.title patent) (Patent.abstract patent) in
    flat_map (fun component =>
      let comp_cat := Py.lower (default "" (Component.category component)) in
      if negb (String.eqb comp_cat "") && Py.contains comp_cat patent_text
      then [PatentComponent.mk (Patent.patent_number patent)
                               (Component.part_number component)]
      else []) components) patents.

Definition _cross_reference (results : Results.t) : Results.t :=
  let cross_refs :=
    CrossRefs.mk (paper_to_patent (Results.papers results) (Results.patents results))
                 (patent_to_component (Results.patents results) (Results.components results))
                 [] in
  Results.mk (Results.papers results) (Results.patents results)
             (Results.components results) (Results.supply_chain results)
             (Some cross_refs) (Results.component_clusters results).

(** ** Stage 7: ranking *)

Definition year_key (p : Paper.t) : Z := default 0%Z (Paper.year p).
Definition filing_key (p : Patent.t) : string := default "" (Patent.filing_date p).
Definition trl_key (c : Component.t) : Z := default 0%Z (Component.trl c).

Definition _rank_results (results : Results.t) (q : Query.t) : Results.t :=
  let papers := Py.sort_desc Z.ltb year_key (Results.papers results) in
  let patents := Py.sort_desc String.ltb filing_key (Results.patents results) in
  let components := Py.sort_desc Z.ltb trl_key (Results.components results) in
  Results.mk (Py.slice_to 20 papers) (Py.slice_to 20 patents)
             (Py.slice_to 30 components) (Results.supply_chain results)
             (Results.cross_references results) (Results.component_clusters results).

(** ** Stage 8: clustering by category *)

Fixpoint cluster_append (category : string) (component : Component.t)
    (clusters : list (string * list Component.t)) : list (string * list Component.t) :=
  match clusters with
  | [] => [(category, [component])]
  | (k, members) :: rest =>
      if decide (k = category) then (k, members ++ [component]) :: rest
      else (k, members) :: cluster_append category component rest
  end.

Definition _cluster_results (results : Results.t) : Results.t :=
  let clusters :=
    foldl (fun clusters component =>
             cluster_append (default "Other" (Component.category component))
                            component clusters)
          [] (Results.components results) in
  Results.mk (Results.papers results) (Results.patents results)
             (Results.components results) (Results.supply_chain results)
             (Results.cross_references results) (Some clusters).

(** ** Stage 9: synthesis *)

Module Recommendation.
Record t := mk {
    part_number : option string;
    manufacturer : option string;
    trl : option Z;
    lifecycle : option string;
    rationale : list string
  }.
End Recommendation.

(** [{"status": "no_data"}] or the four-key assessment. *)
Module SCStatus.
Record t := mk {
    status : option string;
    total_stock : option Z;
    active_components : option nat;
    components_checked : option nat
  }.
Definition no_data : t := mk (Some "no_data") None None None.
  (** [{}] *)
Definition empty : t := mk None None None None.
End SCStatus.

(** The synthesis dictionary; [empty] is [{}]. *)
Module Synthesis.
Record t := mk {
    summary : option string;
    key_findings : option (list string);
    technology_trends : option (list string);
    component_recommendations : option (list Recommendation.t);
    supply_chain_status : option SCStatus.t;
    trl_distribution : option (gmap string nat)
  }.
Definition empty : t := mk None None None None None None.
End Synthesis.

Definition _create_summary (papers : list Paper.t) (patents : list Patent.t)
    (components : list Component.t) : string :=
  "Research completed: Found " +:+ Py.str_of_nat (length papers) +:+ " academic papers, "
  +:+ Py.str_of_nat (length patents) +:+ " patents, and "
  +:+ Py.str_of_nat (length components) +:+ " components. "
  +:+ "Analysis includes TRL classification, supply chain assessment, and cross-referencing.".

Definition _extract_key_findings (results : Results.t) : list string :=
  let papers := Py.slice_to 3 (Results.papers results) in
  let findings :=
    match papers with
    | [] => []
    | first :: _ =>
        ["Recent research highlights: " +:+ default "Unknown" (Paper.title first)]
    end in
  let components :=
    List.filter (fun c => bool_decide (8 <= default 0 (Component.trl c))%Z)
                (Results.components results) in
  match components with
  | [] => findings
  | _ :: _ =>
      findings ++ [Py.str_of_nat (length components)
                   +:+ " production-ready components identified"]
  end.

Definition _identify_trends (papers : list Paper.t) (patents : list Patent.t) : list string :=
  let recent_papers :=
    List.filter (fun p => bool_decide (2023 <= default 0 (Paper.year p))%Z) papers in
  let trends :=
    if bool_decide (5 < length recent_papers)%nat
    then ["High research activity in recent years"] else [] in
  let recent_patents :=
    List.filter (fun p => negb (String.ltb (substring 0 4 (default "" (Patent.filing_date p)))
                                           "2023")) patents in
  if bool_decide (3 < length recent_patents)%nat
  then trends ++ ["Active patent filing indicates commercial interest"] else trends.

(** [{sc.get("part_number"): sc for sc in supply_chain}] : a later record
    replaces an earlier one with the same part number. *)
Definition sc_map_of (supply_chain : list SupplyChain.t) : gmap (option string) SupplyChain.t :=
  foldl (fun m sc => <[SupplyChain.part_number sc := sc]> m) ∅ supply_chain.

Definition recommend (sc_map : gmap (option string) SupplyChain.t)
    (component : Component.t) : Recommendation.t :=
  let pn := Component.part_number component in
  let rationale :=
    if bool_decide (8 <= default 0 (Component.trl component))%Z
    then ["Production-proven"] else [] in
  let rationale :=
    if bool_decide (Component.lifecycle component = Some "Active")
    then rationale ++ ["Active lifecycle"] else rationale in
  let rationale :=
    match sc_map !! pn with
    | Some sc_data =>
        let total := total_stock (SupplyChain.availability sc_data) in
        if bool_decide (1000 < total)%Z
        then rationale ++ ["Good availability (" +:+ Py.str_of_Z total +:+ " units)"]
        else rationale
    | None => rationale
    end in
  Recommendation.mk pn (Component.manufacturer component) (Component.trl component)
                    (Component.lifecycle component) rationale.

Definition _recommend_components (components : list Component.t)
    (supply_chain : list SupplyChain.t) : list Recommendation.t :=
  let sc_map := sc_map_of supply_chain in
  map (recommend sc_map) (Py.slice_to 5 components).

Definition _assess_supply_chain (supply_chain : list SupplyChain.t) : SCStatus.t :=
  match supply_chain with
  | [] => SCStatus.no_data
  | _ :: _ =>
      let total :=
        foldl (fun acc sc => acc + total_stock (SupplyChain.availability sc))%Z
              0%Z supply_chain in
      let active_count :=
        count_if (fun sc => bool_decide (SupplyChain.lifecycle sc = Some "Active"))
                 supply_chain in
      let health := if bool_decide (5000 < total)%Z then "healthy" else "low_stock" in
      SCStatus.mk (Some health) (Some total) (Some active_count)
                  (Some (length supply_chain))
  end.

Definition trl_label (trl : Z) : string := "TRL " +:+ Py.str_of_Z trl.

(** [{f"TRL {i}": 0 for i in range(1, 10)}] *)
Definition zero_distribution : gmap string nat :=
  foldr (fun i d => <[trl_label i := 0%nat]> d) ∅ [1; 2; 3; 4; 5; 6; 7; 8; 9]%Z.

(** [if trl: distribution[f"TRL {trl}"] += 1] : a level that is no key of
    the table raises [KeyError]. *)
Definition count_trl (distribution : gmap string nat) (trl : option Z)
    : result (gmap string nat) :=
  match trl with
  | None => mret distribution
  | Some v =>
      if decide (v = 0)%Z then mret distribution
      else match distribution !! trl_label v with
           | Some n => mret (<[trl_label v := S n]> distribution)
           | None => inl (KeyError (trl_label v))
           end
  end.

Fixpoint count_trls (distribution : gmap string nat) (trls : list (option Z))
    : result (gmap string nat) :=
  match trls with
  | [] => mret distribution
  | trl :: rest => d ← count_trl distribution trl; count_trls d rest
  end.

Definition _calculate_trl_distribution (results : Results.t) : result (gmap string nat) :=
  d ← count_trls zero_distribution (map Paper.trl (Results.papers results));
  d ← count_trls d (map Patent.trl (Results.patents results));
  count_trls d (map Component.trl (Results.components results)).

Definition _synthesize_findings (results : Results.t) (q : Query.t) : result Synthesis.t :=
  let papers := Results.papers results in
  let patents := Results.patents results in
  let components := Results.components results in
  let supply_chain := Results.supply_chain results in
  trl_distribution ← _calculate_trl_distribution results;
  mret (Synthesis.mk
          (Some (_create_summary papers patents components))
          (Some (_extract_key_findings results))
          (Some (_identify_trends papers patents))
          (Some (_recommend_components components supply_chain))
          (Some (_assess_supply_chain supply_chain))
          (Some trl_distribution)).

(** ** Stage 10: the report *)

(** The line feed. *)
Definition nl : string := String (ascii_of_nat 10) "".

Definition upper_ascii (c : ascii) : ascii :=
  let n := nat_of_ascii c in
  if (97 <=? n)%nat && (n <=? 122)%nat then ascii_of_nat (n - 32) else c.

(** [s.upper()] *)
Fixpoint upper (s : string) : string :=
  match s with
  | EmptyString => EmptyString
  | String c s' => String (upper_ascii c) (upper s')
  end.

(** ["".join(l)] *)
Definition cat (l : list string) : string := Py.join "" l.

(** [sum(d.values())] and [d.get(f"TRL {i}", 0)] *)
Definition sum_values (d : gmap string nat) : nat :=
  map_fold (fun _ v acc => v + acc)%nat 0%nat d.
Definition level_count (d : gmap string nat) (trl : Z) : nat :=
  default 0%nat (d !! trl_label trl).
Definition levels_count (d : gmap string nat) (levels : list Z) : nat :=
  foldr (fun i acc => level_count d i + acc)%nat 0%nat levels.

Section Report.
  (** [f"{part/total*100:.1f}"] : the one-decimal rendering of a float. *)
  Variable format_pct : nat -> nat -> string.

Definition report_header (query now : string) : string :=
    "# EE Research Report" +:+ nl +:+ nl
    +:+ "**Query:** " +:+ query +:+ nl +:+ nl
    +:+ "**Generated:** " +:+ now +:+ nl +:+ nl.

Definition executive_summary_section (synthesis : Synthesis.t) : string :=
    "## Executive Summary" +:+ nl +:+ nl
    +:+ default "No summary available" (Synthesis.summary synthesis) +:+ nl +:+ nl.

Definition bullet (s : string) : string := "- " +:+ s +:+ nl.

Definition key_findings_section (synthesis : Synthesis.t) : string :=
    match default [] (Synthesis.key_findings synthesis) with
    | [] => ""
    | findings => "## Key Findings" +:+ nl +:+ nl +:+ cat (map bullet findings) +:+ nl
    end.

Definition technology_trends_section (synthesis : Synthesis.t) : string :=
    match default [] (Synthesis.technology_trends synthesis) with
    | [] => ""
    | trends => "## Technology Trends" +:+ nl +:+ nl +:+ cat (map bullet trends) +:+ nl
    end.

Definition recommendation_entry (i : nat) (rec : Recommendation.t) : string :=
    Py.str_of_nat i +:+ ". **" +:+ Py.fmt_str (Recommendation.part_number rec)
    +:+ "** (" +:+ Py.fmt_str (Recommendation.manufacturer rec) +:+ ")" +:+ nl
    +:+ "   - TRL: " +:+ Py.fmt_Z (Recommendation.trl rec) +:+ nl
    +:+ "   - Lifecycle: " +:+ Py.fmt_str (Recommendation.lifecycle rec) +:+ nl
    +:+ match Recommendation.rationale rec with
        | [] => ""
        | rationale => "   - Rationale: " +:+ Py.join ", " rationale +:+ nl
        end
    +:+ nl.

  (** [enumerate(l, start)] *)
Fixpoint enumerate {A} (start : nat) (l : list A) : list (nat * A) :=
    match l with
    | [] => []
    | x :: l' => (start, x) :: enumerate (S start) l'
    end.

Definition recommended_components_section (synthesis : Synthesis.t) : string :=
    match default [] (Synthesis.component_recommendations synthesis) with
    | [] => ""
    | recommendations =>
        "## Recommended Components" +:+ nl +:+ nl
        +:+ cat (map (fun ir => recommendation_entry ir.1 ir.2)
                     (enumerate 1 recommendations))
    end.

Definition supply_chain_section (synthesis : Synthesis.t) : string :=
    let sc_status := default SCStatus.empty (Synthesis.supply_chain_status synthesis) in
    if bool_decide (SCStatus.status sc_status = Some "no_data") then ""
    else
      "## Supply Chain Status" +:+ nl +:+ nl
      +:+ "- Overall Health: **" +:+ upper (default "Unknown" (SCStatus.status sc_status))
      +:+ "**" +:+ nl
      +:+ "- Total Stock: " +:+ Py.str_of_Z (default 0%Z (SCStatus.total_stock sc_status))
      +:+ " units" +:+ nl
      +:+ "- Active Components: "
      +:+ Py.str_of_nat (default 0%nat (SCStatus.active_components sc_status))
      +:+ nl +:+ nl.

Definition trl_row (trl_dist : gmap string nat) (trl : Z) : string :=
    let count := level_count trl_dist trl in
    if bool_decide (0 < count)%nat
    then "| TRL " +:+ Py.str_of_Z trl +:+ " | " +:+ Py.str_of_nat count +:+ " |" +:+ nl
    else "".

Definition trl_distribution_section (synthesis : Synthesis.t) : string :=
    let trl_dist := default ∅ (Synthesis.trl_distribution synthesis) in
    if bool_decide (0 < sum_values trl_dist)%nat
    then "## Technology Readiness Distribution" +:+ nl +:+ nl
         +:+ "| TRL Level | Count |" +:+ nl
         +:+ "|-----------|-------|" +:+ nl
         +:+ cat (map (trl_row trl_dist) [1; 2; 3; 4; 5; 6; 7; 8; 9]%Z)
         +:+ nl
    else "".

Definition maturity_section (synthesis : Synthesis.t) : string :=
    let trl_dist := default ∅ (Synthesis.trl_distribution synthesis) in
    let research := levels_count trl_dist [1; 2; 3]%Z in
    let development := levels_count trl_dist [4; 5; 6]%Z in
    let production := levels_count trl_dist [7; 8; 9]%Z in
    let total := (research + development + production)%nat in
    if bool_decide (0 < total)%nat
    then "## Maturity Assessment" +:+ nl +:+ nl
         +:+ "- Research Phase (TRL 1-3): " +:+ format_pct research total +:+ "%" +:+ nl
         +:+ "- Development Phase (TRL 4-6): " +:+ format_pct development total +:+ "%" +:+ nl
         +:+ "- Production Phase (TRL 7-9): " +:+ format_pct production total +:+ "%"
         +:+ nl +:+ nl
    else "".

Definition report_footer : string :=
    "---" +:+ nl +:+ nl
    +:+ "*This report was generated by EE Research Scout - A Sentient Agent Framework application*"
    +:+ nl.

  (** [now] is [datetime.utcnow().strftime('%Y-%m-%d %H:%M UTC')]. *)
Definition _generate_report (synthesis : Synthesis.t) (q : Query.t) (now : string) : string :=
    report_header (default "Unknown query" (Query.query q)) now
    +:+ executive_summary_section synthesis
    +:+ key_findings_section synthesis
    +:+ technology_trends_section synthesis
    +:+ recommended_components_section synthesis
    +:+ supply_chain_section synthesis
    +:+ trl_distribution_section synthesis
    +:+ maturity_section synthesis
    +:+ report_footer.
End Report.

(** ** The pipeline *)

Definition _count_findings (results : Results.t) : nat :=
  length (Results.papers results) + length (Results.patents results)
  + length (Results.components results) + length (Results.supply_chain results).

(** [_count_findings] applied to a [raw_results]: [len] of each provider
    response that is present. *)
Definition _count_findings_raw (raw : Raw.t) : nat :=
  from_option Response.len 0%nat (Raw.papers raw)
  + from_option Response.len 0%nat (Raw.patents raw)
  + from_option Response.len 0%nat (Raw.components raw)
  + from_option Response.len 0%nat (Raw.supply_chain raw).

Module Metadata.
Record t := mk {
    pipeline_stages : nat;
    total_findings : nat;
    processing_timestamp : string
  }.
End Metadata.

(** What [process] returns.  [processed_results] holds the [results] of
    stage 8 after a complete run and the caller's [raw_results] after a
    fault. *)
Module Output.
Record t := mk {
    error : option string;
    processed_results : Raw.t + Results.t;
    synthesis : Synthesis.t;
    report : string;
    metadata : option Metadata.t
  }.
End Output.

Section Process.
  Variable md5_hexdigest : string -> string.
  Variable format_pct : nat -> nat -> string.

  (** The [except Exception] branch. *)
Definition on_exception (e : exn) (raw_results : Raw.t) : Output.t :=
    Output.mk (Some (str_exn e)) (inl raw_results) Synthesis.empty
              "Error processing results" None.

  (** Stages 1 to 4, up to the first assignment into the records. *)
Definition stages_1_to_4 (raw_results : Raw.t) (q : Query.t) : result Results.t :=
    results ← _deduplicate md5_hexdigest raw_results;
    let results := _filter_quality results in
    let results := _filter_relevance results q in
    mret (_filter_regional results q).

  (** Stages 5 to 8. *)
Definition stages_5_to_8 (results : Results.t) (q : Query.t) : Results.t :=
    let results := _classify_trl results in
    let results := _cross_reference results in
    let results := _rank_results results q in
    _cluster_results results.

  (** [now_report] and [now_meta] are the two readings of the clock
      (stage 10 and the metadata block). *)
Definition process (raw_results : Raw.t) (q : Query.t) (now_report now_meta : string)
      : Output.t :=
    match stages_1_to_4 raw_results q with
    | inl e => on_exception e raw_results
    | inr filtered =>
        let results := stages_5_to_8 filtered q in
        match _synthesize_findings results q with
        | inl e => on_exception e (raw_after_classify raw_results filtered)
        | inr synthesis =>
            let report := _generate_report format_pct synthesis q now_report in
            Output.mk None (inr results) synthesis report
                      (Some (Metadata.mk 10 (_count_findings results) now_meta))
        end
    end.

  (** [validate_results]: the three keys are present in every [Output.t];
      what is left is the count of findings. *)
Definition validate_results (results : Output.t) : bool :=
    match Output.processed_results results with
    | inl raw => bool_decide (0 < _count_findings_raw raw)%nat
    | inr processed => bool_decide (0 < _count_findings processed)%nat
    end.
End Process.

(** ** TRLProvider: the classification paths *)

Module TRLProvider.

  (** [self.trl_indicators.get(trl, [])] *)
Definition trl_indicators (trl : Z) : list string :=
    match trl with
    | 1 => ["theoretical"; "principle"; "basic research"; "hypothesis"; "concept"]
    | 2 => ["concept"; "feasibility"; "proposed"; "initial design"; "formulated"]
    | 3 => ["experiment"; "proof of concept"; "lab test"; "prototype"; "demonstration"]
    | 4 => ["laboratory validation"; "component test"; "bench test"; "validated"]
    | 5 => ["field test"; "relevant environment"; "pilot"; "validation"]
    | 6 => ["prototype demonstration"; "system test"; "beta"; "engineering"]
    | 7 => ["pre-production"; "qualification"; "operational test"; "prototype"]
    | 8 => ["production"; "qualified"; "certified"; "compliant"; "manufacturing"]
    | 9 => ["deployed"; "commercial"; "mass production"; "proven"; "operational"]
    | _ => []
    end%Z.

(** [min(a, b)] of two floats: [b] when [b < a], else [a] *)
Definition float_min (a b : float) : float := if (b <? a)%float then b else a.
(** [float(n)] of a length *)
Definition float_of_nat (n : nat) : float := PrimFloat.of_uint63 (Uint63.of_Z (Z.of_nat n)).

  (** [len([d for d in availability.values() if d.get("stock", 0) > 0])] *)
Definition distributor_count (availability : availability_map) : nat :=
    count_if (fun d => bool_decide (0 < default 0 (Dist.stock d))%Z) (values availability).

Definition justify (trl : Z) (reasons : list string) : string :=
    "TRL " +:+ Py.str_of_Z trl +:+ ": " +:+ Py.join "; " reasons.

Definition _classify_component (component : Component.t) : Z * float * string :=
    let lifecycle := Py.lower (default "" (Component.lifecycle component)) in
    (* 1. lifecycle status *)
    let '(trl, reasons) :=
      if String.eqb lifecycle "active" then
        let availability := Component.availability component in
        let total := total_stock availability in
        let count := distributor_count availability in
        if bool_decide (1000 < total)%Z && bool_decide (2 <= count)%nat then
          (9%Z, ["Mass production: " +:+ Py.str_of_Z total +:+ " units across "
                 +:+ Py.str_of_nat count +:+ " distributors"])
        else if bool_decide (100 < total)%Z then
          (8%Z, ["Production qualified: " +:+ Py.str_of_Z total +:+ " units available"])
        else (7%Z, ["Active lifecycle with limited production"])
      else if String.eqb lifecycle "nrnd" then
        (8%Z, ["Not recommended for new design (was production-ready)"])
      else if String.eqb lifecycle "obsolete" then
        (9%Z, ["Obsolete (was fully deployed)"])
      else (5%Z, []) in
    (* 2. datasheet *)
    let '(trl, reasons) :=
      if Py.truthy (Component.datasheet_url component)
      then ((if bool_decide (trl < 7)%Z then 7%Z else trl),
            reasons ++ ["Published datasheet available"])
      else (trl, reasons) in
    (* 3. specifications *)
    let specs := Component.specifications component in
    let reasons :=
      if bool_decide (5 < length specs)%nat
      then reasons ++ ["Comprehensive specifications (" +:+ Py.str_of_nat (length specs)
                       +:+ " parameters)"]
      else reasons in
    (* 4. application notes *)
    let reasons :=
      match Component.applications component with
      | [] => reasons
      | apps => reasons ++ ["Documented applications: " +:+ Py.str_of_nat (length apps)]
      end in
    let confidence := 0.6%float in
    let confidence :=
      if mem lifecycle ["active"; "nrnd"; "obsolete"]
      then (confidence + 0.2)%float else confidence in
    let confidence :=
      match Component.availability component with
      | [] => confidence
      | _ :: _ => (confidence + 0.1)%float
      end in
    let confidence :=
      if Py.truthy (Component.datasheet_url component)
      then (confidence + 0.1)%float else confidence in
    let confidence := float_min confidence 1.0%float in
    (trl, confidence, justify trl reasons).

  (** [[ind for ind in indicators if ind in text]] *)
Definition matches_of (text : string) (trl : Z) : list string :=
    List.filter (fun ind => Py.contains ind text) (trl_indicators trl).

  (** The [for trl in range(9, 0, -1): ... break] loop over the levels
      still to visit; the state is [(detected_trl, confidence, reasons)]. *)
Fixpoint scan (text : string) (levels : list Z) (st : Z * float * list string)
      : Z * float * list string :=
    match levels with
    | [] => st
    | trl :: rest =>
        match matches_of text trl with
        | [] => scan text rest st
        | matches =>
            (trl,
             (0.6 + float_of_nat (length matches) * 0.05)%float,
             st.2 ++ ["Indicators: " +:+ Py.join ", " (Py.slice_to 3 matches)])
        end
    end.

Definition descending_levels : list Z := [9; 8; 7; 6; 5; 4; 3; 2; 1]%Z.

Definition adjusted_note : string := "Adjusted: papers typically describe TRL ≤ 6".

Definition _classify_paper (paper : Paper.t) : Z * float * string :=
    let text := text_of (Paper.title paper) (Paper.abstract paper) in
    let '(detected_trl, confidence, reasons) :=
      scan text descending_levels (2%Z, 0.5%float, []) in
    let '(detected_trl, reasons) :=
      if bool_decide (6 < detected_trl)%Z
      then (Z.min detected_trl 6, reasons ++ [adjusted_note])
      else (detected_trl, reasons) in
    let reasons := reasons ++ ["Source: academic paper"] in
    let confidence := float_min confidence 0.8%float in
    (detected_trl, confidence, justify detected_trl reasons).

(** *** The patent path *)

(** [range(9, base_trl, -1)] *)
Definition levels_above (base_trl : Z) : list Z :=
  List.filter (fun trl => (base_trl <? trl)%Z) descending_levels.

(** The upgrade loop of [_classify_patent]; the state is
    [(base_trl, confidence, reasons)]. *)
Fixpoint scan_upgrade (text : string) (levels : list Z) (st : Z * float * list string)
    : Z * float * list string :=
  match levels with
  | [] => st
  | trl :: rest =>
      match matches_of text trl with
      | [] => scan_upgrade text rest st
      | matches =>
          (trl, (st.1.2 + 0.1)%float,
           st.2 ++ ["Indicators: " +:+ Py.join ", " (Py.slice_to 2 matches)])
      end
  end.

Definition patent_adjusted_note : string := "Adjusted: patents typically describe TRL ≤ 7".

Definition _classify_patent (patent : Patent.t) : Z * float * string :=
  let text := text_of (Patent.title patent) (Patent.abstract patent) in
  let status := Py.lower (default "" (Patent.status patent)) in
  let st :=
    if Py.contains "granted" status
    then (5%Z, 0.7%float, ["Granted patent"])
    else (4%Z, 0.6%float, ["Pending patent"]) in
  let '(base_trl, confidence, reasons) := scan_upgrade text (levels_above st.1.1) st in
  let '(base_trl, reasons) :=
    if bool_decide (7 < base_trl)%Z
    then (7%Z, reasons ++ [patent_adjusted_note])
    else (base_trl, reasons) in
  let confidence := float_min confidence 0.85%float in
  (base_trl, confidence, justify base_trl reasons).

(** *** [fetch] and the batch mode *)

(** [self.trl_definitions.get(trl)] *)
Definition trl_definitions (trl : Z) : option string :=
  match trl with
  | 1 => Some "Basic principles observed and reported"
  | 2 => Some "Technology concept and/or application formulated"
  | 3 => Some "Analytical and experimental critical function proof of concept"
  | 4 => Some "Component validation in laboratory environment"
  | 5 => Some "Component validation in relevant environment"
  | 6 => Some "System/subsystem model or prototype in relevant environment"
  | 7 => Some "System prototype demonstration in operational environment"
  | 8 => Some "Actual system completed and qualified through test and demonstration"
  | 9 => Some "Actual system proven through successful mission operations"
  | _ => None
  end%Z.

(** What [_create_response] builds: [data] is [None] on failure. *)
Record reply (A : Type) := Reply {
  reply_provider : string;
  reply_success : bool;
  reply_data : option A;
  reply_error : option string;
  reply_timestamp : string
}.
Arguments Reply {A}.
Arguments reply_provider {A}.
Arguments reply_success {A}.
Arguments reply_data {A}.
Arguments reply_error {A}.
Arguments reply_timestamp {A}.

Definition _create_response {A} (success : bool) (data : option A) (error : option string)
    (now : string) : reply A :=
  Reply "TRLProvider" success data error now.

(** The [data] of a classification. *)
Record trl_data := TrlData {
  data_trl : option Z;
  data_confidence : float;
  data_justification : string;
  data_definition : option string;
  data_entity_type : string;
  data_entity_id : string
}.

Definition present {A} (o : option A) : bool :=
  match o with
  | Some _ => true
  | None => false
  end.

(** [bool(d)] of a record dictionary: some key is present.  (A key that
    holds an empty list counts as absent, as everywhere in the records.) *)
Definition component_truthy (c : Component.t) : bool :=
  present (Component.part_number c) || present (Component.manufacturer c)
  || present (Component.category c) || present (Component.lifecycle c)
  || negb (bool_decide (Component.specifications c = []))
  || negb (bool_decide (Component.features c = []))
  || negb (bool_decide (Component.applications c = []))
  || present (Component.datasheet_url c)
  || negb (bool_decide (Component.availability c = []))
  || negb (bool_decide (Component.supply_chain c = []))
  || present (Component.specs_efficiency c)
  || present (Component.pricing_unit_price_usd c)
  || present (Component.trl c).

Definition paper_truthy (p : Paper.t) : bool :=
  present (Paper.title p) || negb (bool_decide (Paper.authors p = []))
  || present (Paper.abstract p) || present (Paper.year p)
  || present (Paper.doi p) || present (Paper.trl p).

Definition patent_truthy (p : Patent.t) : bool :=
  present (Patent.patent_number p) || present (Patent.title p)
  || present (Patent.abstract p) || present (Patent.filing_date p)
  || present (Patent.status p) || present (Patent.trl p).

Definition arg_given {A} (truthy : A -> bool) (arg : option A) : option A :=
  match arg with
  | Some x => if truthy x then Some x else None
  | None => None
  end.

Definition classified (c : Z * float * string) (entity_type entity_id : string) (now : string)
    : reply trl_data :=
  let '(trl, confidence, justification) := c in
  _create_response true
    (Some (TrlData (Some trl) confidence justification (trl_definitions trl)
                   entity_type entity_id))
    None now.

(** [fetch(component=..., paper=..., patent=...)]: the first argument that
    is given and not an empty dictionary decides; with none the
    [ValueError] raised inside is caught and reported. *)
Definition fetch (component : option Component.t) (paper : option Paper.t)
    (patent : option Patent.t) (now : string) : reply trl_data :=
  match arg_given component_truthy component with
  | Some c =>
      classified (_classify_component c) "component"
                 (default "unknown" (Component.part_number c)) now
  | None =>
      match arg_given paper_truthy paper with
      | Some p =>
          classified (_classify_paper p) "paper" (default "unknown" (Paper.title p)) now
      | None =>
          match arg_given patent_truthy patent with
          | Some p =>
              classified (_classify_patent p) "patent"
                         (default "unknown" (Patent.patent_number p)) now
          | None =>
              _create_response false None
                               (Some "No data provided for TRL classification") now
          end
      end
  end.

(** [validate_response]: [response.get("data", {}).get("trl")] raises on a
    response whose [data] is [None]. *)
Definition validate_response (response : reply trl_data) : result bool :=
  match reply_data response with
  | None => inl none_has_no_get
  | Some data =>
      inr (match data_trl data with
           | Some trl => bool_decide (1 <= trl)%Z && bool_decide (trl <= 9)%Z
           | None => false
           end)
  end.

Record classification := Classification {
  cls_type : string;
  cls_id : option string;
  cls_trl : option Z
}.

(** [result["data"]["trl"]] of a successful reply *)
Definition reply_trl (r : reply trl_data) : option Z :=
  from_option data_trl None (reply_data r).

(** One [for] loop of [classify_batch]: a reply that is no success adds
    nothing. *)
Definition classify_each {A} (run : A -> reply trl_data) (type : string)
    (id : A -> option string) (items : list A) : list classification :=
  flat_map (fun item =>
              let r := run item in
              if reply_success r then [Classification type (id item) (reply_trl r)]
              else []) items.

(** [paper.get("title", "")[:50]] *)
Definition paper_batch_id (p : Paper.t) : option string :=
  Some (substring 0 50 (default "" (Paper.title p))).

Definition _calculate_distribution (classifications : list classification)
    : result (gmap string nat) :=
  count_trls zero_distribution (map cls_trl classifications).

Record analysis := Analysis {
  an_status : option string;
  an_research : option string;
  an_development : option string;
  an_production : option string;
  an_overall_maturity : option string;
  an_total_classified : option nat
}.

Section Analyze.
(** [f"{part/total*100:.1f}"] *)
Variable format_pct : nat -> nat -> string.

(** The tests [production > 60], [development > 50], [research > 50] are
    on the floats [part / total * 100]; on counts they are the integer
    comparisons below. *)
Definition _analyze_distribution (distribution : gmap string nat) : analysis :=
  let total := sum_values distribution in
  if decide (total = 0) then Analysis (Some "no_data") None None None None None
  else
    let research := levels_count distribution [1; 2; 3]%Z in
    let development := levels_count distribution [4; 5; 6]%Z in
    let production := levels_count distribution [7; 8; 9]%Z in
    let maturity :=
      if bool_decide (60 * total < 100 * production)
      then "Mature - predominantly production-ready solutions"
      else if bool_decide (50 * total < 100 * development)
      then "Active development - solutions approaching market"
      else if bool_decide (50 * total < 100 * research)
      then "Early research - mostly experimental solutions"
      else "Mixed maturity - solutions at various stages" in
    Analysis None
             (Some (format_pct research total +:+ "%"))
             (Some (format_pct development total +:+ "%"))
             (Some (format_pct production total +:+ "%"))
             (Some maturity) (Some total).

Record batch_data := BatchData {
  batch_classifications : list classification;
  batch_distribution : gmap string nat;
  batch_analysis : analysis
}.

(** [classify_batch]: a missing or empty list is skipped; a [KeyError] of
    [_calculate_distribution] is not caught. *)
Definition classify_batch (components : list Component.t) (papers : list Paper.t)
    (patents : list Patent.t) (now : string) : result (reply batch_data) :=
  let classifications :=
    classify_each (fun comp => fetch (Some comp) None None now) "component"
                  Component.part_number components
    ++ classify_each (fun paper => fetch None (Some paper) None now) "paper"
                     paper_batch_id papers
    ++ classify_each (fun patent => fetch None None (Some patent) now) "patent"
                     Patent.patent_number patents in
  distribution ← _calculate_distribution classifications;
  mret (_create_response true
          (Some (BatchData classifications distribution
                           (_analyze_distribution distribution)))
          None now).
End Analyze.

End TRLProvider.

(** ** ReportGenerator (the aggregator): scored recommendations *)

Module ReportGenerator.

Definition Qc_ltb (a b : Qc) : bool := bool_decide (a < b)%Qc.

(** [_calculate_component_score]: [score] starts at [0.0] and receives
    up to four additions; [if efficiency:] is false for a missing
    efficiency and for zero. *)
Definition _calculate_component_score (component : Component.t) : float :=
  let score := 0.0%float in
  let trl := default 0%Z (Component.trl component) in
  let score :=
    if bool_decide (8 <= trl)%Z then (score + 30)%float
    else if bool_decide (6 <= trl)%Z then (score + 20)%float
    else (score + 10)%float in
  let lifecycle := default "" (Component.lifecycle component) in
  let score :=
    if String.eqb lifecycle "Active" then (score + 25)%float
    else if String.eqb lifecycle "NRND" then (score + 5)%float
    else score in
  let total := total_stock (Component.supply_chain component) in
  let score :=
    if bool_decide (1000 < total)%Z then (score + 20)%float
    else if bool_decide (100 < total)%Z then (score + 10)%float
    else score in
  match Component.specs_efficiency component with
  | Some efficiency =>
      if (efficiency =? 0)%float then score
      else (score + efficiency / 100 * 25)%float
  | None => score
  end.

  Section Formatting.
    (** [f"{x}"] of a number *)
    Variable format_number : Qc -> string.
    Variable format_float : float -> string.

Definition _explain_recommendation (component : Component.t) : string :=
      let reasons :=
        if bool_decide (8 <= default 0 (Component.trl component))%Z
        then ["production-ready (TRL 8+)"] else [] in
      let reasons :=
        if bool_decide (Component.lifecycle component = Some "Active")
        then reasons ++ ["active lifecycle"] else reasons in
      let reasons :=
        if bool_decide (1000 < total_stock (Component.supply_chain component))%Z
        then reasons ++ ["good availability"] else reasons in
      let reasons :=
        match Component.specs_efficiency component with
        | Some efficiency =>
            if negb (efficiency =? 0)%float && (90 <? efficiency)%float
            then reasons ++ ["high efficiency (" +:+ format_float efficiency +:+ "%)"]
            else reasons
        | None => reasons
        end in
      match reasons with
      | [] => "General purpose use"
      | _ :: _ => "Recommended for: " +:+ Py.join ", " reasons
      end.

Definition _extract_pros (component : Component.t) : list string :=
      let pros := Py.slice_to 3 (Component.features component) in
      let pros :=
        if bool_decide (8 <= default 0 (Component.trl component))%Z
        then pros ++ ["Production-proven"] else pros in
      let pros :=
        if bool_decide (Component.lifecycle component = Some "Active")
        then pros ++ ["Long-term availability"] else pros in
      Py.slice_to 5 pros.

Definition _extract_cons (component : Component.t) : list string :=
      let cons :=
        if bool_decide (Component.lifecycle component = Some "NRND")
        then ["Not recommended for new designs"] else [] in
      let cons :=
        if bool_decide (total_stock (Component.supply_chain component) < 100)%Z
        then cons ++ ["Limited availability"] else cons in
      let cons :=
        if bool_decide (default 0 (Component.trl component) < 7)%Z
        then cons ++ ["Not yet production-ready"] else cons in
      let unit_price := default (Q2Qc 0) (Component.pricing_unit_price_usd component) in
      let cons :=
        if Qc_ltb (Q2Qc 10) unit_price
        then cons ++ ["Higher cost ($" +:+ format_number unit_price +:+ ")"] else cons in
      match cons with
      | [] => ["None significant"]
      | _ :: _ => cons
      end.

  End Formatting.

End ReportGenerator.

(** * Properties *)

(** ** Identity keys *)

(** The identity key of a patent or a component is its number when it has
    one ([pn and ...]: a missing or empty number is no key). *)
Definition key_of (pn : option string) : option string :=
  if Py.truthy pn then pn else None.
Definition patent_key (p : Patent.t) : option string := key_of (Patent.patent_number p).
Definition component_key (c : Component.t) : option string :=
  key_of (Component.part_number c).
Definition paper_key (md5_hexdigest : string -> string) (p : Paper.t) : option string :=
  Some (paper_identifier md5_hexdigest p).

(** The first record of [l] whose key is [k]. *)
Definition first_with {A} (key : A -> option string) (k : string) (l : list A) : option A :=
  List.find (fun x => bool_decide (key x = Some k)) l.

(** ** The deduplication loop *)

Section DedupFacts.
Context {A : Type} (key : A -> option string).

(** The loop, read from the left: what is kept of [l] once the keys of
    [seen] are taken. *)
Fixpoint dedup_from (seen : gset string) (l : list A) : list A :=
  match l with
  | [] => []
  | x :: l' =>
      match key x with
      | Some k =>
          if decide (k ∈ seen) then dedup_from seen l'
          else x :: dedup_from ({[k]} ∪ seen) l'
      | None => dedup_from seen l'
      end
  end.

Lemma dedup_loop_from seen acc l :
  (foldl (dedup_step key) (seen, acc) l).2 = acc ++ dedup_from seen l.
Proof.
  revert seen acc. induction l as [|x l IH]; intros seen acc; simpl.
  - by rewrite app_nil_r.
  - unfold dedup_step at 2. simpl. destruct (key x) as [k|]; [|apply IH].
    destruct (decide (k ∈ seen)); [apply IH|].
    rewrite IH, <- app_assoc. reflexivity.
Qed.

Lemma dedup_loop_spec l : dedup_loop key l = dedup_from ∅ l.
Proof. unfold dedup_loop. by rewrite dedup_loop_from. Qed.

Lemma dedup_from_fresh seen l :
  Forall (fun x => exists k, key x = Some k /\ k ∉ seen) (dedup_from seen l).
Proof.
  revert seen. induction l as [|x l IH]; intros seen; simpl; [constructor|].
  destruct (key x) as [k|] eqn:Hk; [|apply IH].
  destruct (decide (k ∈ seen)) as [|Hfresh]; [apply IH|].
  constructor; [eauto|].
  eapply Forall_impl; [apply IH|]. simpl.
  intros y (k' & Hy & Hk'). exists k'. split; [done|]. set_solver.
Qed.

Lemma dedup_from_NoDup seen l : NoDup (omap key (dedup_from seen l)).
Proof.
  revert seen. induction l as [|x l IH]; intros seen; simpl; [constructor|].
  destruct (key x) as [k|] eqn:Hk; [|apply IH].
  destruct (decide (k ∈ seen)); [apply IH|].
  simpl. rewrite Hk. constructor; [|apply IH].
  intros Hin. apply list_elem_of_omap in Hin as (y & Hy & Hky).
  pose proof (dedup_from_fresh ({[k]} ∪ seen) l) as Hf.
  rewrite Forall_forall in Hf. destruct (Hf y Hy) as (k' & Hk' & Hnot).
  rewrite Hky in Hk'. injection Hk' as <-. set_solver.
Qed.

Lemma dedup_from_sublist seen l : dedup_from seen l `sublist_of` l.
Proof.
  revert seen. induction l as [|x l IH]; intros seen; simpl; [constructor|].
  destruct (key x) as [k|]; [|by constructor].
  destruct (decide (k ∈ seen)); by constructor.
Qed.

(** A list that has a key everywhere, none of them seen and no two equal,
    passes the loop unchanged. *)
Lemma dedup_from_fixed seen l :
  Forall (fun x => exists k, key x = Some k /\ k ∉ seen) l ->
  NoDup (omap key l) ->
  dedup_from seen l = l.
Proof.
  revert seen. induction l as [|x l IH]; intros seen Hall Hnd; simpl; [done|].
  apply Forall_cons in Hall as [(k & Hk & Hfresh) Hall].
  simpl in Hnd. rewrite Hk in Hnd |- *. apply NoDup_cons in Hnd as [Hk_l Hnd].
  destruct (decide (k ∈ seen)); [done|]. f_equal. apply IH; [|done].
  rewrite Forall_forall in Hall |- *. intros y Hy.
  destruct (Hall y Hy) as (k' & Hk' & Hfresh'). exists k'. split; [done|].
  assert (k' ≠ k) as Hne.
  { intros ->. apply Hk_l. apply list_elem_of_omap. eauto. }
  rewrite not_elem_of_union, not_elem_of_singleton. done.
Qed.

Lemma dedup_from_idempotent l : dedup_from ∅ (dedup_from ∅ l) = dedup_from ∅ l.
Proof. apply dedup_from_fixed; [apply dedup_from_fresh | apply dedup_from_NoDup]. Qed.

(** First occurrence wins: the record kept under a key is the first of
    the input that carries it. *)
Lemma dedup_from_first seen k l :
  k ∉ seen -> first_with key k (dedup_from seen l) = first_with key k l.
Proof.
  unfold first_with. revert seen. induction l as [|x l IH]; intros seen Hk; simpl; [done|].
  destruct (key x) as [k0|] eqn:Hx.
  - destruct (decide (k0 ∈ seen)) as [Hin|Hout].
    + rewrite bool_decide_eq_false_2 by (intros [= ->]; done). by apply IH.
    + simpl. rewrite Hx. case_bool_decide as Heq; [done|].
      apply IH. assert (k ≠ k0) as Hne by congruence.
      rewrite not_elem_of_union, not_elem_of_singleton. done.
  - rewrite bool_decide_eq_false_2 by done. by apply IH.
Qed.

(** No key is lost: every key of the input is the key of a survivor. *)
Lemma dedup_from_complete l :
  Forall (fun x => forall k, key x = Some k -> k ∈ omap key (dedup_from ∅ l)) l.
Proof.
  rewrite Forall_forall. intros x Hx k Hk.
  destruct (first_with key k l) as [y|] eqn:Hfind.
  - rewrite <- (dedup_from_first ∅ k l) in Hfind by set_solver.
    apply find_some in Hfind as [Hy Hky]. apply bool_decide_eq_true in Hky.
    apply list_elem_of_omap. exists y. split; [by apply list_elem_of_In|done].
  - unfold first_with in Hfind.
    eapply find_none in Hfind; [|by apply list_elem_of_In].
    apply bool_decide_eq_false in Hfind. done.
Qed.

Lemma omap_total (g : A -> string) l :
  Forall (fun x => key x = Some (g x)) l -> omap key l = map g l.
Proof.
  induction 1 as [|x l Hx _ IH]; [done|].
  change (omap key (x :: l)) with
    (match key x with Some y => y :: omap key l | None => omap key l end).
  rewrite Hx, IH. reflexivity.
Qed.
End DedupFacts.

(** ** Stage 1 *)

Section Stage1Facts.
Variable md5_hexdigest : string -> string.

Lemma foldl_step_ext {S B} (f g : S -> B -> S) (l : list B) (st : S) :
  (forall st x, f st x = g st x) -> foldl f st l = foldl g st l.
Proof.
  intros Hfg. revert st. induction l as [|x l IH]; intros st; simpl; [done|].
  by rewrite Hfg, IH.
Qed.

Lemma key_of_step {B} (pn : option string) (x : B) (st : gset string * list B) :
  (if Py.truthy pn && negb (bool_decide (default "" pn ∈ st.1))
   then ({[default "" pn]} ∪ st.1, st.2 ++ [x]) else st)
  = match key_of pn with
    | Some k => if decide (k ∈ st.1) then st else ({[k]} ∪ st.1, st.2 ++ [x])
    | None => st
    end.
Proof.
  unfold key_of. destruct pn as [s|]; simpl; [|done].
  destruct (String.eqb s ""); simpl; [done|].
  destruct (decide (s ∈ st.1)) as [Hin|Hout].
  - by rewrite bool_decide_eq_true_2.
  - by rewrite bool_decide_eq_false_2.
Qed.

Lemma deduplicate_papers_loop papers :
  _deduplicate_papers md5_hexdigest papers = dedup_from (paper_key md5_hexdigest) ∅ papers.
Proof.
  rewrite <- dedup_loop_spec. reflexivity.
Qed.

Lemma deduplicate_patents_loop patents :
  _deduplicate_patents patents = dedup_from patent_key ∅ patents.
Proof.
  rewrite <- dedup_loop_spec. unfold _deduplicate_patents, dedup_loop. f_equal.
  apply foldl_step_ext. intros st patent. apply key_of_step.
Qed.

Lemma deduplicate_components_loop components :
  _deduplicate_components components = dedup_from component_key ∅ components.
Proof.
  rewrite <- dedup_loop_spec. unfold _deduplicate_components, dedup_loop. f_equal.
  apply foldl_step_ext. intros st component. apply key_of_step.
Qed.

Lemma key_of_truthy pn k : key_of pn = Some k -> Py.truthy pn = true /\ pn = Some k.
Proof. unfold key_of. destruct (Py.truthy pn); [by intros ->|done]. Qed.

(** Every survivor of a loop over [key_of] has its number. *)
Lemma survivors_have_number {B} (number : B -> option string) (l : list B) :
  Forall (fun x => Py.truthy (number x) = true)
         (dedup_from (fun x => key_of (number x)) ∅ l).
Proof.
  eapply Forall_impl; [apply dedup_from_fresh|]. simpl.
  intros x (k & Hk & _). by apply key_of_truthy in Hk as [? _].
Qed.

Lemma survivors_numbers_NoDup {B} (number : B -> option string) (l : list B) :
  NoDup (map number (dedup_from (fun x => key_of (number x)) ∅ l)).
Proof.
  pose proof (dedup_from_NoDup (fun x => key_of (number x)) ∅ l) as Hnd.
  rewrite (omap_total _ (fun x => default "" (number x))) in Hnd.
  - apply (NoDup_fmap_1 (default "")).
    by rewrite <- list_fmap_compose.
  - eapply Forall_impl; [apply dedup_from_fresh|]. simpl.
    intros x (k & Hk & _). rewrite Hk. apply key_of_truthy in Hk as [_ ->]. done.
Qed.

Lemma papers_identifiers_NoDup papers :
  NoDup (map (paper_identifier md5_hexdigest) (_deduplicate_papers md5_hexdigest papers)).
Proof.
  rewrite deduplicate_papers_loop.
  rewrite <- (omap_total (paper_key md5_hexdigest)).
  - apply dedup_from_NoDup.
  - apply Forall_forall. done.
Qed.
End Stage1Facts.

(** *** Examples used below *)

(** A stand-in for the digest in closed examples (none of them depends on
    which function it is). *)
Definition digest_stub (s : string) : string := "md5:" +:+ s.

Definition long_abstract : string :=
  "A gallium nitride half bridge stage is characterised on a bench with EP1234567 as the reference design.".

Definition paper_a : Paper.t :=
  Paper.mk 1 (Some "GaN half bridge") ["A. Author"] (Some long_abstract)
           (Some 2024%Z) (Some "10.1/x") None.
Definition paper_a_again : Paper.t :=
  Paper.mk 2 (Some "GaN half bridge (extended)") ["A. Author"]
           (Some "Another abstract of the same work.") (Some 2024%Z) (Some "10.1/x") None.
Definition paper_no_doi : Paper.t :=
  Paper.mk 3 (Some "Gate drivers") ["B. Author"] (Some long_abstract) (Some 2022%Z) None None.

Definition patent_a : Patent.t :=
  Patent.mk 4 (Some "EP1234567") (Some "Half bridge driver")
            (Some "A buck converter with a gallium nitride stage.")
            (Some "2023-05-01") (Some "Granted") None.
Definition patent_unnumbered : Patent.t :=
  Patent.mk 5 None (Some "Unnumbered") (Some "No number yet.") None (Some "Pending") None.

Definition in_stock (n : Z) (region : string) : Dist.t := Dist.mk (Some n) None (Some region).

Definition component_a : Component.t :=
  Component.mk 6 (Some "LMG5200") (Some "Texas Instruments") (Some "Buck Converter")
               (Some "Active") [] [] [] None
               [("Digi-Key", in_stock 500 "EU"); ("Mouser", in_stock 500 "EU");
                ("LCSC", in_stock 500 "Asia")]
               [] None None None.
Definition component_unnumbered : Component.t :=
  Component.mk 7 None (Some "Infineon") None None [] [] [] None [] [] None None None.

Definition supply_a : SupplyChain.t :=
  SupplyChain.mk 8 (Some "LMG5200") (Some "Active") [("Digi-Key", in_stock 500 "EU")].
Definition supply_a_again : SupplyChain.t :=
  SupplyChain.mk 9 (Some "LMG5200") (Some "Active") [("LCSC", in_stock 40 "Asia")].

Definition ok_response {A} (provider : string) (items : list A) : Response.t A :=
  Response.mk provider true (Some items) None "2026-01-01T00:00:00".
Definition failed_response {A} (provider message : string) : Response.t A :=
  Response.mk provider false None (Some message) "2026-01-01T00:00:00".

Definition raw_example : Raw.t :=
  Raw.mk (Some (ok_response "PaperProvider" [paper_a; paper_a_again; paper_no_doi]))
         (Some (ok_response "PatentProvider" [patent_a; patent_unnumbered]))
         (Some (ok_response "ComponentProvider" [component_a; component_unnumbered]))
         (Some (ok_response "NexarProvider" [supply_a; supply_a_again])).

(** Scenario A: of two papers with the DOI [10.1/x] the first is kept. *)
Example scenario_A md5 :
  _deduplicate_papers md5 [paper_a; paper_a_again] = [paper_a].
Proof. reflexivity. Qed.

Example deduplicate_raw_example :
  _deduplicate digest_stub raw_example
  = inr (Results.mk [paper_a; paper_no_doi] [patent_a] [component_a]
                    [supply_a; supply_a_again] None None).
Proof. vm_compute. reflexivity. Qed.

(** *** Uniqueness of identity keys (C5) *)

(** The claim as the design document words it: after stage 1 no two
    records of a type share an identity key, supply-chain records
    included. *)
Definition identity_keys_unique (md5_hexdigest : string -> string) (r : Results.t) : Prop :=
  NoDup (map (paper_identifier md5_hexdigest) (Results.papers r))
  /\ NoDup (map Patent.patent_number (Results.patents r))
  /\ NoDup (map Component.part_number (Results.components r))
  /\ NoDup (map SupplyChain.part_number (Results.supply_chain r)).

(** C5, counterexample: stage 1 hands the supply-chain list on untouched,
    so two supply-chain records with the part number [LMG5200] both
    survive it. *)
Lemma C5_supply_chain_keeps_duplicates :
  ~ (forall md5 raw r, _deduplicate md5 raw = inr r -> identity_keys_unique md5 r).
Proof.
  intros Hclaim.
  destruct (Hclaim digest_stub raw_example _ deduplicate_raw_example) as (_ & _ & _ & Hsc).
  simpl in Hsc. apply NoDup_cons in Hsc as [Hsc _]. apply Hsc. left.
Qed.

(** C5, as the code has it: after stage 1 the papers have pairwise distinct
    identifiers (DOI, or the digest of the lowered title), the patents
    pairwise distinct patent numbers and the components pairwise distinct
    part numbers; the supply-chain list is the raw list, unchanged. *)
Theorem C5_identity_keys_unique_after_dedup
    (md5_hexdigest : string -> string) (raw : Raw.t) (r : Results.t) :
  _deduplicate md5_hexdigest raw = inr r ->
  NoDup (map (paper_identifier md5_hexdigest) (Results.papers r))
  /\ NoDup (map Patent.patent_number (Results.patents r))
  /\ NoDup (map Component.part_number (Results.components r))
  /\ raw_items (Raw.supply_chain raw) = inr (Results.supply_chain r).
Proof.
  unfold _deduplicate. intros Hrun.
  destruct (raw_items (Raw.papers raw)) as [e|papers]; [discriminate|].
  destruct (raw_items (Raw.patents raw)) as [e|patents]; [discriminate|].
  destruct (raw_items (Raw.components raw)) as [e|components]; [discriminate|].
  destruct (raw_items (Raw.supply_chain raw)) as [e|supply_chain]; [discriminate|].
  simpl in Hrun. injection Hrun as <-. simpl. repeat split.
  - apply papers_identifiers_NoDup.
  - rewrite deduplicate_patents_loop. apply survivors_numbers_NoDup.
  - rewrite deduplicate_components_loop. apply survivors_numbers_NoDup.
Qed.

Lemma C5_identity_keys_unique_witness :
  NoDup (map (paper_identifier digest_stub) [paper_a; paper_no_doi])
  /\ NoDup (map Patent.patent_number [patent_a])
  /\ NoDup (map Component.part_number [component_a])
  /\ raw_items (Raw.supply_chain raw_example) = inr [supply_a; supply_a_again].
Proof.
  exact (C5_identity_keys_unique_after_dedup digest_stub raw_example _
           deduplicate_raw_example).
Defined.

(** *** Idempotence and first-seen order (C7) *)

(** The identity key of a supply-chain record: its part number. *)
Definition supply_key (sc : SupplyChain.t) : option string :=
  key_of (SupplyChain.part_number sc).

(** C7, counterexample: the claim speaks of every input list, and the
    supply-chain list has no loop.  Of two supply-chain records with the
    part number [LMG5200] the later one is not dropped: both are in the
    output of stage 1. *)
Lemma C7_supply_chain_duplicate_survives :
  exists r,
    _deduplicate digest_stub raw_example = inr r
    /\ Results.supply_chain r = [supply_a; supply_a_again]
    /\ supply_key supply_a_again = supply_key supply_a
    /\ first_with supply_key "LMG5200" (Results.supply_chain r) = Some supply_a
    /\ supply_a_again ∈ Results.supply_chain r
    /\ ~ NoDup (omap supply_key (Results.supply_chain r)).
Proof.
  eexists. split; [exact deduplicate_raw_example|].
  split; [reflexivity|]. split; [reflexivity|]. split; [reflexivity|].
  split; [right; left|].
  intros Hnd. change (NoDup ["LMG5200"; "LMG5200"]) in Hnd.
  apply NoDup_cons in Hnd as [Hnd _]. apply Hnd. left.
Qed.

(** C7, as the code has it.  Each of the three deduplication loops
    (papers, patents, components) returns its own output unchanged when
    run on it; returns a sub-list of its input, so that records are
    dropped but never altered, merged or reordered; returns no two
    records with the same identity key; and keeps under every identity
    key of its input the first record that carries it.  The supply-chain
    list is not deduplicated: stage 1 hands it on as it came. *)
Theorem C7_dedup_idempotent_first_wins
    (md5_hexdigest : string -> string)
    (papers : list Paper.t) (patents : list Patent.t) (components : list Component.t)
    (raw : Raw.t) :
  (_deduplicate_papers md5_hexdigest (_deduplicate_papers md5_hexdigest papers)
     = _deduplicate_papers md5_hexdigest papers
   /\ _deduplicate_papers md5_hexdigest papers `sublist_of` papers
   /\ NoDup (omap (paper_key md5_hexdigest) (_deduplicate_papers md5_hexdigest papers))
   /\ forall k, first_with (paper_key md5_hexdigest) k
                           (_deduplicate_papers md5_hexdigest papers)
                = first_with (paper_key md5_hexdigest) k papers)
  /\ (_deduplicate_patents (_deduplicate_patents patents) = _deduplicate_patents patents
      /\ _deduplicate_patents patents `sublist_of` patents
      /\ NoDup (omap patent_key (_deduplicate_patents patents))
      /\ forall k, first_with patent_key k (_deduplicate_patents patents)
                   = first_with patent_key k patents)
  /\ (_deduplicate_components (_deduplicate_components components)
        = _deduplicate_components components
      /\ _deduplicate_components components `sublist_of` components
      /\ NoDup (omap component_key (_deduplicate_components components))
      /\ forall k, first_with component_key k (_deduplicate_components components)
                   = first_with component_key k components)
  /\ match _deduplicate md5_hexdigest raw with
     | inr r => raw_items (Raw.supply_chain raw) = inr (Results.supply_chain r)
     | inl _ => True
     end.
Proof.
  rewrite !deduplicate_papers_loop, !deduplicate_patents_loop,
    !deduplicate_components_loop.
  split_and!; intros;
    try first [ apply dedup_from_idempotent
              | apply dedup_from_sublist
              | apply dedup_from_NoDup
              | apply dedup_from_first; apply not_elem_of_empty ].
  unfold _deduplicate.
  destruct (raw_items (Raw.papers raw)) as [e|ps]; [done|].
  destruct (raw_items (Raw.patents raw)) as [e|pts]; [done|].
  destruct (raw_items (Raw.components raw)) as [e|cs]; [done|].
  by destruct (raw_items (Raw.supply_chain raw)) as [e|scs].
Qed.

(** *** Records without a number at stage 1 (C10) *)

(** C10: a patent without patent number and a component without part
    number never leave stage 1, even alone in their list, so the lists
    that reach the quality filter hold only numbered patents and
    components; a paper alone in its list is always kept, and whatever
    the list, the identifier of every paper is the identifier of a
    survivor. *)
Theorem C10_unnumbered_records_dropped_at_stage_1
    (md5_hexdigest : string -> string)
    (papers : list Paper.t) (patents : list Patent.t) (components : list Component.t)
    (paper : Paper.t) (patent : Patent.t) (component : Component.t) (raw : Raw.t) :
  Forall (fun p => Py.truthy (Patent.patent_number p) = true) (_deduplicate_patents patents)
  /\ Forall (fun c => Py.truthy (Component.part_number c) = true)
            (_deduplicate_components components)
  /\ _deduplicate_patents [patent]
     = (if Py.truthy (Patent.patent_number patent) then [patent] else [])
  /\ _deduplicate_components [component]
     = (if Py.truthy (Component.part_number component) then [component] else [])
  /\ match _deduplicate md5_hexdigest raw with
     | inr r =>
         Forall (fun p => Py.truthy (Patent.patent_number p) = true)
                (Results.patents r)
         /\ Forall (fun c => Py.truthy (Component.part_number c) = true)
                   (Results.components r)
     | inl _ => True
     end
  /\ _deduplicate_papers md5_hexdigest [paper] = [paper]
  /\ Forall (fun p => paper_identifier md5_hexdigest p
                      ∈ map (paper_identifier md5_hexdigest)
                            (_deduplicate_papers md5_hexdigest papers)) papers.
Proof.
  split; [rewrite deduplicate_patents_loop; apply (survivors_have_number Patent.patent_number)|].
  split; [rewrite deduplicate_components_loop;
          apply (survivors_have_number Component.part_number)|].
  split.
  { unfold _deduplicate_patents. simpl.
    destruct (Py.truthy (Patent.patent_number patent)); simpl; [|done].
    rewrite bool_decide_eq_false_2 by apply not_elem_of_empty. done. }
  split.
  { unfold _deduplicate_components. simpl.
    destruct (Py.truthy (Component.part_number component)); simpl; [|done].
    rewrite bool_decide_eq_false_2 by apply not_elem_of_empty. done. }
  split.
  { unfold _deduplicate.
    destruct (raw_items (Raw.papers raw)) as [e|ps]; [done|].
    destruct (raw_items (Raw.patents raw)) as [e|pts]; [done|].
    destruct (raw_items (Raw.components raw)) as [e|cs]; [done|].
    destruct (raw_items (Raw.supply_chain raw)) as [e|scs]; [done|].
    simpl. split.
    - rewrite deduplicate_patents_loop. apply (survivors_have_number Patent.patent_number).
    - rewrite deduplicate_components_loop.
      apply (survivors_have_number Component.part_number). }
  split.
  { unfold _deduplicate_papers. simpl.
    rewrite decide_False by apply not_elem_of_empty. done. }
  rewrite deduplicate_papers_loop.
  rewrite <- (omap_total (paper_key md5_hexdigest))
    by (apply Forall_forall; done).
  eapply Forall_impl; [apply dedup_from_complete|]. simpl.
  intros p Hp. apply Hp. reflexivity.
Qed.

(** ** Stage 4 (C8) *)

Lemma is_regional_match_true manufacturer target_regions :
  _is_regional_match manufacturer target_regions = true.
Proof.
  unfold _is_regional_match.
  destruct (mem "EU" target_regions && _); [done|].
  destruct (mem "Asia" target_regions && _); done.
Qed.

Lemma filter_all {A} (f : A -> bool) (l : list A) :
  (forall x, f x = true) -> List.filter f l = l.
Proof.
  intros Hf. induction l as [|x l IH]; simpl; [done|]. by rewrite Hf, IH.
Qed.

(** A distributor entry of [sc] whose [region] is one of [regions]. *)
Definition serves (regions : list string) (sc : SupplyChain.t) : Prop :=
  exists distributor dist r,
    (distributor, dist) ∈ SupplyChain.availability sc
    /\ Dist.region dist = Some r /\ r ∈ regions.

Lemma supply_chain_regional_serves regions sc :
  supply_chain_regional regions sc = true <-> serves regions sc.
Proof.
  unfold supply_chain_regional, serves, values. rewrite existsb_exists. split.
  - intros (dist & Hin & Hreg). apply in_map_iff in Hin as ([name d] & <- & Hin).
    unfold region_in, mem in Hreg. simpl in Hreg.
    destruct (Dist.region d) as [r|] eqn:Hr; [|done].
    apply bool_decide_eq_true in Hreg.
    exists name, d, r. split; [by apply list_elem_of_In|done].
  - intros (name & d & r & Hin & Hr & Hreg). exists d. split.
    + apply in_map_iff. exists (name, d). split; [done|by apply list_elem_of_In].
    + unfold region_in, mem. rewrite Hr. by apply bool_decide_eq_true.
Qed.

(** C8: stage 4 keeps every component, whatever its manufacturer and
    whatever the target regions ([_is_regional_match] answers [True] on
    every input), and keeps a supply-chain record exactly when one of its
    distributor entries has a [region] among the target regions. *)
Theorem C8_regional_filter (results : Results.t) (q : Query.t) :
  (forall manufacturer regions, _is_regional_match manufacturer regions = true)
  /\ Results.components (_filter_regional results q) = Results.components results
  /\ (forall sc, sc ∈ Results.supply_chain (_filter_regional results q)
                 <-> sc ∈ Results.supply_chain results /\ serves (target_regions_of q) sc)
  /\ Results.supply_chain (_filter_regional results q)
       `sublist_of` Results.supply_chain results.
Proof.
  split; [apply is_regional_match_true|].
  split; [apply filter_all; intros; apply is_regional_match_true|].
  split.
  - intros sc. simpl. rewrite list_elem_of_In, filter_In, <- list_elem_of_In.
    by rewrite supply_chain_regional_serves.
  - simpl. generalize (Results.supply_chain results). intros l.
    induction l as [|x l IH]; simpl; [constructor|].
    destruct (supply_chain_regional _ x); by constructor.
Qed.

Example regional_filter_example :
  let r := Results.mk [] [] [component_a; component_unnumbered]
                      [supply_a; supply_a_again] None None in
  let q := Query.mk (Some "gan") (Some ["Asia"]) [] in
  Results.components (_filter_regional r q) = [component_a; component_unnumbered]
  /\ Results.supply_chain (_filter_regional r q) = [supply_a_again].
Proof. vm_compute. done. Qed.

(** ** Maturity of an Active component (C1) *)

(** The rule of the design document for a component whose lifecycle is
    Active: summed stock and number of stocked distributors. *)
Definition active_trl (availability : availability_map) : Z :=
  if bool_decide (1000 < total_stock availability)%Z
     && bool_decide (2 <= TRLProvider.distributor_count availability)%nat then 9
  else if bool_decide (100 < total_stock availability)%Z then 8
  else 7.

(** The claim, for a classifier that gives a component its level. *)
Definition follows_active_rule (classify : Component.t -> option Z) : Prop :=
  forall c, Component.lifecycle c = Some "Active" ->
            classify c = Some (active_trl (Component.availability c)).

(** Stage 5 of the pipeline on a single component. *)
Definition stage_5_level (c : Component.t) : option Z :=
  match Results.components (_classify_trl (Results.mk [] [] [c] [] None None)) with
  | [c'] => Component.trl c'
  | _ => None
  end.

Definition component_out_of_stock : Component.t :=
  Component.mk 10 (Some "BSC010") (Some "Infineon") (Some "MOSFET") (Some "Active")
               [] [] [] None [("Mouser", in_stock 40 "EU")] [] None None None.

(** C1, at the input where the pipeline departs from the rule: an Active
    component with 40 units at one distributor.  The rule gives level 7
    and [TRLProvider._classify_component] returns 7; stage 5 of the
    pipeline, the placeholder that stands in for the provider, writes 9. *)
Lemma C1_stage_5_ignores_stock :
  Component.lifecycle component_out_of_stock = Some "Active"
  /\ total_stock (Component.availability component_out_of_stock) = 40%Z
  /\ active_trl (Component.availability component_out_of_stock) = 7%Z
  /\ (TRLProvider._classify_component component_out_of_stock).1.1 = 7%Z
  /\ stage_5_level component_out_of_stock = Some 9%Z
  /\ ~ follows_active_rule stage_5_level.
Proof.
  repeat split; try (vm_compute; reflexivity).
  intros Hrule. specialize (Hrule component_out_of_stock eq_refl). discriminate Hrule.
Qed.

Lemma classify_component_active_level c :
  Component.lifecycle c = Some "Active" ->
  (TRLProvider._classify_component c).1.1 = active_trl (Component.availability c).
Proof.
  intros Hlife. unfold TRLProvider._classify_component, active_trl. rewrite Hlife.
  change (Py.lower (default "" (Some "Active"))) with "active".
  change (String.eqb "active" "active") with true. cbv iota.
  destruct (bool_decide (1000 < _)%Z && _);
    [|destruct (bool_decide (100 < _)%Z)];
    destruct (Py.truthy (Component.datasheet_url c)); reflexivity.
Qed.

Lemma classify_component_active_confidence c :
  Component.lifecycle c = Some "Active" ->
  (0.8 <=? (TRLProvider._classify_component c).1.2)%float = true.
Proof.
  intros Hlife. unfold TRLProvider._classify_component. rewrite Hlife.
  change (Py.lower (default "" (Some "Active"))) with "active".
  change (String.eqb "active" "active") with true. cbv iota.
  change (mem "active" ["active"; "nrnd"; "obsolete"]) with true. cbv iota.
  destruct (bool_decide (1000 < _)%Z && _);
    [|destruct (bool_decide (100 < _)%Z)];
    destruct (Py.truthy (Component.datasheet_url c));
    destruct (Component.availability c); reflexivity.
Qed.

(** The rule of C1 on the provider.  [TRLProvider._classify_component]
    follows it on every Active component: level 9 when the summed stock
    exceeds 1000 and at least two distributors have stock, else level 8
    when it exceeds 100, else level 7, with a confidence of at least 0.8.
    Stage 5 of the pipeline does not consult the stock: it keeps a level
    that is already set and gives every other Active component level 9. *)
Theorem active_component_level (c : Component.t) :
  Component.lifecycle c = Some "Active" ->
  let total := total_stock (Component.availability c) in
  let stocked := TRLProvider.distributor_count (Component.availability c) in
  let '(trl, confidence, _) := TRLProvider._classify_component c in
  ((1000 < total)%Z /\ (2 <= stocked)%nat -> trl = 9%Z)
  /\ (~ ((1000 < total)%Z /\ (2 <= stocked)%nat) -> (100 < total)%Z -> trl = 8%Z)
  /\ (~ ((1000 < total)%Z /\ (2 <= stocked)%nat) -> (total <= 100)%Z -> trl = 7%Z)
  /\ (0.8 <=? confidence)%float = true
  /\ stage_5_level c = Some (default 9%Z (Component.trl c)).
Proof.
  intros Hlife total stocked.
  pose proof (classify_component_active_level c Hlife) as Hlevel.
  pose proof (classify_component_active_confidence c Hlife) as Hconf.
  destruct (TRLProvider._classify_component c) as [[trl confidence] justification].
  simpl in Hlevel, Hconf. subst trl. unfold active_trl. fold total stocked.
  repeat split.
  - intros [Ht Hs].
    rewrite (bool_decide_eq_true_2 _ Ht), (bool_decide_eq_true_2 _ Hs). done.
  - intros Hnot Ht. rewrite (bool_decide_eq_true_2 _ Ht).
    destruct (bool_decide (1000 < total)%Z) eqn:H1; [|done].
    destruct (bool_decide (2 <= stocked)%nat) eqn:H2; [|done].
    apply bool_decide_eq_true in H1, H2. tauto.
  - intros Hnot Ht. rewrite (bool_decide_eq_false_2 (100 < total)%Z) by lia.
    rewrite (bool_decide_eq_false_2 (1000 < total)%Z) by lia. done.
  - exact Hconf.
  - unfold stage_5_level, _classify_trl, placeholder_component. simpl.
    destruct (Component.trl c) eqn:Hset; simpl; [exact Hset|].
    rewrite Hlife. reflexivity.
Qed.

(** Scenario B: Active, 1500 units over three distributors. *)
Lemma scenario_B_level :
  let '(trl, confidence, _) := TRLProvider._classify_component component_a in
  ((1000 < 1500)%Z /\ (2 <= 3)%nat -> trl = 9%Z)
  /\ (~ ((1000 < 1500)%Z /\ (2 <= 3)%nat) -> (100 < 1500)%Z -> trl = 8%Z)
  /\ (~ ((1000 < 1500)%Z /\ (2 <= 3)%nat) -> (1500 <= 100)%Z -> trl = 7%Z)
  /\ (0.8 <=? confidence)%float = true
  /\ stage_5_level component_a = Some 9%Z.
Proof. exact (active_component_level component_a eq_refl). Qed.

Example scenario_B :
  (TRLProvider._classify_component component_a).1.1 = 9%Z
  /\ (TRLProvider._classify_component component_a).1.2 = 0.9%float
  /\ (TRLProvider._classify_component component_a).2
     = "TRL 9: Mass production: 1500 units across 3 distributors".
Proof. repeat split; reflexivity. Qed.

(** ** Maturity of a paper (C3) *)

(** The confidence the design document gives for [n] matched keywords. *)
Definition confidence_formula (n : nat) : float :=
  TRLProvider.float_min (0.6 + TRLProvider.float_of_nat n * 0.05)%float 0.8%float.

Definition paper_text (paper : Paper.t) : string :=
  text_of (Paper.title paper) (Paper.abstract paper).

Definition paper_plain : Paper.t :=
  Paper.mk 11 (Some "Gate charge of wide bandgap switches") ["C. Author"]
           (Some "We measure switching losses.") (Some 2021%Z) None None.

Definition paper_concept : Paper.t :=
  Paper.mk 12 (Some "A proof of concept gate driver") ["D. Author"]
           (Some "The circuit is shown in an experiment.") (Some 2023%Z) None None.

Definition paper_deployed : Paper.t :=
  Paper.mk 13 (Some "Commercial GaN chargers") ["E. Author"]
           (Some "Deployed in mass production.") (Some 2024%Z) None None.

(** C3, counterexample: a paper none of whose words is an indicator gets
    level 2 with confidence 0.5, not 0.6 + 0.05 x 0. *)
Lemma C3_no_indicator_confidence_is_half :
  Forall (fun level => TRLProvider.matches_of (paper_text paper_plain) level = [])
         TRLProvider.descending_levels
  /\ (TRLProvider._classify_paper paper_plain).1.1 = 2%Z
  /\ (TRLProvider._classify_paper paper_plain).1.2 = 0.5%float
  /\ (TRLProvider._classify_paper paper_plain).1.2 ≠ confidence_formula 0.
Proof.
  split.
  { unfold TRLProvider.descending_levels.
    repeat (constructor; [vm_compute; reflexivity|]). constructor. }
  split; [vm_compute; reflexivity|].
  split; [vm_compute; reflexivity|].
  intros Heq. apply (f_equal (fun x => (x =? 0.5)%float)) in Heq.
  vm_compute in Heq. discriminate Heq.
Qed.

Lemma scan_spec text levels st :
  (exists above level rest,
      levels = above ++ level :: rest
      /\ Forall (fun t => TRLProvider.matches_of text t = []) above
      /\ TRLProvider.matches_of text level ≠ []
      /\ TRLProvider.scan text levels st
         = (level,
            (0.6 + TRLProvider.float_of_nat (length (TRLProvider.matches_of text level))
                   * 0.05)%float,
            st.2 ++ ["Indicators: "
                     +:+ Py.join ", " (Py.slice_to 3 (TRLProvider.matches_of text level))]))
  \/ (Forall (fun t => TRLProvider.matches_of text t = []) levels
      /\ TRLProvider.scan text levels st = st).
Proof.
  induction levels as [|level levels IH]; simpl.
  - right. split; [constructor|done].
  - destruct (TRLProvider.matches_of text level) as [|m ms] eqn:Hm.
    + destruct IH as [(above & lvl & rest & -> & Habove & Hlvl & Hscan)|[Hnone Hscan]].
      * left. exists (level :: above), lvl, rest.
        repeat split; first [done | by constructor].
      * right. split; [by constructor|done].
    + left. exists [], level, levels. rewrite Hm. repeat split; done.
Qed.

Lemma descending_levels_sorted : StronglySorted Z.gt TRLProvider.descending_levels.
Proof. unfold TRLProvider.descending_levels. repeat constructor. Qed.

Lemma first_match_is_highest text above level rest :
  TRLProvider.descending_levels = above ++ level :: rest ->
  Forall (fun t => TRLProvider.matches_of text t = []) above ->
  Forall (fun higher => (level < higher)%Z -> TRLProvider.matches_of text higher = [])
         TRLProvider.descending_levels.
Proof.
  intros Hsplit Habove. pose proof descending_levels_sorted as Hsorted.
  rewrite Hsplit in Hsorted |- *.
  apply StronglySorted_app in Hsorted as (_ & _ & Hsorted).
  apply StronglySorted_cons in Hsorted as [Hrest _].
  apply Forall_app. split; [|constructor].
  - eapply Forall_impl; [exact Habove|]. auto.
  - lia.
  - eapply Forall_impl; [exact Hrest|]. simpl. lia.
Qed.

(** C3, as the code has it: the scan runs from level 9 down to level 1
    and stops at the first level one of whose indicators occurs in the
    lowered title and abstract; the level returned is that level, or 6
    when it is above 6 (the adjustment being noted in the justification),
    and the confidence is 0.6 + 0.05 x the number of indicators of that
    level that occur, capped at 0.8.  When no level matches, the level is
    2 and the confidence is 0.5. *)
Theorem C3_paper_classification (paper : Paper.t) :
  let text := paper_text paper in
  let '(trl, confidence, justification) := TRLProvider._classify_paper paper in
  (exists level,
      level ∈ TRLProvider.descending_levels
      /\ TRLProvider.matches_of text level ≠ []
      /\ Forall (fun higher => (level < higher)%Z -> TRLProvider.matches_of text higher = [])
                TRLProvider.descending_levels
      /\ trl = Z.min level 6
      /\ confidence = confidence_formula (length (TRLProvider.matches_of text level))
      /\ justification
         = TRLProvider.justify trl
             (["Indicators: "
               +:+ Py.join ", " (Py.slice_to 3 (TRLProvider.matches_of text level))]
              ++ (if bool_decide (6 < level)%Z then [TRLProvider.adjusted_note] else [])
              ++ ["Source: academic paper"]))
  \/ (Forall (fun level => TRLProvider.matches_of text level = [])
             TRLProvider.descending_levels
      /\ trl = 2%Z /\ confidence = 0.5%float
      /\ justification = "TRL 2: Source: academic paper").
Proof.
  intros text. unfold TRLProvider._classify_paper. fold (paper_text paper). fold text.
  destruct (scan_spec text TRLProvider.descending_levels (2%Z, 0.5%float, []))
    as [(above & level & rest & Hsplit & Habove & Hlevel & ->)|[Hnone ->]].
  - assert (level ∈ TRLProvider.descending_levels) as Hin.
    { rewrite Hsplit. apply elem_of_app. right. left. }
    pose proof (first_match_is_highest text above level rest Hsplit Habove) as Hhigh.
    destruct (bool_decide (6 < level)%Z) eqn:Hcap; simpl; left; exists level;
      rewrite Hcap; repeat split; try done.
    apply bool_decide_eq_false in Hcap. rewrite Z.min_l; [done|lia].
  - right. simpl. repeat split; done.
Qed.

(** Scenario C: a proof of concept and nothing higher gives level 3. *)
Example scenario_C :
  (TRLProvider._classify_paper paper_concept).1.1 = 3%Z
  /\ (TRLProvider._classify_paper paper_concept).1.2 = 0.7%float
  /\ (TRLProvider._classify_paper paper_deployed).1.1 = 6%Z
  /\ (TRLProvider._classify_paper paper_deployed).2
     = "TRL 6: Indicators: deployed, commercial, mass production; "
       +:+ TRLProvider.adjusted_note +:+ "; Source: academic paper".
Proof. repeat split; reflexivity. Qed.

(** ** The stable descending sort *)

Arguments Py.slice_to : simpl never.
Arguments Py.sort_desc : simpl never.

Section SortFacts.
Context {A K : Type} (ltb : K -> K -> bool) (key : A -> K).

Lemma insert_desc_perm x l : Py.insert_desc ltb key x l ≡ₚ x :: l.
Proof.
  induction l as [|y l IH]; simpl; [done|].
  destruct (ltb (key x) (key y)); [|done].
  rewrite IH. apply Permutation_swap.
Qed.

Lemma sort_desc_perm l : Py.sort_desc ltb key l ≡ₚ l.
Proof.
  induction l as [|x l IH]; [done|].
  change (Py.sort_desc ltb key (x :: l))
    with (Py.insert_desc ltb key x (Py.sort_desc ltb key l)).
  rewrite insert_desc_perm. by constructor.
Qed.

Lemma sort_desc_length l : length (Py.sort_desc ltb key l) = length l.
Proof. apply Permutation_length, sort_desc_perm. Qed.

(** Below the cap the slice is the whole list, and the ranked list is a
    rearrangement of the input. *)
Lemma ranked_perm n l :
  length l <= n -> Py.slice_to n (Py.sort_desc ltb key l) ≡ₚ l.
Proof.
  intros Hlen. unfold Py.slice_to. rewrite take_ge by (rewrite sort_desc_length; lia).
  apply sort_desc_perm.
Qed.

Lemma ranked_sublist n l :
  Py.slice_to n (Py.sort_desc ltb key l) `sublist_of` Py.sort_desc ltb key l.
Proof. apply sublist_take. Qed.
End SortFacts.

Section SortOrder.
Context {A K : Type} (ltb : K -> K -> bool) (le : K -> K -> Prop) (key : A -> K).
Hypothesis ltb_le : forall a b, ltb a b = true -> le a b.
Hypothesis not_ltb_ge : forall a b, ltb a b = false -> le b a.
Hypothesis le_trans : forall a b c, le a b -> le b c -> le a c.

(** [descending a b]: [a] may stand before [b]. *)
Definition descending (a b : A) : Prop := le (key b) (key a).

Lemma insert_desc_sorted x l :
  StronglySorted descending l ->
  StronglySorted descending (Py.insert_desc ltb key x l).
Proof.
  induction 1 as [|y l Hl IH Hy]; simpl; [repeat constructor|].
  destruct (ltb (key x) (key y)) eqn:Hxy.
  - constructor; [done|].
    rewrite (insert_desc_perm ltb key x l). constructor; [|done].
    by apply ltb_le.
  - constructor; [by constructor|]. constructor; [by apply not_ltb_ge|].
    eapply Forall_impl; [exact Hy|]. unfold descending. simpl.
    intros z Hz. eapply le_trans; [exact Hz|]. by apply not_ltb_ge.
Qed.

Lemma sort_desc_sorted l : StronglySorted descending (Py.sort_desc ltb key l).
Proof.
  induction l as [|x l IH]; [constructor|].
  change (Py.sort_desc ltb key (x :: l))
    with (Py.insert_desc ltb key x (Py.sort_desc ltb key l)).
  by apply insert_desc_sorted.
Qed.
End SortOrder.

Lemma take_sorted {A} (R : A -> A -> Prop) n l :
  StronglySorted R l -> StronglySorted R (take n l).
Proof.
  intros Hl. rewrite <- (take_drop n l) in Hl. by apply StronglySorted_app_1_l in Hl.
Qed.

Lemma map_sorted {A B} (f : A -> B) (R : A -> A -> Prop) (R' : B -> B -> Prop) l :
  (forall a b, R a b -> R' (f a) (f b)) ->
  StronglySorted R l -> StronglySorted R' (map f l).
Proof.
  intros Hf. induction 1 as [|x l Hl IH Hx]; simpl; constructor; [done|].
  apply Forall_map. eapply Forall_impl; [exact Hx|]. simpl. auto.
Qed.

Lemma sort_desc_Z_sorted {A} (key : A -> Z) l :
  StronglySorted (descending Z.le key) (Py.sort_desc Z.ltb key l).
Proof.
  apply sort_desc_sorted.
  - intros a b H. apply Z.ltb_lt in H. lia.
  - intros a b H. apply Z.ltb_ge in H. lia.
  - intros a b c. lia.
Qed.

(** ** Cross-reference edges (C2) *)

Definition no_cross_refs : CrossRefs.t := CrossRefs.mk [] [] [].

(** Every endpoint of every edge is the title, the patent number or the
    part number of a record of the three lists. *)
Definition edges_resolved (papers : list Paper.t) (patents : list Patent.t)
    (components : list Component.t) (x : CrossRefs.t) : Prop :=
  Forall (fun e => PaperPatent.paper e ∈ map Paper.title papers
                   /\ PaperPatent.patent e ∈ map Patent.patent_number patents)
         (CrossRefs.paper_to_patent x)
  /\ Forall (fun e => PatentComponent.patent e ∈ map Patent.patent_number patents
                      /\ PatentComponent.component e ∈ map Component.part_number components)
            (CrossRefs.patent_to_component x).

(** The claim: in a [results] dictionary no edge dangles. *)
Definition no_dangling_edge (r : Results.t) : Prop :=
  edges_resolved (Results.papers r) (Results.patents r) (Results.components r)
                 (default no_cross_refs (Results.cross_references r)).

Lemma paper_to_patent_resolved papers patents :
  Forall (fun e => PaperPatent.paper e ∈ map Paper.title papers
                   /\ PaperPatent.patent e ∈ map Patent.patent_number patents)
         (paper_to_patent papers patents).
Proof.
  apply Forall_forall. intros e He. unfold paper_to_patent in He.
  apply list_elem_of_In, in_flat_map in He as (paper & Hpaper & He).
  apply in_flat_map in He as (patent & Hpatent & He).
  destruct (negb _ && _); [|done]. destruct He as [<-|[]]. simpl.
  split; apply list_elem_of_In, in_map; done.
Qed.

Lemma patent_to_component_resolved patents components :
  Forall (fun e => PatentComponent.patent e ∈ map Patent.patent_number patents
                   /\ PatentComponent.component e ∈ map Component.part_number components)
         (patent_to_component patents components).
Proof.
  apply Forall_forall. intros e He. unfold patent_to_component in He.
  apply list_elem_of_In, in_flat_map in He as (patent & Hpatent & He).
  apply in_flat_map in He as (component & Hcomponent & He).
  destruct (negb _ && _); [|done]. destruct He as [<-|[]]. simpl.
  split; apply list_elem_of_In, in_map; done.
Qed.

Lemma edges_resolved_perm papers papers' patents patents' components components' x :
  papers ≡ₚ papers' -> patents ≡ₚ patents' -> components ≡ₚ components' ->
  edges_resolved papers patents components x ->
  edges_resolved papers' patents' components' x.
Proof.
  intros Hp Hpt Hc [H1 H2]. split.
  - eapply Forall_impl; [exact H1|]. simpl. intros e [? ?].
    by rewrite <- Hp, <- Hpt.
  - eapply Forall_impl; [exact H2|]. simpl. intros e [? ?].
    by rewrite <- Hpt, <- Hc.
Qed.

Lemma placeholder_titles papers :
  map Paper.title (map placeholder_paper papers) = map Paper.title papers.
Proof.
  rewrite map_map. apply map_ext. intros p. unfold placeholder_paper.
  by destruct (Paper.trl p).
Qed.

Lemma placeholder_patent_numbers patents :
  map Patent.patent_number (map placeholder_patent patents)
  = map Patent.patent_number patents.
Proof.
  rewrite map_map. apply map_ext. intros p. unfold placeholder_patent.
  by destruct (Patent.trl p).
Qed.

Lemma placeholder_part_numbers components :
  map Component.part_number (map placeholder_component components)
  = map Component.part_number components.
Proof.
  rewrite map_map. apply map_ext. intros c. unfold placeholder_component.
  destruct (Component.trl c); [done|]. by destruct (bool_decide _).
Qed.

Definition format_pct_stub (part total : nat) : string :=
  Py.str_of_nat (100 * part / total) +:+ ".0".

Definition filler_paper (i : nat) : Paper.t :=
  Paper.mk (100 + i) (Some ("GaN converter study " +:+ (Py.str_of_nat i))) ["F. Author"]
           (Some "A gallium nitride converter is measured on a test bench at several loads.")
           (Some 2024%Z) (Some ("10.2/" +:+ (Py.str_of_nat i))) None.

Definition old_paper : Paper.t :=
  Paper.mk 99 (Some "GaN reference design") ["G. Author"]
           (Some "This gallium nitride reference design follows the granted patent EP1234567 closely.")
           (Some 2019%Z) (Some "10.2/old") None.

(** Twenty-one papers that pass every filter; only the oldest cites the
    patent. *)
Definition raw_crowded : Raw.t :=
  Raw.mk (Some (ok_response "PaperProvider" (old_paper :: map filler_paper (seq 0 20))))
         (Some (ok_response "PatentProvider" [patent_a]))
         None None.

Definition query_gallium : Query.t := Query.mk (Some "gallium nitride") None [].

(** C2, counterexample: the ranker runs after the cross-referencer and
    keeps 20 papers.  Of 21 papers the oldest is cut, and the edge from
    its title to the patent it cites stays in the returned output. *)
Lemma C2_ranking_leaves_dangling_edge :
  exists r,
    Output.processed_results
      (process digest_stub format_pct_stub raw_crowded query_gallium
               "2026-01-01 00:00 UTC" "2026-01-01T00:00:00") = inr r
    /\ CrossRefs.paper_to_patent (default no_cross_refs (Results.cross_references r))
       = [PaperPatent.mk (Some "GaN reference design") (Some "EP1234567")]
    /\ length (Results.papers r) = 20
    /\ (Some "GaN reference design" ∉ map Paper.title (Results.papers r))
    /\ ~ no_dangling_edge r.
Proof.
  eexists. split; [vm_compute; reflexivity|].
  split; [reflexivity|]. split; [reflexivity|].
  assert (Some "GaN reference design"
          ∉ map Paper.title (map placeholder_paper (map filler_paper (seq 0 20)))) as Hgone.
  { apply (bool_decide_eq_false_1 _). vm_compute. reflexivity. }
  split; [exact Hgone|].
  intros [Hedge _]. apply Forall_cons in Hedge as [[Hpaper _] _]. exact (Hgone Hpaper).
Qed.

(** C2, as the code has it: every endpoint of every edge is the title,
    patent number or part number of a record of the lists the
    cross-referencer read, that is the post-filter lists before ranking;
    when these lists are within the caps of the ranker (20 papers, 20
    patents, 30 components) the ranker cuts nothing and no edge of the
    returned output dangles. *)
Theorem C2_edges_resolved_before_ranking (filtered : Results.t) (q : Query.t) :
  let out := stages_5_to_8 filtered q in
  edges_resolved (Results.papers filtered) (Results.patents filtered)
                 (Results.components filtered)
                 (default no_cross_refs (Results.cross_references out))
  /\ no_dangling_edge (_cross_reference (_classify_trl filtered))
  /\ (length (Results.papers filtered) <= 20 ->
      length (Results.patents filtered) <= 20 ->
      length (Results.components filtered) <= 30 ->
      no_dangling_edge out).
Proof.
  assert (edges_resolved (Results.papers (_classify_trl filtered))
            (Results.patents (_classify_trl filtered))
            (Results.components (_classify_trl filtered))
            (CrossRefs.mk
               (paper_to_patent (Results.papers (_classify_trl filtered))
                                (Results.patents (_classify_trl filtered)))
               (patent_to_component (Results.patents (_classify_trl filtered))
                                    (Results.components (_classify_trl filtered)))
               [])) as Hstage6.
  { split; [apply paper_to_patent_resolved | apply patent_to_component_resolved]. }
  simpl. split; [|split].
  - destruct Hstage6 as [H1 H2]. simpl in H1, H2.
    rewrite placeholder_titles, placeholder_patent_numbers in H1.
    rewrite placeholder_patent_numbers, placeholder_part_numbers in H2.
    split; assumption.
  - exact Hstage6.
  - intros Hpapers Hpatents Hcomponents.
    unfold no_dangling_edge. simpl.
    eapply edges_resolved_perm; [ | | |exact Hstage6]; symmetry; apply ranked_perm;
      simpl; by rewrite length_map.
Qed.

Lemma C2_edges_resolved_witness :
  let filtered := Results.mk [old_paper; paper_a] [patent_a] [component_a] [] None None in
  (length (Results.papers filtered) <= 20
   /\ length (Results.patents filtered) <= 20
   /\ length (Results.components filtered) <= 30)
  /\ no_dangling_edge (stages_5_to_8 filtered query_gallium)
  /\ Results.cross_references (stages_5_to_8 filtered query_gallium)
     = Some (CrossRefs.mk
               [PaperPatent.mk (Some "GaN reference design") (Some "EP1234567");
                PaperPatent.mk (Some "GaN half bridge") (Some "EP1234567")]
               [PatentComponent.mk (Some "EP1234567") (Some "LMG5200")] []).
Proof.
  intros filtered.
  assert (length (Results.papers filtered) <= 20
          /\ length (Results.patents filtered) <= 20
          /\ length (Results.components filtered) <= 30) as Hcaps.
  { simpl. repeat split; repeat constructor. }
  split; [exact Hcaps|]. split; [|reflexivity].
  destruct Hcaps as (Hp & Hpt & Hc).
  exact (proj2 (proj2 (C2_edges_resolved_before_ranking filtered query_gallium)) Hp Hpt Hc).
Defined.

(** ** Component recommendations (C4) *)

(** The lookup [sc_map[pn]] finds the last supply-chain record with that
    part number. *)
Lemma sc_map_lookup supply_chain pn :
  sc_map_of supply_chain !! pn
  = List.find (fun sc => bool_decide (SupplyChain.part_number sc = pn)) (rev supply_chain).
Proof.
  unfold sc_map_of. induction supply_chain as [|sc l IH] using rev_ind; [done|].
  rewrite foldl_app, rev_app_distr. simpl.
  case_bool_decide as Hpn.
  - rewrite Hpn. apply lookup_insert_eq.
  - rewrite lookup_insert_ne by done. exact IH.
Qed.

(** The rationale of a recommendation: which of the three checks fired. *)
Definition rationale_of (component : Component.t) (sc_data : option SupplyChain.t)
    : list string :=
  (if bool_decide (8 <= default 0 (Component.trl component))%Z
   then ["Production-proven"] else [])
  ++ (if bool_decide (Component.lifecycle component = Some "Active")
      then ["Active lifecycle"] else [])
  ++ match sc_data with
     | Some sc =>
         let total := total_stock (SupplyChain.availability sc) in
         if bool_decide (1000 < total)%Z
         then ["Good availability (" +:+ Py.str_of_Z total +:+ " units)"] else []
     | None => []
     end.

Lemma recommend_rationale sc_map component :
  Recommendation.rationale (recommend sc_map component)
  = rationale_of component (sc_map !! Component.part_number component).
Proof.
  unfold recommend, rationale_of. simpl.
  destruct (bool_decide (8 <= _)%Z); destruct (bool_decide (_ = Some "Active"));
    destruct (sc_map !! _) as [sc|]; simpl; try done;
    destruct (bool_decide (1000 < _)%Z); done.
Qed.

Definition trl_of_recommendation (rec : Recommendation.t) : Z :=
  default 0%Z (Recommendation.trl rec).

Definition component_obsolete : Component.t :=
  Component.mk 20 (Some "IRF540") (Some "Vishay") (Some "MOSFET") (Some "Obsolete")
               [] [] [] None [] [] None None (Some 9%Z).
Definition component_active : Component.t :=
  Component.mk 21 (Some "GS61008") (Some "GaN Systems") (Some "GaN FET") (Some "Active")
               [] [] [] None [] [] None None (Some 8%Z).

Definition raw_two_components : Raw.t :=
  Raw.mk None None
         (Some (ok_response "ComponentProvider" [component_active; component_obsolete]))
         None.

(** C4, counterexample: the synthesis recommends the components in the
    order of the ranked list.  An Obsolete part at TRL 9 (composite score
    30) comes before an Active part at TRL 8 (composite score 55). *)
Lemma C4_recommendations_not_by_composite_score :
  map Recommendation.part_number
      (default [] (Synthesis.component_recommendations
                     (Output.synthesis
                        (process digest_stub format_pct_stub raw_two_components
                                 query_gallium "2026-01-01 00:00 UTC"
                                 "2026-01-01T00:00:00"))))
  = [Some "IRF540"; Some "GS61008"]
  /\ ReportGenerator._calculate_component_score component_obsolete = 30%float
  /\ ReportGenerator._calculate_component_score component_active = 55%float
  /\ (ReportGenerator._calculate_component_score component_obsolete
      <? ReportGenerator._calculate_component_score component_active)%float = true.
Proof.
  split; [vm_compute; reflexivity|].
  split; [reflexivity|]. split; reflexivity.
Qed.

(** The composite score is a sum of floats: an Active part at TRL 8 with
    an efficiency of 90.09 scores 30 + 25 + 22.5225, which the floats
    round to 77.52250000000001. *)
Definition component_efficient : Component.t :=
  Component.mk 22 (Some "EPC2045") (Some "EPC") (Some "GaN FET") (Some "Active")
               [] [] [] None [] [] (Some 90.09%float) None (Some 8%Z).

Example composite_score_of_floats :
  ReportGenerator._calculate_component_score component_efficient
  = 77.52250000000001%float.
Proof. reflexivity. Qed.

(** C4, as the code has it.  The recommendations of the synthesis are made
    from the first five components of the list they are given, in that
    order, each with its part number, manufacturer, level, lifecycle and
    the rationale of the three checks that fired, the stock being that
    of the last supply-chain record with the same part number; a
    recommendation has no score and no pros or cons.  In the pipeline
    that list is the ranked one, so the recommendations descend by
    level. *)
Theorem C4_component_recommendations
    (components : list Component.t) (supply_chain : list SupplyChain.t)
    (filtered : Results.t) (q : Query.t) :
  _recommend_components components supply_chain
  = map (fun c =>
           Recommendation.mk
             (Component.part_number c) (Component.manufacturer c) (Component.trl c)
             (Component.lifecycle c)
             (rationale_of c
                (List.find (fun sc => bool_decide (SupplyChain.part_number sc
                                                   = Component.part_number c))
                           (rev supply_chain))))
        (Py.slice_to 5 components)
  /\ match _synthesize_findings (stages_5_to_8 filtered q) q with
     | inr synthesis =>
         Synthesis.component_recommendations synthesis
         = Some (_recommend_components
                   (Py.slice_to 30 (Py.sort_desc Z.ltb trl_key
                                      (map placeholder_component
                                           (Results.components filtered))))
                   (Results.supply_chain filtered))
         /\ StronglySorted (descending Z.le trl_of_recommendation)
                           (default [] (Synthesis.component_recommendations synthesis))
     | inl _ => True
     end.
Proof.
  split.
  - unfold _recommend_components. apply map_ext. intros c.
    rewrite <- sc_map_lookup, <- recommend_rationale. reflexivity.
  - unfold _synthesize_findings.
    destruct (_calculate_trl_distribution _) as [e|distribution]; [done|].
    simpl. split; [reflexivity|].
    unfold _recommend_components.
    eapply map_sorted; [|apply take_sorted, take_sorted, sort_desc_Z_sorted].
    intros a b Hab. exact Hab.
Qed.

(** ** The report (C6) *)

Definition raw_empty : Raw.t :=
  Raw.mk (Some (ok_response "PaperProvider" []))
         (Some (ok_response "PatentProvider" []))
         (Some (ok_response "ComponentProvider" []))
         (Some (ok_response "NexarProvider" [])).

Definition zero_summary : string :=
  "Research completed: Found 0 academic papers, 0 patents, and 0 components. "
  +:+ "Analysis includes TRL classification, supply chain assessment, and cross-referencing.".

Definition empty_run : Output.t :=
  process digest_stub format_pct_stub raw_empty query_gallium
          "2026-01-01 00:00 UTC" "2026-01-01T00:00:00".

(** C6, counterexample: on empty inputs the report is not the header
    alone; the Executive Summary section (with its zero counts) and the
    footer follow it.  A synthesis without a summary or without a
    supply-chain status is rendered with placeholders. *)
Lemma C6_empty_report_is_not_header_only :
  Output.report empty_run
  = report_header "gallium nitride" "2026-01-01 00:00 UTC"
    +:+ "## Executive Summary" +:+ nl +:+ nl +:+ zero_summary +:+ nl +:+ nl
    +:+ report_footer
  /\ Output.report empty_run ≠ report_header "gallium nitride" "2026-01-01 00:00 UTC"
  /\ executive_summary_section Synthesis.empty
     = "## Executive Summary" +:+ nl +:+ nl +:+ "No summary available" +:+ nl +:+ nl
  /\ supply_chain_section Synthesis.empty
     = "## Supply Chain Status" +:+ nl +:+ nl
       +:+ "- Overall Health: **UNKNOWN**" +:+ nl
       +:+ "- Total Stock: 0 units" +:+ nl
       +:+ "- Active Components: 0" +:+ nl +:+ nl.
Proof.
  split; [vm_compute; reflexivity|].
  split; [|split; vm_compute; reflexivity].
  intros Heq. vm_compute in Heq. discriminate Heq.
Qed.

Lemma heading_not_empty (heading rest : string) :
  heading ≠ "" -> heading +:+ rest ≠ "".
Proof. destruct heading; [done|]. simpl. discriminate. Qed.

Lemma key_findings_section_omitted synthesis :
  key_findings_section synthesis = "" <-> default [] (Synthesis.key_findings synthesis) = [].
Proof.
  unfold key_findings_section. destruct (default [] _); [done|].
  split; [|done]. intros H. by apply heading_not_empty in H.
Qed.

Lemma technology_trends_section_omitted synthesis :
  technology_trends_section synthesis = ""
  <-> default [] (Synthesis.technology_trends synthesis) = [].
Proof.
  unfold technology_trends_section. destruct (default [] _); [done|].
  split; [|done]. intros H. by apply heading_not_empty in H.
Qed.

Lemma recommended_components_section_omitted synthesis :
  recommended_components_section synthesis = ""
  <-> default [] (Synthesis.component_recommendations synthesis) = [].
Proof.
  unfold recommended_components_section. destruct (default [] _); [done|].
  split; [|done]. intros H. by apply heading_not_empty in H.
Qed.

Lemma supply_chain_section_omitted synthesis :
  supply_chain_section synthesis = ""
  <-> SCStatus.status (default SCStatus.empty (Synthesis.supply_chain_status synthesis))
      = Some "no_data".
Proof.
  unfold supply_chain_section. case_bool_decide as Hstatus; [done|].
  split; [|done]. intros H. by apply heading_not_empty in H.
Qed.

Lemma trl_distribution_section_omitted synthesis :
  trl_distribution_section synthesis = ""
  <-> sum_values (default ∅ (Synthesis.trl_distribution synthesis)) = 0.
Proof.
  unfold trl_distribution_section. case_bool_decide as Hsum.
  - split; [|lia]. intros H. by apply heading_not_empty in H.
  - split; [lia|done].
Qed.

Lemma maturity_section_omitted format_pct synthesis :
  maturity_section format_pct synthesis = ""
  <-> levels_count (default ∅ (Synthesis.trl_distribution synthesis))
                   [1; 2; 3; 4; 5; 6; 7; 8; 9]%Z = 0.
Proof.
  unfold maturity_section, levels_count. simpl. case_bool_decide as Htotal.
  - split; [|lia]. intros H. by apply heading_not_empty in H.
  - split; [lia|done].
Qed.

(** C6, as the code has it.  When the four item lists are empty the
    synthesis holds the summary with three zero counts, no finding, no
    trend, no recommendation, the supply-chain status [no_data] and an
    all-zero distribution, and the report is the header, the Executive
    Summary section and the footer.  For every synthesis, each of the six
    sections after the Executive Summary is omitted exactly when its data
    is empty (no finding; no trend; no recommendation; status [no_data];
    distribution summing to zero; no count at levels 1 to 9); the
    Executive Summary section is always rendered. *)
Theorem C6_empty_input_and_omitted_sections
    (md5_hexdigest : string -> string) (format_pct : nat -> nat -> string)
    (raw : Raw.t) (q : Query.t) (now_report now_meta : string) (synthesis : Synthesis.t) :
  raw_items (Raw.papers raw) = inr [] ->
  raw_items (Raw.patents raw) = inr [] ->
  raw_items (Raw.components raw) = inr [] ->
  raw_items (Raw.supply_chain raw) = inr [] ->
  let out := process md5_hexdigest format_pct raw q now_report now_meta in
  (Output.error out = None
   /\ Output.synthesis out
      = Synthesis.mk (Some zero_summary) (Some []) (Some []) (Some [])
                     (Some SCStatus.no_data) (Some zero_distribution)
   /\ Output.report out
      = report_header (default "Unknown query" (Query.query q)) now_report
        +:+ executive_summary_section (Output.synthesis out)
        +:+ report_footer)
  /\ (_generate_report format_pct synthesis q now_report
      = report_header (default "Unknown query" (Query.query q)) now_report
        +:+ executive_summary_section synthesis
        +:+ key_findings_section synthesis
        +:+ technology_trends_section synthesis
        +:+ recommended_components_section synthesis
        +:+ supply_chain_section synthesis
        +:+ trl_distribution_section synthesis
        +:+ maturity_section format_pct synthesis
        +:+ report_footer
      /\ executive_summary_section synthesis ≠ ""
      /\ (key_findings_section synthesis = ""
          <-> default [] (Synthesis.key_findings synthesis) = [])
      /\ (technology_trends_section synthesis = ""
          <-> default [] (Synthesis.technology_trends synthesis) = [])
      /\ (recommended_components_section synthesis = ""
          <-> default [] (Synthesis.component_recommendations synthesis) = [])
      /\ (supply_chain_section synthesis = ""
          <-> SCStatus.status
                (default SCStatus.empty (Synthesis.supply_chain_status synthesis))
              = Some "no_data")
      /\ (trl_distribution_section synthesis = ""
          <-> sum_values (default ∅ (Synthesis.trl_distribution synthesis)) = 0)
      /\ (maturity_section format_pct synthesis = ""
          <-> levels_count (default ∅ (Synthesis.trl_distribution synthesis))
                           [1; 2; 3; 4; 5; 6; 7; 8; 9]%Z = 0)).
Proof.
  intros Hpapers Hpatents Hcomponents Hsupply out. split.
  - subst out. unfold process, stages_1_to_4, _deduplicate.
    rewrite Hpapers, Hpatents, Hcomponents, Hsupply.
    repeat split; reflexivity.
  - split; [reflexivity|].
    split; [by apply heading_not_empty|].
    split; [apply key_findings_section_omitted|].
    split; [apply technology_trends_section_omitted|].
    split; [apply recommended_components_section_omitted|].
    split; [apply supply_chain_section_omitted|].
    split; [apply trl_distribution_section_omitted|].
    apply maturity_section_omitted.
Qed.

Lemma C6_empty_input_witness :
  Output.error empty_run = None
  /\ Output.synthesis empty_run
     = Synthesis.mk (Some zero_summary) (Some []) (Some []) (Some [])
                    (Some SCStatus.no_data) (Some zero_distribution)
  /\ Output.report empty_run
     = report_header "gallium nitride" "2026-01-01 00:00 UTC"
       +:+ executive_summary_section (Output.synthesis empty_run)
       +:+ report_footer.
Proof.
  exact (proj1 (C6_empty_input_and_omitted_sections
                  digest_stub format_pct_stub raw_empty query_gallium
                  "2026-01-01 00:00 UTC" "2026-01-01T00:00:00" Synthesis.empty
                  eq_refl eq_refl eq_refl eq_refl)).
Defined.

(** ** Faults (C9) *)

(** The exception, if any, that the [try] block of [process] raises. *)
Definition fault_of (md5_hexdigest : string -> string) (raw : Raw.t) (q : Query.t)
    : option exn :=
  match stages_1_to_4 md5_hexdigest raw q with
  | inl e => Some e
  | inr filtered =>
      match _synthesize_findings (stages_5_to_8 filtered q) q with
      | inl e => Some e
      | inr _ => None
      end
  end.

(** The claim: after a fault the caller receives the error and nothing
    that could pass for findings, that is nothing under
    [processed_results]. *)
Definition fault_yields_no_result (md5_hexdigest : string -> string)
    (format_pct : nat -> nat -> string) : Prop :=
  forall raw q now_report now_meta,
    fault_of md5_hexdigest raw q ≠ None ->
    Output.processed_results (process md5_hexdigest format_pct raw q now_report now_meta)
    = inl (Raw.mk None None None None).

(** The paper provider failed ([data] is [None]); the others delivered. *)
Definition raw_paper_provider_failed : Raw.t :=
  Raw.mk (Some (failed_response "PaperProvider" "HTTP 503"))
         (Some (ok_response "PatentProvider" [patent_a]))
         (Some (ok_response "ComponentProvider" [component_a]))
         (Some (ok_response "NexarProvider" [supply_a])).

(** C9, counterexample.  With a failed paper provider stage 1 raises, and
    [process] returns (it does not raise) a dictionary that beside the
    message carries the unprocessed [raw_results] as its
    [processed_results], with the patents, components and supply-chain
    records the other providers delivered. *)
Lemma C9_fault_returns_degraded_result :
  fault_of digest_stub raw_paper_provider_failed query_gallium
  = Some (AttributeError "'NoneType' object has no attribute 'get'")
  /\ process digest_stub format_pct_stub raw_paper_provider_failed query_gallium
             "2026-01-01 00:00 UTC" "2026-01-01T00:00:00"
     = Output.mk (Some "'NoneType' object has no attribute 'get'")
                 (inl raw_paper_provider_failed) Synthesis.empty
                 "Error processing results" None
  /\ raw_items (Raw.patents raw_paper_provider_failed) = inr [patent_a]
  /\ raw_items (Raw.components raw_paper_provider_failed) = inr [component_a]
  /\ ~ fault_yields_no_result digest_stub format_pct_stub.
Proof.
  split; [vm_compute; reflexivity|].
  split; [vm_compute; reflexivity|].
  split; [reflexivity|]. split; [reflexivity|].
  intros Hclaim.
  specialize (Hclaim raw_paper_provider_failed query_gallium
                     "2026-01-01 00:00 UTC" "2026-01-01T00:00:00").
  assert (fault_of digest_stub raw_paper_provider_failed query_gallium ≠ None) as Hfault.
  { vm_compute. discriminate. }
  specialize (Hclaim Hfault). vm_compute in Hclaim. discriminate Hclaim.
Qed.

(** A record with its level key removed. *)
Definition paper_without_level (p : Paper.t) : Paper.t :=
  Paper.mk (Paper.oid p) (Paper.title p) (Paper.authors p) (Paper.abstract p)
           (Paper.year p) (Paper.doi p) None.
Definition patent_without_level (p : Patent.t) : Patent.t :=
  Patent.mk (Patent.oid p) (Patent.patent_number p) (Patent.title p) (Patent.abstract p)
            (Patent.filing_date p) (Patent.status p) None.
Definition component_without_level (c : Component.t) : Component.t :=
  Component.mk (Component.oid c) (Component.part_number c) (Component.manufacturer c)
               (Component.category c) (Component.lifecycle c)
               (Component.specifications c) (Component.features c)
               (Component.applications c) (Component.datasheet_url c)
               (Component.availability c) (Component.supply_chain c)
               (Component.specs_efficiency c) (Component.pricing_unit_price_usd c) None.

(** The provider responses with the level key removed from every record. *)
Definition without_levels (raw : Raw.t) : Raw.t :=
  Raw.mk (option_map (response_map paper_without_level) (Raw.papers raw))
         (option_map (response_map patent_without_level) (Raw.patents raw))
         (option_map (response_map component_without_level) (Raw.components raw))
         (Raw.supply_chain raw).
(** [same_responses a b]: the provider responses of [a] and [b] agree in
    every entry and every record, the level key of a record apart. *)
Definition same_responses (a b : Raw.t) : Prop := without_levels a = without_levels b.

Lemma response_map_map {A} (f g : A -> A) (r : Response.t A) :
  response_map f (response_map g r) = response_map (fun x => f (g x)) r.
Proof.
  unfold response_map, Response.set_data. simpl. f_equal.
  destruct (Response.data r) as [l|]; simpl; [|done]. by rewrite map_map.
Qed.

Lemma response_map_ext {A} (f g : A -> A) (r : Response.t A) :
  (forall x, f x = g x) -> response_map f r = response_map g r.
Proof.
  intros Hfg. unfold response_map. f_equal.
  destruct (Response.data r) as [l|]; simpl; [|done]. f_equal. by apply map_ext.
Qed.

Lemma same_responses_after_classify raw survivors :
  same_responses (raw_after_classify raw survivors) raw.
Proof.
  unfold same_responses, without_levels, raw_after_classify. simpl. f_equal.
  - destruct (Raw.papers raw) as [r|]; simpl; [|done]. f_equal.
    rewrite response_map_map. apply response_map_ext. intros p.
    unfold assigned_in_place, placeholder_paper.
    destruct (bool_decide _); [|done]. by destruct (Paper.trl p).
  - destruct (Raw.patents raw) as [r|]; simpl; [|done]. f_equal.
    rewrite response_map_map. apply response_map_ext. intros p.
    unfold assigned_in_place, placeholder_patent.
    destruct (bool_decide _); [|done]. by destruct (Patent.trl p).
  - destruct (Raw.components raw) as [r|]; simpl; [|done]. f_equal.
    rewrite response_map_map. apply response_map_ext. intros c.
    unfold assigned_in_place, placeholder_component.
    destruct (bool_decide _); [|done].
    destruct (Component.trl c); [done|]. by destruct (bool_decide _).
Qed.

(** C9, as the code has it.  When a stage raises, [process] skips the
    stages that remain and does not raise: it returns the message of the
    exception under [error], the provider responses of the caller's
    [raw_results] under [processed_results] (unfiltered and unranked; as
    the caller passed them when stage 1 to 4 raised), an empty synthesis,
    the fixed report text and no metadata.  A run without fault has no
    [error], holds the processed lists and has the metadata of ten
    stages. *)
Theorem C9_fault_handling
    (md5_hexdigest : string -> string) (format_pct : nat -> nat -> string)
    (raw : Raw.t) (q : Query.t) (now_report now_meta : string) :
  let out := process md5_hexdigest format_pct raw q now_report now_meta in
  match fault_of md5_hexdigest raw q with
  | Some e =>
      Output.error out = Some (str_exn e)
      /\ (exists returned,
             Output.processed_results out = inl returned
             /\ same_responses returned raw
             /\ (stages_1_to_4 md5_hexdigest raw q = inl e -> returned = raw))
      /\ Output.synthesis out = Synthesis.empty
      /\ Output.report out = "Error processing results"
      /\ Output.metadata out = None
  | None =>
      Output.error out = None
      /\ (exists results synthesis,
             Output.processed_results out = inr results
             /\ _synthesize_findings results q = inr synthesis
             /\ Output.synthesis out = synthesis
             /\ Output.report out = _generate_report format_pct synthesis q now_report
             /\ Output.metadata out
                = Some (Metadata.mk 10 (_count_findings results) now_meta))
  end.
Proof.
  unfold fault_of, process.
  destruct (stages_1_to_4 md5_hexdigest raw q) as [e|filtered]; simpl.
  - split_and!; try done. by exists raw.
  - destruct (_synthesize_findings (stages_5_to_8 filtered q) q) as [e|synthesis] eqn:Hsyn;
      simpl.
    + split_and!; try done.
      exists (raw_after_classify raw filtered).
      split; [done|]. split; [apply same_responses_after_classify|done].
    + split; [done|]. by exists (stages_5_to_8 filtered q), synthesis.
Qed.

(** * Further properties of the pipeline *)

(** ** Stage 2 *)

Lemma filter_sublist {A} (f : A -> bool) (l : list A) : List.filter f l `sublist_of` l.
Proof.
  induction l as [|x l IH]; simpl; [constructor|]. destruct (f x); by constructor.
Qed.

Lemma filter_idempotent {A} (f : A -> bool) (l : list A) :
  List.filter f (List.filter f l) = List.filter f l.
Proof.
  induction l as [|x l IH]; simpl; [done|].
  destruct (f x) eqn:Hx; simpl; [|done]. by rewrite Hx, IH.
Qed.

Lemma filter_Forall {A} (f : A -> bool) (l : list A) :
  Forall (fun x => f x = true) (List.filter f l).
Proof. apply Forall_forall. intros x Hx. by apply list_elem_of_In, filter_In in Hx as [_ ?]. Qed.

Lemma paper_quality_spec p :
  paper_quality p = true
  <-> Py.truthy (Paper.title p) = true /\ Paper.authors p ≠ []
      /\ 50 < String.length (default "" (Paper.abstract p)).
Proof.
  unfold paper_quality. rewrite !andb_true_iff, negb_true_iff, bool_decide_eq_false,
    bool_decide_eq_true. tauto.
Qed.

Lemma filter_largest {A} (f : A -> bool) (l l' : list A) :
  l' `sublist_of` l -> Forall (fun x => f x = true) l' -> l' `sublist_of` List.filter f l.
Proof.
  induction 1 as [|x l1 l2 _ IH|x l1 l2 _ IH]; intros Hl'; simpl.
  - constructor.
  - apply Forall_cons in Hl' as [-> Hl']. constructor. by apply IH.
  - destruct (f x); [constructor|]; by apply IH.
Qed.

(** [exactly_the valid input out]: [out] consists of exactly the valid
    records of [input], each as often as in [input] and in the order of
    [input]: it is the largest sub-list of [input] all of whose records
    are valid. *)
Definition exactly_the {A} (valid : A -> Prop) (input out : list A) : Prop :=
  out `sublist_of` input
  /\ Forall valid out
  /\ forall l, l `sublist_of` input -> Forall valid l -> l `sublist_of` out.

Lemma filter_exactly {A} (f : A -> bool) (valid : A -> Prop) (l : list A) :
  (forall x, f x = true <-> valid x) -> exactly_the valid l (List.filter f l).
Proof.
  intros Hf. split_and!.
  - apply filter_sublist.
  - eapply Forall_impl; [apply filter_Forall|]. intros x Hx. by apply Hf.
  - intros l' Hsub Hvalid. apply filter_largest; [done|].
    eapply Forall_impl; [exact Hvalid|]. intros x Hx. by apply Hf.
Qed.

Definition valid_paper (p : Paper.t) : Prop :=
  Py.truthy (Paper.title p) = true /\ Paper.authors p ≠ []
  /\ 50 < String.length (default "" (Paper.abstract p)).
Definition valid_patent (p : Patent.t) : Prop :=
  Py.truthy (Patent.title p) = true /\ Py.truthy (Patent.abstract p) = true
  /\ Py.truthy (Patent.patent_number p) = true.
Definition valid_component (c : Component.t) : Prop :=
  Py.truthy (Component.part_number c) = true
  /\ Py.truthy (Component.manufacturer c) = true.

(** X1: the quality filter keeps exactly the valid records.  A paper is
    valid when it has a non-empty title, at least one author and an
    abstract of more than 50 characters; a patent when it has a
    non-empty title, abstract and patent number; a component when it has
    a non-empty part number and manufacturer.  Every valid record is
    kept, as often and in the order it occurs, and no other record is;
    the supply-chain list is handed on untouched, and running the filter
    on its own output changes nothing. *)
Theorem X1_quality_filter (results : Results.t) :
  let out := _filter_quality results in
  exactly_the valid_paper (Results.papers results) (Results.papers out)
  /\ exactly_the valid_patent (Results.patents results) (Results.patents out)
  /\ exactly_the valid_component (Results.components results) (Results.components out)
  /\ Results.supply_chain out = Results.supply_chain results
  /\ _filter_quality out = out.
Proof.
  simpl. split_and!.
  - apply filter_exactly. intros p. apply paper_quality_spec.
  - apply filter_exactly. intros p. unfold patent_quality, valid_patent.
    rewrite !andb_true_iff. tauto.
  - apply filter_exactly. intros c. unfold component_quality, valid_component.
    by rewrite andb_true_iff.
  - done.
  - unfold _filter_quality. simpl. by rewrite !filter_idempotent.
Qed.

Lemma filter_ext_Forall {A} (f g : A -> bool) (l : list A) :
  Forall (fun x => f x = g x) l -> List.filter f l = List.filter g l.
Proof.
  induction 1 as [|x l Hx _ IH]; simpl; [done|]. by rewrite Hx, IH.
Qed.

(** X2: on the output of stage 1 the number tests of the quality filter
    are redundant, because stage 1 has dropped every patent and every
    component without a number: there the filter keeps a component
    exactly when it has a manufacturer and a patent exactly when it has
    a title and an abstract. *)
Theorem X2_quality_after_dedup
    (md5_hexdigest : string -> string) (raw : Raw.t) (r : Results.t) :
  _deduplicate md5_hexdigest raw = inr r ->
  Results.components (_filter_quality r)
  = List.filter (fun c => Py.truthy (Component.manufacturer c)) (Results.components r)
  /\ Results.patents (_filter_quality r)
     = List.filter (fun p => Py.truthy (Patent.title p) && Py.truthy (Patent.abstract p))
                   (Results.patents r).
Proof.
  unfold _deduplicate. intros Hrun.
  destruct (raw_items (Raw.papers raw)) as [e|papers]; [discriminate|].
  destruct (raw_items (Raw.patents raw)) as [e|patents]; [discriminate|].
  destruct (raw_items (Raw.components raw)) as [e|components]; [discriminate|].
  destruct (raw_items (Raw.supply_chain raw)) as [e|supply_chain]; [discriminate|].
  simpl in Hrun. injection Hrun as <-. simpl. split.
  - apply filter_ext_Forall. rewrite deduplicate_components_loop.
    eapply Forall_impl; [apply (survivors_have_number Component.part_number)|].
    intros c Hc. simpl in Hc. unfold component_quality. by rewrite Hc.
  - apply filter_ext_Forall. rewrite deduplicate_patents_loop.
    eapply Forall_impl; [apply (survivors_have_number Patent.patent_number)|].
    intros p Hp. simpl in Hp. unfold patent_quality. rewrite Hp. by rewrite andb_true_r.
Qed.

Lemma X2_quality_after_dedup_witness :
  Results.components
    (_filter_quality (Results.mk [paper_a; paper_no_doi] [patent_a] [component_a]
                                 [supply_a; supply_a_again] None None))
  = List.filter (fun c => Py.truthy (Component.manufacturer c)) [component_a]
  /\ Results.patents
       (_filter_quality (Results.mk [paper_a; paper_no_doi] [patent_a] [component_a]
                                    [supply_a; supply_a_again] None None))
     = List.filter (fun p => Py.truthy (Patent.title p) && Py.truthy (Patent.abstract p))
                   [patent_a].
Proof.
  exact (X2_quality_after_dedup digest_stub raw_example _ deduplicate_raw_example).
Defined.

(** ** Stage 3 *)

(** The number of query words and of entities that occur in the text. *)
Definition word_hits (text query : string) : nat :=
  count_if (fun word => Py.contains word text) (Py.split query).
Definition entity_hits (text : string) (entities : list (string * list string)) : nat :=
  sum_list (map (fun entity_list =>
                   count_if (fun entity => Py.contains (Py.lower entity) text) entity_list)
                (map snd entities)).

Lemma foldl_add {A} (g : A -> nat) (l : list A) (m : nat) :
  foldl (fun m x => m + g x) m l = m + sum_list (map g l).
Proof.
  revert m. induction l as [|x l IH]; intros m; simpl; [lia|]. rewrite IH. lia.
Qed.

Lemma is_relevant_threshold title abstract query entities :
  _is_relevant title abstract query entities
  = bool_decide (3 * length (Py.split query)
                 <= 10 * (word_hits (text_of title abstract) query
                          + entity_hits (text_of title abstract) entities)).
Proof. unfold _is_relevant. rewrite foldl_add. reflexivity. Qed.

Lemma count_if_le {A} (f : A -> bool) (l : list A) : count_if f l <= length l.
Proof.
  unfold count_if. induction l as [|x l IH]; simpl; [lia|].
  destruct (f x); simpl; lia.
Qed.

(** The test of [_is_relevant] on counts: the query words and the
    entities that occur in the lowered title and abstract, together, are
    at least 30 percent of the number of query words. *)
Definition passes_threshold (title abstract : option string) (query : string)
    (entities : list (string * list string)) : Prop :=
  3 * length (Py.split query)
  <= 10 * (word_hits (text_of title abstract) query
           + entity_hits (text_of title abstract) entities).

(** X3: the relevance filter.  [_is_relevant] holds exactly when the
    number of query words that occur in the lowered title and abstract,
    plus the number of entities that occur there, is at least 30 percent
    of the number of query words (entities add to the matches but not to
    the threshold).  The filter keeps exactly the papers and patents
    that pass this test against the lowered query, as often and in the
    order they occur; components and supply-chain records always pass.
    Hence a query without words keeps everything, a query with words
    drops an item in which no word and no entity occurs, and with at
    most three words one occurring word is enough. *)
Theorem X3_relevance_filter (results : Results.t) (q : Query.t) :
  let query := Py.lower (default "" (Query.query q)) in
  let entities := Query.entities q in
  let out := _filter_relevance results q in
  (forall title abstract query entities,
      _is_relevant title abstract query entities = true
      <-> passes_threshold title abstract query entities)
  /\ exactly_the (fun p => passes_threshold (Paper.title p) (Paper.abstract p)
                                            query entities)
                 (Results.papers results) (Results.papers out)
  /\ exactly_the (fun p => passes_threshold (Patent.title p) (Patent.abstract p)
                                            query entities)
                 (Results.patents results) (Results.patents out)
  /\ Results.components out = Results.components results
  /\ Results.supply_chain out = Results.supply_chain results
  /\ (Py.split query = [] ->
      Results.papers out = Results.papers results
      /\ Results.patents out = Results.patents results)
  /\ (forall title abstract,
        Py.split query ≠ [] ->
        word_hits (text_of title abstract) query = 0 ->
        entity_hits (text_of title abstract) entities = 0 ->
        _is_relevant title abstract query entities = false)
  /\ (forall title abstract,
        length (Py.split query) <= 3 ->
        0 < word_hits (text_of title abstract) query ->
        _is_relevant title abstract query entities = true).
Proof.
  intros query entities out.
  assert (forall title abstract query entities,
             _is_relevant title abstract query entities = true
             <-> passes_threshold title abstract query entities) as Hiff.
  { intros. rewrite is_relevant_threshold. apply bool_decide_eq_true. }
  split_and!.
  - exact Hiff.
  - apply filter_exactly. intros p. apply Hiff.
  - apply filter_exactly. intros p. apply Hiff.
  - done.
  - done.
  - intros Hwords. simpl. split; apply filter_all; intros x;
      apply Hiff; unfold passes_threshold; fold query; rewrite Hwords; simpl; lia.
  - intros title abstract Hwords Hw He. rewrite is_relevant_threshold, Hw, He.
    apply bool_decide_eq_false. destruct (Py.split query); [done|simpl; lia].
  - intros title abstract Hlen Hhit. apply Hiff. unfold passes_threshold. lia.
Qed.

(** ** Stage 7 *)

(** The order of [str]: [a <= b] when [b < a] fails. *)
Definition string_le (a b : string) : Prop := String.ltb b a = false.

Lemma string_ltb_compare a b : String.ltb a b = true <-> String.compare a b = Lt.
Proof. unfold String.ltb. destruct (String.compare a b); intuition congruence. Qed.

Lemma string_le_compare a b : string_le a b <-> String.compare a b ≠ Gt.
Proof.
  unfold string_le, String.ltb. rewrite (String.compare_antisym a b).
  destruct (String.compare b a); simpl; intuition congruence.
Qed.

Lemma string_ltb_le a b : String.ltb a b = true -> string_le a b.
Proof. rewrite string_ltb_compare, string_le_compare. by intros ->. Qed.

Lemma string_le_trans a b c : string_le a b -> string_le b c -> string_le a c.
Proof.
  rewrite !string_le_compare. intros Hab Hbc.
  destruct (String.compare a b) eqn:H1; [| |done].
  - apply String.compare_eq_iff in H1 as ->. done.
  - destruct (String.compare b c) eqn:H2; [| |done].
    + apply String.compare_eq_iff in H2 as <-. by rewrite H1.
    + apply OrderedTypeEx.String_as_OT.cmp_lt in H1, H2.
      pose proof (OrderedTypeEx.String_as_OT.lt_trans _ _ _ H1 H2) as H3.
      apply OrderedTypeEx.String_as_OT.cmp_lt in H3.
      unfold OrderedTypeEx.String_as_OT.cmp in H3. by rewrite H3.
Qed.

Lemma string_ltb_irrefl a : String.ltb a a = false.
Proof.
  unfold String.ltb. pose proof (String.compare_antisym a a) as H.
  by destruct (String.compare a a).
Qed.

Lemma sort_desc_string_sorted {A} (key : A -> string) l :
  StronglySorted (descending string_le key) (Py.sort_desc String.ltb key l).
Proof.
  apply sort_desc_sorted.
  - apply string_ltb_le.
  - intros a b H. exact H.
  - apply string_le_trans.
Qed.

(** The records of [l] whose key is [k], in the order of [l]. *)
Definition with_key {A K} `{EqDecision K} (key : A -> K) (k : K) (l : list A) : list A :=
  List.filter (fun x => bool_decide (key x = k)) l.

Section Stability.
Context {A K : Type} `{EqDecision K} (ltb : K -> K -> bool) (key : A -> K).
Hypothesis ltb_irrefl : forall a, ltb a a = false.

Lemma insert_desc_with_key k x l :
  with_key key k (Py.insert_desc ltb key x l) = with_key key k (x :: l).
Proof.
  unfold with_key. induction l as [|y l IH]; [done|].
  simpl. destruct (ltb (key x) (key y)) eqn:Hxy; [|done].
  simpl. rewrite IH. simpl.
  case_bool_decide as Hx; case_bool_decide as Hy; try done.
  rewrite Hx, Hy, ltb_irrefl in Hxy. done.
Qed.

(** The sort is stable: records with equal keys keep their order. *)
Lemma sort_desc_stable k l :
  with_key key k (Py.sort_desc ltb key l) = with_key key k l.
Proof.
  induction l as [|x l IH]; [done|].
  change (Py.sort_desc ltb key (x :: l))
    with (Py.insert_desc ltb key x (Py.sort_desc ltb key l)).
  rewrite insert_desc_with_key. unfold with_key in *. simpl. by rewrite IH.
Qed.
End Stability.

(** [out] is the ranking of [input]: the first [n] records of a stable
    rearrangement of [input] in descending order of the key. *)
Definition ranking_of {A K} `{EqDecision K} (le : K -> K -> Prop) (key : A -> K)
    (n : nat) (input out : list A) : Prop :=
  exists sorted,
    out = take n sorted
    /\ sorted ≡ₚ input
    /\ StronglySorted (descending le key) sorted
    /\ (forall k, with_key key k sorted = with_key key k input)
    /\ Forall (fun kept => Forall (fun cut => le (key cut) (key kept)) (drop n sorted)) out.

Lemma kept_dominates_cut {A} (R : A -> A -> Prop) n (sorted : list A) :
  StronglySorted R sorted ->
  Forall (fun kept => Forall (fun cut => R kept cut) (drop n sorted)) (take n sorted).
Proof.
  intros Hsorted. apply Forall_forall. intros kept Hkept.
  apply Forall_forall. intros cut Hcut.
  rewrite <- (take_drop n sorted) in Hsorted.
  by eapply StronglySorted_app_1_elem_of.
Qed.

(** X4: the ranker.  Each ranked list is the first 20 (papers, patents) or
    30 (components) records of a rearrangement of its input that descends
    by year, by filing date (as strings) or by level, in which records
    with equal keys keep their input order and every record that is cut
    has a key no larger than any record that is kept; a missing year or
    level counts as 0 and a missing date as the empty string.  The
    supply-chain list and the cross-references pass unchanged. *)
Theorem X4_ranker (results : Results.t) (q : Query.t) :
  let out := _rank_results results q in
  ranking_of Z.le year_key 20 (Results.papers results) (Results.papers out)
  /\ ranking_of string_le filing_key 20 (Results.patents results) (Results.patents out)
  /\ ranking_of Z.le trl_key 30 (Results.components results) (Results.components out)
  /\ length (Results.papers out) = min 20 (length (Results.papers results))
  /\ length (Results.patents out) = min 20 (length (Results.patents results))
  /\ length (Results.components out) = min 30 (length (Results.components results))
  /\ Results.supply_chain out = Results.supply_chain results
  /\ Results.cross_references out = Results.cross_references results.
Proof.
  simpl. repeat split.
  - exists (Py.sort_desc Z.ltb year_key (Results.papers results)).
    split; [done|]. split; [apply sort_desc_perm|].
    split; [apply sort_desc_Z_sorted|].
    split; [intros k; apply sort_desc_stable, Z.ltb_irrefl|].
    apply (kept_dominates_cut (descending Z.le year_key)), sort_desc_Z_sorted.
  - exists (Py.sort_desc String.ltb filing_key (Results.patents results)).
    split; [done|]. split; [apply sort_desc_perm|].
    split; [apply sort_desc_string_sorted|].
    split; [intros k; apply sort_desc_stable, string_ltb_irrefl|].
    apply (kept_dominates_cut (descending string_le filing_key)), sort_desc_string_sorted.
  - exists (Py.sort_desc Z.ltb trl_key (Results.components results)).
    split; [done|]. split; [apply sort_desc_perm|].
    split; [apply sort_desc_Z_sorted|].
    split; [intros k; apply sort_desc_stable, Z.ltb_irrefl|].
    apply (kept_dominates_cut (descending Z.le trl_key)), sort_desc_Z_sorted.
  - unfold Py.slice_to. by rewrite length_take, sort_desc_length.
  - unfold Py.slice_to. by rewrite length_take, sort_desc_length.
  - unfold Py.slice_to. by rewrite length_take, sort_desc_length.
Qed.

(** ** Stage 8 *)

Definition category_of (c : Component.t) : string := default "Other" (Component.category c).

Lemma cluster_append_members category component clusters :
  concat (map snd (cluster_append category component clusters))
  ≡ₚ component :: concat (map snd clusters).
Proof.
  induction clusters as [|[k members] rest IH]; simpl; [done|].
  destruct (decide (k = category)); simpl.
  - rewrite <- app_assoc. simpl. by rewrite <- Permutation_middle.
  - rewrite IH. by rewrite <- Permutation_middle.
Qed.

(** With distinct keys, appending touches the one cluster of the category
    or opens a new one at the end. *)
Lemma cluster_append_spec category component clusters :
  NoDup (map fst clusters) ->
  cluster_append category component clusters
  = map (fun km => if decide (km.1 = category) then (km.1, km.2 ++ [component]) else km)
        clusters
    ++ (if decide (category ∈ map fst clusters) then [] else [(category, [component])]).
Proof.
  induction clusters as [|[k members] rest IH]; simpl; intros Hnd.
  - destruct (decide (category ∈ [])) as [Hin|_]; [|done]. by apply not_elem_of_nil in Hin.
  - apply NoDup_cons in Hnd as [Hk Hnd]. destruct (decide (k = category)) as [->|Hne].
    + rewrite decide_True by left. rewrite app_nil_r. f_equal.
      symmetry. rewrite <- (map_id rest) at 2. apply map_ext_in.
      intros [k' m'] Hin. simpl. rewrite decide_False; [done|].
      intros ->. apply Hk. apply list_elem_of_In. apply (in_map fst) in Hin. exact Hin.
    + rewrite IH by done. simpl. f_equal. f_equal.
      destruct (decide (category ∈ map fst rest)) as [Hin|Hout].
      * rewrite decide_True; [done|by right].
      * rewrite decide_False; [done|]. intros Hin. apply elem_of_cons in Hin as [->|Hin]; done.
Qed.

Lemma with_key_app {A K} `{EqDecision K} (key : A -> K) k (l1 l2 : list A) :
  with_key key k (l1 ++ l2) = with_key key k l1 ++ with_key key k l2.
Proof. unfold with_key. induction l1 as [|x l1 IH]; simpl; [done|].
  destruct (bool_decide (key x = k)); simpl; by rewrite IH. Qed.

(** What the loop of stage 8 has built after the components [l]. *)
Definition clustered (l : list Component.t) (clusters : list (string * list Component.t))
    : Prop :=
  NoDup (map fst clusters)
  /\ Forall (fun km => km.2 = with_key category_of km.1 l /\ km.2 ≠ []) clusters
  /\ Forall (fun c => category_of c ∈ map fst clusters) l.

Lemma cluster_loop_clustered l :
  clustered l (foldl (fun clusters component =>
                        cluster_append (default "Other" (Component.category component))
                                       component clusters) [] l).
Proof.
  induction l as [|c l IH] using rev_ind.
  - repeat split; constructor.
  - rewrite foldl_app. simpl. fold (category_of c).
    destruct IH as (Hnd & Hmembers & Hcovered).
    set (clusters := foldl _ [] l) in *.
    rewrite (cluster_append_spec _ _ _ Hnd).
    assert (forall k, with_key category_of k (l ++ [c])
                      = with_key category_of k l
                        ++ (if decide (category_of c = k) then [c] else [])) as Hsnoc.
    { intros k. rewrite with_key_app. f_equal. unfold with_key. simpl.
      destruct (decide (category_of c = k)) as [Hk|Hk].
      - by rewrite bool_decide_eq_true_2.
      - by rewrite bool_decide_eq_false_2. }
    assert (map fst (map (fun km : string * list Component.t =>
                            if decide (km.1 = category_of c)
                            then (km.1, km.2 ++ [c]) else km) clusters)
            = map fst clusters) as Hkeys.
    { rewrite map_map. apply map_ext. intros [k m]. simpl. by destruct (decide _). }
    repeat split.
    + rewrite map_app, Hkeys. destruct (decide (category_of c ∈ map fst clusters)).
      * by rewrite app_nil_r.
      * simpl. apply NoDup_app. repeat split; [done| |apply NoDup_singleton].
        intros k Hk Hk'. apply list_elem_of_singleton in Hk' as ->. done.
    + apply Forall_app. split.
      * apply Forall_map. eapply Forall_impl; [exact Hmembers|].
        intros [k m] [Hm Hne]. simpl in *. rewrite Hsnoc.
        destruct (decide (k = category_of c)) as [->|Hk]; simpl.
        -- rewrite decide_True by done. split; [by rewrite Hm|].
           intros Hnil. by apply app_eq_nil in Hnil as [_ ?].
        -- rewrite decide_False by done. by rewrite app_nil_r.
      * destruct (decide (category_of c ∈ map fst clusters)) as [Hin|Hout]; [constructor|].
        constructor; [|constructor]. simpl. rewrite Hsnoc, decide_True by done.
        split; [|done].
        assert (with_key category_of (category_of c) l = []) as ->; [|done].
        unfold with_key. destruct (List.filter _ l) as [|c' rest] eqn:Hfilter; [done|].
        exfalso. apply Hout.
        assert (In c' (List.filter (fun x => bool_decide (category_of x = category_of c)) l))
          as Hc' by (rewrite Hfilter; left; done).
        apply filter_In in Hc' as [Hc' Hcat]. apply bool_decide_eq_true in Hcat.
        rewrite <- Hcat. rewrite Forall_forall in Hcovered.
        apply Hcovered. by apply list_elem_of_In.
    + rewrite map_app, Hkeys. apply Forall_app. split.
      * eapply Forall_impl; [exact Hcovered|]. intros c' Hc'. simpl in Hc'.
        apply elem_of_app. by left.
      * constructor; [|constructor].
        destruct (decide (category_of c ∈ map fst clusters)) as [Hin|Hout].
        -- apply elem_of_app. by left.
        -- apply elem_of_app. right. simpl. left.
Qed.

Lemma cluster_loop_members l :
  concat (map snd (foldl (fun clusters component =>
                            cluster_append (default "Other" (Component.category component))
                                           component clusters) [] l)) ≡ₚ l.
Proof.
  induction l as [|c l IH] using rev_ind; [done|].
  rewrite foldl_app. simpl. rewrite cluster_append_members, IH.
  by rewrite Permutation_app_comm.
Qed.

(** X5: the clusters of stage 8 partition the components by category.
    The cluster keys are pairwise distinct; the members of a cluster are
    exactly the components of that category (a missing category counting
    as [Other]) in the order of the component list, and no cluster is
    empty; every component is in the cluster of its category and the
    clusters together hold each component once.  The lists themselves
    pass unchanged. *)
Theorem X5_clusters_partition (results : Results.t) :
  let out := _cluster_results results in
  let clusters := default [] (Results.component_clusters out) in
  NoDup (map fst clusters)
  /\ Forall (fun km => km.2 = with_key category_of km.1 (Results.components results)
                       /\ km.2 ≠ []) clusters
  /\ Forall (fun c => category_of c ∈ map fst clusters) (Results.components results)
  /\ concat (map snd clusters) ≡ₚ Results.components results
  /\ Results.components out = Results.components results
  /\ Results.papers out = Results.papers results
  /\ Results.patents out = Results.patents results
  /\ Results.cross_references out = Results.cross_references results.
Proof.
  simpl. pose proof (cluster_loop_clustered (Results.components results)) as (H1 & H2 & H3).
  repeat split; try done. apply cluster_loop_members.
Qed.

(** ** Stage 9: the level histogram *)

Lemma str_of_Z_inj (a b : Z) : Py.str_of_Z a = Py.str_of_Z b -> a = b.
Proof.
  unfold Py.str_of_Z. intros Heq.
  assert (forall z, NilZero.int_of_string (NilZero.string_of_int (Z.to_int z))
                    = Some (Z.to_int z)) as Hround.
  { intros z. apply NilZero.isi; destruct z; simpl; try discriminate;
      intros [= Hnil]; by apply DecimalPos.Unsigned.to_uint_nonnil in Hnil. }
  pose proof (Hround a) as Ha. rewrite Heq, Hround in Ha. injection Ha as Ha.
  rewrite <- (DecimalZ.of_to a), <- (DecimalZ.of_to b). by rewrite Ha.
Qed.

Lemma trl_label_inj (a b : Z) : trl_label a = trl_label b -> a = b.
Proof. unfold trl_label. simpl. intros [= Heq]. by apply str_of_Z_inj. Qed.

Lemma label_in_table (v : Z) :
  trl_label v ∈ dom zero_distribution <-> (1 <= v <= 9)%Z.
Proof.
  rewrite elem_of_dom. unfold zero_distribution. simpl.
  rewrite !lookup_insert_is_Some'. split.
  - intros H. repeat (destruct H as [H|H]; [apply trl_label_inj in H; lia|]).
    by apply lookup_empty_is_Some in H.
  - intros H.
    assert (v = 1 \/ v = 2 \/ v = 3 \/ v = 4 \/ v = 5 \/ v = 6 \/ v = 7 \/ v = 8 \/ v = 9)%Z
      as Hv by lia.
    repeat (destruct Hv as [->|Hv]; [repeat (first [left; reflexivity | right])|]).
    subst. repeat (first [left; reflexivity | right]).
Qed.

(** A level that the histogram counts but holds no row for. *)
Definition out_of_table (trl : option Z) : option Z :=
  match trl with
  | Some v => if decide (v = 0 \/ 1 <= v <= 9)%Z then None else Some v
  | None => None
  end.
Definition first_out_of_table (trls : list (option Z)) : option Z :=
  head (omap out_of_table trls).
Definition tally (i : Z) (trls : list (option Z)) : nat :=
  length (List.filter (fun trl => bool_decide (trl = Some i)) trls).
Definition counted (trls : list (option Z)) : nat :=
  length (List.filter (fun trl => from_option (fun v => bool_decide (v ≠ 0%Z)) false trl)
                      trls).

Lemma sum_values_increment (d : gmap string nat) (k : string) (n : nat) :
  d !! k = Some n -> sum_values (<[k := S n]> d) = S (sum_values d).
Proof.
  intros Hk. unfold sum_values.
  rewrite <- (insert_delete_eq d k (S n)).
  rewrite map_fold_insert_L; [|intros; lia|apply lookup_delete_eq].
  rewrite <- (insert_delete_id d k n Hk) at 2.
  rewrite map_fold_insert_L; [|intros; lia|apply lookup_delete_eq].
  done.
Qed.

Lemma count_trl_in_table (d : gmap string nat) (trl : option Z) :
  dom d = dom zero_distribution -> out_of_table trl = None ->
  exists d', count_trl d trl = inr d'
             /\ dom d' = dom zero_distribution
             /\ (forall i, (1 <= i <= 9)%Z ->
                           level_count d' i = (tally i [trl] + level_count d i)%nat)
             /\ sum_values d' = (counted [trl] + sum_values d)%nat.
Proof.
  intros Hdom Hin. destruct trl as [v|]; simpl in *.
  - destruct (decide (v = 0 \/ 1 <= v <= 9)%Z) as [Hv|]; [|done].
    destruct (decide (v = 0)%Z) as [->|Hnz].
    + exists d. split; [done|]. split; [done|]. split; [|done].
      intros i Hi. unfold tally. simpl.
      rewrite bool_decide_eq_false_2; [done|]. intros [= <-]. lia.
    + assert (1 <= v <= 9)%Z as Hrange by lia.
      apply label_in_table in Hrange. rewrite <- Hdom in Hrange.
      apply elem_of_dom in Hrange as [n Hn]. rewrite Hn.
      exists (<[trl_label v := S n]> d). split; [done|]. split; [|split].
      * rewrite dom_insert_L, <- Hdom.
        apply subseteq_union_1_L, singleton_subseteq_l. by apply elem_of_dom_2 in Hn.
      * intros i Hi. unfold level_count, tally. simpl.
        destruct (decide (v = i)) as [->|Hne].
        -- rewrite lookup_insert_eq, Hn, bool_decide_eq_true_2; done.
        -- rewrite lookup_insert_ne by (intros Heq; by apply trl_label_inj in Heq).
           rewrite bool_decide_eq_false_2; [done|]. by intros [= ?].
      * unfold counted. simpl. rewrite bool_decide_eq_true_2 by done.
        by apply sum_values_increment.
  - exists d. split; [done|]. split; [done|]. split; done.
Qed.

Lemma count_trl_out_of_table (d : gmap string nat) (trl : option Z) (v : Z) :
  dom d = dom zero_distribution -> out_of_table trl = Some v ->
  count_trl d trl = inl (KeyError (trl_label v)).
Proof.
  intros Hdom Hout. destruct trl as [w|]; simpl in *; [|done].
  destruct (decide (w = 0 \/ 1 <= w <= 9)%Z) as [|Hw]; [done|]. injection Hout as ->.
  rewrite decide_False by tauto.
  destruct (d !! trl_label v) as [n|] eqn:Hn; [|done].
  exfalso. apply Hw. right. apply label_in_table. rewrite <- Hdom. by apply elem_of_dom_2 in Hn.
Qed.

Lemma first_out_of_table_cons (trl : option Z) (trls : list (option Z)) :
  first_out_of_table (trl :: trls)
  = match out_of_table trl with Some v => Some v | None => first_out_of_table trls end.
Proof. unfold first_out_of_table. simpl. by destruct (out_of_table trl). Qed.

Lemma count_trls_spec (trls : list (option Z)) (d : gmap string nat) :
  dom d = dom zero_distribution ->
  match first_out_of_table trls with
  | Some v => count_trls d trls = inl (KeyError (trl_label v))
  | None =>
      exists d', count_trls d trls = inr d'
                 /\ dom d' = dom zero_distribution
                 /\ (forall i, (1 <= i <= 9)%Z ->
                               level_count d' i = (tally i trls + level_count d i)%nat)
                 /\ sum_values d' = (counted trls + sum_values d)%nat
  end.
Proof.
  revert d. induction trls as [|trl trls IH]; intros d Hdom.
  - exists d. repeat split; done.
  - rewrite first_out_of_table_cons.
    change (count_trls d (trl :: trls)) with (d' ← count_trl d trl; count_trls d' trls).
    destruct (out_of_table trl) as [v|] eqn:Hout.
    + rewrite (count_trl_out_of_table d trl v Hdom Hout). reflexivity.
    + destruct (count_trl_in_table d trl Hdom Hout) as (d1 & -> & Hdom1 & Hlevels1 & Hsum1).
      change (d' ← inr d1; count_trls d' trls) with (count_trls d1 trls).
      specialize (IH d1 Hdom1).
      destruct (first_out_of_table trls) as [v|]; [done|].
      destruct IH as (d2 & -> & Hdom2 & Hlevels2 & Hsum2).
      exists d2. split; [done|]. split; [done|]. split.
      * intros i Hi. rewrite (Hlevels2 i Hi), (Hlevels1 i Hi). unfold tally. simpl.
        destruct (bool_decide (trl = Some i)); simpl; lia.
      * rewrite Hsum2, Hsum1. unfold counted. simpl.
        destruct (from_option _ false trl); simpl; lia.
Qed.

Lemma count_trls_app (a b : list (option Z)) (d : gmap string nat) :
  count_trls d (a ++ b) = (d' ← count_trls d a; count_trls d' b).
Proof.
  revert d. induction a as [|trl a IH]; intros d; simpl; [done|].
  destruct (count_trl d trl) as [e|d1]; simpl; [done|]. apply IH.
Qed.

Lemma sum_values_zero_distribution : sum_values zero_distribution = 0%nat.
Proof. by vm_compute. Qed.

Lemma level_count_zero_distribution (i : Z) : level_count zero_distribution i = 0%nat.
Proof.
  unfold level_count. destruct (zero_distribution !! trl_label i) as [n|] eqn:Hn; [|done].
  simpl. unfold zero_distribution in Hn. simpl in Hn.
  repeat (apply lookup_insert_Some in Hn as [[_ <-]|[_ Hn]]; [done|]).
  by rewrite lookup_empty in Hn.
Qed.

(** X6: the level histogram of stage 9.  The levels are read from the
    papers, then the patents, then the components.  A missing level and
    level 0 are skipped.  If every other level lies in 1..9 the histogram
    is returned: it has the nine rows of the initial table, the row of
    level [i] holds the number of records of level [i], and the rows sum
    to the number of records with a non-zero level.  Otherwise the first
    level outside 1..9 raises [KeyError] with its row label, whatever
    follows it. *)
Theorem X6_trl_histogram (results : Results.t) :
  let trls := map Paper.trl (Results.papers results)
              ++ map Patent.trl (Results.patents results)
              ++ map Component.trl (Results.components results) in
  match first_out_of_table trls with
  | Some v => _calculate_trl_distribution results = inl (KeyError (trl_label v))
  | None =>
      exists d, _calculate_trl_distribution results = inr d
                /\ dom d = dom zero_distribution
                /\ (forall i, (1 <= i <= 9)%Z -> level_count d i = tally i trls)
                /\ sum_values d = counted trls
  end.
Proof.
  intros trls.
  assert (_calculate_trl_distribution results = count_trls zero_distribution trls) as ->.
  { unfold _calculate_trl_distribution, trls. rewrite count_trls_app.
    destruct (count_trls zero_distribution _) as [e|d1]; simpl; [done|].
    by rewrite count_trls_app. }
  pose proof (count_trls_spec trls zero_distribution eq_refl) as Hspec.
  destruct (first_out_of_table trls) as [v|]; [done|].
  destruct Hspec as (d & -> & Hdom & Hlevels & Hsum).
  exists d. split; [done|]. split; [done|]. split.
  - intros i Hi. rewrite (Hlevels i Hi), level_count_zero_distribution. lia.
  - rewrite Hsum, sum_values_zero_distribution. lia.
Qed.

(** ** Stage 5 *)

(** The levels the histogram of stage 9 reads, in its order. *)
Definition levels_of (results : Results.t) : list (option Z) :=
  map Paper.trl (Results.papers results)
  ++ map Patent.trl (Results.patents results)
  ++ map Component.trl (Results.components results).

Lemma calculate_as_count_trls (results : Results.t) :
  _calculate_trl_distribution results = count_trls zero_distribution (levels_of results).
Proof.
  unfold _calculate_trl_distribution, levels_of. rewrite count_trls_app.
  destruct (count_trls zero_distribution _) as [e|d1]; simpl; [done|].
  by rewrite count_trls_app.
Qed.

Lemma placeholder_paper_level p :
  Paper.trl (placeholder_paper p) = Some (default 2%Z (Paper.trl p)).
Proof. unfold placeholder_paper. by destruct (Paper.trl p) eqn:H. Qed.

Lemma placeholder_patent_level p :
  Patent.trl (placeholder_patent p)
  = Some (default (if bool_decide (Patent.status p = Some "Granted") then 5 else 4)%Z
                  (Patent.trl p)).
Proof. unfold placeholder_patent. by destruct (Patent.trl p) eqn:H. Qed.

Lemma placeholder_component_level c :
  Component.trl (placeholder_component c)
  = Some (default (if bool_decide (Component.lifecycle c = Some "Active") then 9 else 7)%Z
                  (Component.trl c)).
Proof.
  unfold placeholder_component. destruct (Component.trl c) eqn:H; [done|].
  by destruct (bool_decide _).
Qed.

Lemma placeholder_paper_idem p : placeholder_paper (placeholder_paper p) = placeholder_paper p.
Proof.
  unfold placeholder_paper at 1. by rewrite placeholder_paper_level.
Qed.

Lemma placeholder_patent_idem p :
  placeholder_patent (placeholder_patent p) = placeholder_patent p.
Proof.
  unfold placeholder_patent at 1. by rewrite placeholder_patent_level.
Qed.

Lemma placeholder_component_idem c :
  placeholder_component (placeholder_component c) = placeholder_component c.
Proof.
  unfold placeholder_component at 1. by rewrite placeholder_component_level.
Qed.

Lemma map_idem {A} (f : A -> A) (l : list A) :
  (forall x, f (f x) = f x) -> map f (map f l) = map f l.
Proof. intros Hf. rewrite map_map. apply map_ext. done. Qed.

Lemma omap_out_of_table_ext {A} (f g : A -> option Z) (l : list A) :
  (forall x, out_of_table (f x) = out_of_table (g x)) ->
  omap out_of_table (map f l) = omap out_of_table (map g l).
Proof.
  intros Hfg. induction l as [|x l IH]; [done|].
  change (omap out_of_table (map f (x :: l)))
    with (match out_of_table (f x) with
          | Some v => v :: omap out_of_table (map f l)
          | None => omap out_of_table (map f l)
          end).
  change (omap out_of_table (map g (x :: l)))
    with (match out_of_table (g x) with
          | Some v => v :: omap out_of_table (map g l)
          | None => omap out_of_table (map g l)
          end).
  by rewrite Hfg, IH.
Qed.

(** The levels stage 5 assigns have a row in the histogram. *)
Lemma placeholder_levels_in_table (results : Results.t) :
  omap out_of_table (levels_of (_classify_trl results))
  = omap out_of_table (levels_of results).
Proof.
  unfold levels_of, _classify_trl. simpl. rewrite !omap_app, !map_map.
  f_equal; [|f_equal]; apply omap_out_of_table_ext.
  - intros p. rewrite placeholder_paper_level. by destruct (Paper.trl p).
  - intros p. rewrite placeholder_patent_level.
    destruct (Patent.trl p); [done|]. by destruct (bool_decide _).
  - intros c. rewrite placeholder_component_level.
    destruct (Component.trl c); [done|]. by destruct (bool_decide _).
Qed.

(** X7: the placeholder levels of stage 5.  A record that came with a
    level is returned as it was.  A record without one receives a level
    and is otherwise unchanged: a paper receives 2; a patent 5 when its
    status is [Granted] and 4 otherwise; a component 9 when its lifecycle
    is [Active] and 7 otherwise.  So afterwards every paper, patent and
    component carries a level, running the stage again changes nothing,
    and, the assigned levels being rows of the histogram, the first
    level without a row is the same before and after the stage. *)
Theorem X7_placeholder_levels (results : Results.t) :
  let out := _classify_trl results in
  _classify_trl out = out
  /\ Forall (fun p => is_Some (Paper.trl p)) (Results.papers out)
  /\ Forall (fun p => is_Some (Patent.trl p)) (Results.patents out)
  /\ Forall (fun c => is_Some (Component.trl c)) (Results.components out)
  /\ Forall2 (fun p p' => (is_Some (Paper.trl p) -> p' = p)
                          /\ Paper.trl p' = Some (default 2%Z (Paper.trl p))
                          /\ Paper.set_trl 0 p' = Paper.set_trl 0 p)
             (Results.papers results) (Results.papers out)
  /\ Forall2 (fun p p' => (is_Some (Patent.trl p) -> p' = p)
                          /\ Patent.trl p'
                             = Some (default
                                       (if bool_decide (Patent.status p = Some "Granted")
                                        then 5%Z else 4%Z)
                                       (Patent.trl p))
                          /\ Patent.set_trl 0 p' = Patent.set_trl 0 p)
             (Results.patents results) (Results.patents out)
  /\ Forall2 (fun c c' => (is_Some (Component.trl c) -> c' = c)
                          /\ Component.trl c'
                             = Some (default
                                       (if bool_decide (Component.lifecycle c = Some "Active")
                                        then 9%Z else 7%Z)
                                       (Component.trl c))
                          /\ Component.set_trl 0 c' = Component.set_trl 0 c)
             (Results.components results) (Results.components out)
  /\ Results.supply_chain out = Results.supply_chain results
  /\ first_out_of_table (levels_of out) = first_out_of_table (levels_of results).
Proof.
  simpl. split_and!.
  - unfold _classify_trl. simpl. f_equal.
    + apply map_idem, placeholder_paper_idem.
    + apply map_idem, placeholder_patent_idem.
    + apply map_idem, placeholder_component_idem.
  - apply Forall_map, Forall_forall. intros p _. simpl.
    by rewrite placeholder_paper_level.
  - apply Forall_map, Forall_forall. intros p _. simpl.
    by rewrite placeholder_patent_level.
  - apply Forall_map, Forall_forall. intros c _. simpl.
    by rewrite placeholder_component_level.
  - induction (Results.papers results) as [|p l IH]; simpl; constructor; [|done].
    split; [|split; [apply placeholder_paper_level|]];
      unfold placeholder_paper; destruct (Paper.trl p) eqn:Hp; try done;
      by intros [? ?].
  - induction (Results.patents results) as [|p l IH]; simpl; constructor; [|done].
    split; [|split; [apply placeholder_patent_level|]];
      unfold placeholder_patent; destruct (Patent.trl p) eqn:Hp; try done;
      by intros [? ?].
  - induction (Results.components results) as [|c l IH]; simpl; constructor; [|done].
    split; [|split; [apply placeholder_component_level|]];
      unfold placeholder_component; destruct (Component.trl c) eqn:Hc; try done;
      first [by intros [? ?]|by destruct (bool_decide _)].
  - done.
  - unfold first_out_of_table. by rewrite placeholder_levels_in_table.
Qed.

(** * Further properties of the level provider *)

(** ** Components *)

Definition known_lifecycles : list string := ["active"; "nrnd"; "obsolete"].

Ltac level_in_list := rewrite !elem_of_cons, elem_of_nil; lia.

(** X8: the component path of the level provider.  The level is one of
    5, 7, 8 and 9.  A lifecycle that reads [nrnd] in lower case gives 8
    and one that reads [obsolete] gives 9, whatever the stock; any
    lifecycle other than these and [active] gives 7 with a datasheet and
    5 without, and 5 arises in no other way.  The confidence starts at
    0.6 and receives 0.2 for a known lifecycle, 0.1 for availability
    data and 0.1 for a datasheet, added as floats: the eight outcomes
    are 0.6, 0.7, 0.7, 0.7999999999999999 for an unknown lifecycle and
    0.8, 0.9, 0.9, 1.0 for a known one, so the cap at 1.0 is reached but
    never cuts anything off. *)
Theorem X8_component_classification (c : Component.t) :
  let lifecycle := Py.lower (default "" (Component.lifecycle c)) in
  let datasheet := Py.truthy (Component.datasheet_url c) in
  let '(trl, confidence, _) := TRLProvider._classify_component c in
  trl ∈ [5; 7; 8; 9]%Z
  /\ (lifecycle = "nrnd" -> trl = 8%Z)
  /\ (lifecycle = "obsolete" -> trl = 9%Z)
  /\ (lifecycle ∉ known_lifecycles -> trl = if datasheet then 7%Z else 5%Z)
  /\ (trl = 5%Z <-> ((lifecycle ∉ known_lifecycles) /\ datasheet = false))
  /\ confidence
     = (if mem lifecycle known_lifecycles
        then if bool_decide (Component.availability c = [])
             then (if datasheet then 0.9 else 0.8)
             else (if datasheet then 1.0 else 0.9)
        else if bool_decide (Component.availability c = [])
             then (if datasheet then 0.7 else 0.6)
             else (if datasheet then 0.7999999999999999 else 0.7))%float
  /\ (0.6 <=? confidence)%float = true /\ (confidence <=? 1.0)%float = true.
Proof.
  intros lifecycle datasheet. unfold TRLProvider._classify_component.
  fold lifecycle. fold datasheet. fold known_lifecycles.
  assert (forall s, s ∈ known_lifecycles -> mem s known_lifecycles = true) as Hknown.
  { intros s Hs. by apply bool_decide_eq_true_2. }
  assert (forall s, s ∉ known_lifecycles -> mem s known_lifecycles = false) as Hunknown.
  { intros s Hs. by apply bool_decide_eq_false_2. }
  assert ("active" ∈ known_lifecycles) as Hactive by repeat constructor.
  assert ("nrnd" ∈ known_lifecycles) as Hnrnd by repeat constructor.
  assert ("obsolete" ∈ known_lifecycles) as Hobsolete by repeat constructor.
  clearbody lifecycle datasheet.
  destruct (String.eqb_spec lifecycle "active") as [->|Hne1];
    [|destruct (String.eqb_spec lifecycle "nrnd") as [->|Hne2];
      [|destruct (String.eqb_spec lifecycle "obsolete") as [->|Hne3]]].
  - rewrite (Hknown _ Hactive).
    destruct (bool_decide (1000 < _)%Z && _);
      [|destruct (bool_decide (100 < _)%Z)];
      destruct datasheet; destruct (Component.availability c) as [|d ds]; simpl;
      (split_and!;
       [level_in_list|done|done|done|split; [done|by intros [? _]]
       |reflexivity|reflexivity|reflexivity]).
  - rewrite (Hknown _ Hnrnd).
    destruct datasheet; destruct (Component.availability c) as [|d ds]; simpl;
      (split_and!;
       [level_in_list|done|done|done|split; [done|by intros [? _]]
       |reflexivity|reflexivity|reflexivity]).
  - rewrite (Hknown _ Hobsolete).
    destruct datasheet; destruct (Component.availability c) as [|d ds]; simpl;
      (split_and!;
       [level_in_list|done|done|done|split; [done|by intros [? _]]
       |reflexivity|reflexivity|reflexivity]).
  - assert (lifecycle ∉ known_lifecycles) as Hout.
    { unfold known_lifecycles. rewrite !elem_of_cons, elem_of_nil. tauto. }
    rewrite (Hunknown _ Hout).
    destruct datasheet; destruct (Component.availability c) as [|d ds]; simpl;
      (split_and!;
       [level_in_list|done|done|done|split; [done|by intros [_ ?]]
       |reflexivity|reflexivity|reflexivity]).
Qed.

(** ** Patents *)

Lemma scan_upgrade_spec text levels st :
  (exists above level rest,
      levels = above ++ level :: rest
      /\ Forall (fun t => TRLProvider.matches_of text t = []) above
      /\ TRLProvider.matches_of text level ≠ []
      /\ TRLProvider.scan_upgrade text levels st
         = (level, (st.1.2 + 0.1)%float,
            st.2 ++ ["Indicators: "
                     +:+ Py.join ", " (Py.slice_to 2 (TRLProvider.matches_of text level))]))
  \/ (Forall (fun t => TRLProvider.matches_of text t = []) levels
      /\ TRLProvider.scan_upgrade text levels st = st).
Proof.
  induction levels as [|level levels IH]; simpl.
  - right. by split.
  - destruct (TRLProvider.matches_of text level) as [|m ms] eqn:Hm.
    + destruct IH as [(above & l & rest & -> & Habove & Hl & ->)|[Hnone ->]].
      * left. exists (level :: above), l, rest. split_and!; try done. by constructor.
      * right. split; [by constructor|done].
    + left. exists [], level, levels. rewrite Hm. split_and!; done.
Qed.

Lemma first_match_is_highest_of levels text above level rest :
  StronglySorted Z.gt levels ->
  levels = above ++ level :: rest ->
  Forall (fun t => TRLProvider.matches_of text t = []) above ->
  Forall (fun higher => (level < higher)%Z -> TRLProvider.matches_of text higher = []) levels.
Proof.
  intros Hsorted Hsplit Habove. rewrite Hsplit in Hsorted |- *.
  apply StronglySorted_app in Hsorted as (_ & _ & Hsorted).
  apply StronglySorted_cons in Hsorted as [Hrest _].
  apply Forall_app. split; [|constructor].
  - eapply Forall_impl; [exact Habove|]. auto.
  - lia.
  - eapply Forall_impl; [exact Hrest|]. simpl. lia.
Qed.

Lemma filter_strongly_sorted {A} (R : A -> A -> Prop) (f : A -> bool) (l : list A) :
  StronglySorted R l -> StronglySorted R (List.filter f l).
Proof.
  induction 1 as [|x l Hl IH Hx]; simpl; [constructor|].
  destruct (f x); [|done]. constructor; [done|].
  apply Forall_forall. intros y Hy. rewrite Forall_forall in Hx. apply Hx.
  apply list_elem_of_In, filter_In in Hy as [Hy _]. by apply list_elem_of_In.
Qed.

Lemma levels_above_sorted base : StronglySorted Z.gt (TRLProvider.levels_above base).
Proof.
  unfold TRLProvider.levels_above. apply filter_strongly_sorted.
  apply descending_levels_sorted.
Qed.

Lemma levels_above_range base level :
  level ∈ TRLProvider.levels_above base <-> (base < level <= 9)%Z /\ (1 <= level)%Z.
Proof.
  unfold TRLProvider.levels_above. rewrite list_elem_of_In, filter_In, <- list_elem_of_In.
  unfold TRLProvider.descending_levels. rewrite !elem_of_cons, elem_of_nil, Z.ltb_lt. lia.
Qed.

Definition patent_text (p : Patent.t) : string :=
  text_of (Patent.title p) (Patent.abstract p).
Definition granted (p : Patent.t) : bool :=
  Py.contains "granted" (Py.lower (default "" (Patent.status p))).

(** X9: the patent path of the level provider.  The base is 5 with
    confidence 0.7 when the lower-cased status contains [granted] and 4
    with confidence 0.6 otherwise.  The scan runs from level 9 down to
    the level above the base and stops at the first level one of whose
    indicators occurs in the lowered title and abstract: the level
    returned is that level, or 7 when it is above 7, and the confidence
    is the float sum of the base confidence and 0.1 whatever the number
    of indicators: 0.7999999999999999 for a granted patent and 0.7 for a
    pending one.  When no level above the base matches, the base and its
    confidence are returned.  The justification lists the status, at most two
    indicators and the adjustment. *)
Theorem X9_patent_classification (patent : Patent.t) :
  let text := patent_text patent in
  let base := if granted patent then 5%Z else 4%Z in
  let base_confidence := (if granted patent then 0.7 else 0.6)%float in
  let status_reason := if granted patent then "Granted patent" else "Pending patent" in
  let '(trl, confidence, justification) := TRLProvider._classify_patent patent in
  (exists level,
      (base < level <= 9)%Z
      /\ TRLProvider.matches_of text level ≠ []
      /\ Forall (fun higher => (level < higher)%Z -> TRLProvider.matches_of text higher = [])
                (TRLProvider.levels_above base)
      /\ trl = Z.min level 7
      /\ confidence = (if granted patent then 0.7999999999999999 else 0.7)%float
      /\ justification
         = TRLProvider.justify trl
             ([status_reason;
               "Indicators: "
               +:+ Py.join ", " (Py.slice_to 2 (TRLProvider.matches_of text level))]
              ++ (if bool_decide (7 < level)%Z then [TRLProvider.patent_adjusted_note]
                  else [])))
  \/ (Forall (fun level => TRLProvider.matches_of text level = [])
             (TRLProvider.levels_above base)
      /\ trl = base /\ confidence = base_confidence
      /\ justification = TRLProvider.justify base [status_reason]).
Proof.
  intros text base base_confidence status_reason.
  unfold TRLProvider._classify_patent. fold (patent_text patent). fold text.
  fold (granted patent). subst base base_confidence status_reason.
  destruct (granted patent); cbn [fst snd].
  - destruct (scan_upgrade_spec text (TRLProvider.levels_above 5)
                                (5%Z, 0.7%float, ["Granted patent"]))
      as [(above & level & rest & Hsplit & Habove & Hlevel & ->)|[Hnone ->]].
    + assert (level ∈ TRLProvider.levels_above 5) as Hin.
      { rewrite Hsplit. apply elem_of_app. right. left. }
      apply levels_above_range in Hin.
      pose proof (first_match_is_highest_of _ text above level rest
                    (levels_above_sorted 5) Hsplit Habove) as Hhigh.
      destruct (bool_decide (7 < level)%Z) eqn:Hcap; cbn [fst snd];
        left; exists level; rewrite Hcap.
      * apply bool_decide_eq_true in Hcap. split_and!; try done; lia.
      * apply bool_decide_eq_false in Hcap. rewrite app_nil_r.
        split_and!; try done; lia.
    + right. cbn. split_and!; done.
  - destruct (scan_upgrade_spec text (TRLProvider.levels_above 4)
                                (4%Z, 0.6%float, ["Pending patent"]))
      as [(above & level & rest & Hsplit & Habove & Hlevel & ->)|[Hnone ->]].
    + assert (level ∈ TRLProvider.levels_above 4) as Hin.
      { rewrite Hsplit. apply elem_of_app. right. left. }
      apply levels_above_range in Hin.
      pose proof (first_match_is_highest_of _ text above level rest
                    (levels_above_sorted 4) Hsplit Habove) as Hhigh.
      destruct (bool_decide (7 < level)%Z) eqn:Hcap; cbn [fst snd];
        left; exists level; rewrite Hcap.
      * apply bool_decide_eq_true in Hcap. split_and!; try done; lia.
      * apply bool_decide_eq_false in Hcap. rewrite app_nil_r.
        split_and!; try done; lia.
    + right. cbn. split_and!; done.
Qed.

(** ** The range of the levels *)

Lemma classify_component_level c :
  (TRLProvider._classify_component c).1.1 ∈ [5; 7; 8; 9]%Z.
Proof.
  unfold TRLProvider._classify_component.
  destruct (String.eqb _ "active");
    [destruct (bool_decide (1000 < _)%Z && _); [|destruct (bool_decide (100 < _)%Z)]
    |destruct (String.eqb _ "nrnd"); [|destruct (String.eqb _ "obsolete")]];
    destruct (Py.truthy (Component.datasheet_url c)); simpl; level_in_list.
Qed.

Lemma classify_paper_level p : (1 <= (TRLProvider._classify_paper p).1.1 <= 6)%Z.
Proof.
  unfold TRLProvider._classify_paper.
  destruct (scan_spec (text_of (Paper.title p) (Paper.abstract p))
                      TRLProvider.descending_levels (2%Z, 0.5%float, []))
    as [(above & level & rest & Hsplit & _ & _ & ->)|[_ ->]].
  - assert (level ∈ TRLProvider.descending_levels) as Hin.
    { rewrite Hsplit. apply elem_of_app. right. left. }
    unfold TRLProvider.descending_levels in Hin.
    rewrite !elem_of_cons, elem_of_nil in Hin.
    destruct (bool_decide (6 < level)%Z) eqn:Hcap; simpl.
    + lia.
    + apply bool_decide_eq_false in Hcap. lia.
  - simpl. lia.
Qed.

Lemma classify_patent_level p : (4 <= (TRLProvider._classify_patent p).1.1 <= 7)%Z.
Proof.
  unfold TRLProvider._classify_patent.
  set (st := if Py.contains "granted" _ then _ else _).
  assert (st.1.1 = 4 \/ st.1.1 = 5)%Z as Hbase.
  { subst st. destruct (Py.contains "granted" _); simpl; lia. }
  destruct (scan_upgrade_spec (text_of (Patent.title p) (Patent.abstract p))
                              (TRLProvider.levels_above st.1.1) st)
    as [(above & level & rest & Hsplit & _ & _ & ->)|[_ ->]].
  - assert (level ∈ TRLProvider.levels_above st.1.1) as Hin.
    { rewrite Hsplit. apply elem_of_app. right. left. }
    apply levels_above_range in Hin.
    destruct (bool_decide (7 < level)%Z) eqn:Hcap; simpl.
    + lia.
    + apply bool_decide_eq_false in Hcap. lia.
  - destruct st as [[base confidence] reasons]. simpl in *.
    destruct (bool_decide (7 < base)%Z) eqn:Hcap; simpl; lia.
Qed.

Lemma trl_definitions_total trl : (1 <= trl <= 9)%Z -> is_Some (TRLProvider.trl_definitions trl).
Proof.
  intros H.
  assert (trl = 1 \/ trl = 2 \/ trl = 3 \/ trl = 4 \/ trl = 5 \/ trl = 6 \/ trl = 7
          \/ trl = 8 \/ trl = 9)%Z as Hv by lia.
  repeat (destruct Hv as [->|Hv]; [by eexists|]). subst. by eexists.
Qed.

(** ** [fetch] and [validate_response] *)

(** What a successful reply of [fetch] looks like. *)
Definition well_classified (r : TRLProvider.reply TRLProvider.trl_data)
    (entity_type entity_id : string) (now : string) : Prop :=
  exists trl confidence justification definition,
    r = TRLProvider.Reply "TRLProvider" true
          (Some (TRLProvider.TrlData (Some trl) confidence justification (Some definition)
                                     entity_type entity_id))
          None now
    /\ (1 <= trl <= 9)%Z
    /\ TRLProvider.trl_definitions trl = Some definition.

Lemma classified_well (c : Z * float * string) entity_type entity_id now :
  (1 <= c.1.1 <= 9)%Z ->
  well_classified (TRLProvider.classified c entity_type entity_id now)
                  entity_type entity_id now.
Proof.
  destruct c as [[trl confidence] justification]. simpl. intros Hrange.
  destruct (trl_definitions_total trl Hrange) as [definition Hdef].
  exists trl, confidence, justification, definition.
  unfold TRLProvider._create_response. by rewrite Hdef.
Qed.

Lemma well_classified_valid r entity_type entity_id now :
  well_classified r entity_type entity_id now ->
  TRLProvider.validate_response r = inr true
  /\ TRLProvider.reply_success r = true
  /\ exists trl, TRLProvider.reply_trl r = Some trl /\ (1 <= trl <= 9)%Z.
Proof.
  intros (trl & confidence & justification & definition & -> & Hrange & _).
  unfold TRLProvider.validate_response, TRLProvider.reply_trl. simpl. split_and!.
  - f_equal. apply andb_true_intro. split; apply bool_decide_eq_true_2; lia.
  - done.
  - by exists trl.
Qed.

(** X10: [fetch] and [validate_response].  The first of component, paper
    and patent that is given and is no empty dictionary decides the path,
    and the reply then is a success whose level lies in 1..9, whose
    definition is present and which [validate_response] accepts.  With no
    such argument the reply is the failure reply with [data] [None] and
    the message of the [ValueError], and on that reply
    [validate_response] raises [AttributeError] instead of returning
    [False]. *)
Theorem X10_fetch_and_validate (component : option Component.t) (paper : option Paper.t)
    (patent : option Patent.t) (now : string) :
  let r := TRLProvider.fetch component paper patent now in
  match TRLProvider.arg_given TRLProvider.component_truthy component,
        TRLProvider.arg_given TRLProvider.paper_truthy paper,
        TRLProvider.arg_given TRLProvider.patent_truthy patent with
  | Some c, _, _ =>
      well_classified r "component" (default "unknown" (Component.part_number c)) now
      /\ TRLProvider.reply_trl r = Some (TRLProvider._classify_component c).1.1
      /\ TRLProvider.validate_response r = inr true
  | None, Some p, _ =>
      well_classified r "paper" (default "unknown" (Paper.title p)) now
      /\ TRLProvider.reply_trl r = Some (TRLProvider._classify_paper p).1.1
      /\ TRLProvider.validate_response r = inr true
  | None, None, Some p =>
      well_classified r "patent" (default "unknown" (Patent.patent_number p)) now
      /\ TRLProvider.reply_trl r = Some (TRLProvider._classify_patent p).1.1
      /\ TRLProvider.validate_response r = inr true
  | None, None, None =>
      r = TRLProvider.Reply "TRLProvider" false None
            (Some "No data provided for TRL classification") now
      /\ TRLProvider.validate_response r = inl (AttributeError
                                                  "'NoneType' object has no attribute 'get'")
  end.
Proof.
  intros r. subst r. unfold TRLProvider.fetch.
  destruct (TRLProvider.arg_given _ component) as [c|];
    [|destruct (TRLProvider.arg_given _ paper) as [p|];
      [|destruct (TRLProvider.arg_given _ patent) as [p|]]].
  - assert (1 <= (TRLProvider._classify_component c).1.1 <= 9)%Z as Hrange.
    { pose proof (classify_component_level c) as H.
      rewrite !elem_of_cons, elem_of_nil in H. lia. }
    pose proof (classified_well _ "component" (default "unknown" (Component.part_number c))
                                now Hrange) as Hwell.
    split; [done|]. split; [|by apply well_classified_valid in Hwell as [? _]].
    by destruct (TRLProvider._classify_component c) as [[? ?] ?].
  - assert (1 <= (TRLProvider._classify_paper p).1.1 <= 9)%Z as Hrange.
    { pose proof (classify_paper_level p). lia. }
    pose proof (classified_well _ "paper" (default "unknown" (Paper.title p))
                                now Hrange) as Hwell.
    split; [done|]. split; [|by apply well_classified_valid in Hwell as [? _]].
    by destruct (TRLProvider._classify_paper p) as [[? ?] ?].
  - assert (1 <= (TRLProvider._classify_patent p).1.1 <= 9)%Z as Hrange.
    { pose proof (classify_patent_level p). lia. }
    pose proof (classified_well _ "patent" (default "unknown" (Patent.patent_number p))
                                now Hrange) as Hwell.
    split; [done|]. split; [|by apply well_classified_valid in Hwell as [? _]].
    by destruct (TRLProvider._classify_patent p) as [[? ?] ?].
  - split; reflexivity.
Qed.

(** ** The batch mode *)

Definition level_1_to_9 (trl : option Z) : Prop :=
  exists v, trl = Some v /\ (1 <= v <= 9)%Z.

Lemma levels_1_to_9_counted (trls : list (option Z)) :
  Forall level_1_to_9 trls ->
  first_out_of_table trls = None /\ counted trls = length trls.
Proof.
  induction 1 as [|trl trls (v & -> & Hv) _ [IH1 IH2]]; [done|].
  rewrite first_out_of_table_cons. unfold counted in *. simpl.
  rewrite decide_True by lia. rewrite bool_decide_eq_true_2 by lia. simpl.
  by rewrite IH2.
Qed.

Lemma levels_1_to_9_tally (trls : list (option Z)) :
  Forall level_1_to_9 trls ->
  (tally 1 trls + tally 2 trls + tally 3 trls
   + (tally 4 trls + tally 5 trls + tally 6 trls)
   + (tally 7 trls + tally 8 trls + tally 9 trls))%nat = length trls.
Proof.
  induction 1 as [|trl trls (v & -> & Hv) _ IH]; [done|].
  unfold tally in *. simpl.
  assert (v = 1 \/ v = 2 \/ v = 3 \/ v = 4 \/ v = 5 \/ v = 6 \/ v = 7 \/ v = 8 \/ v = 9)%Z
    as Hcases by lia.
  repeat (destruct Hcases as [->|Hcases];
          [repeat case_bool_decide; simplify_eq; simpl; lia|]).
  subst. repeat case_bool_decide; simplify_eq; simpl; lia.
Qed.

Lemma classify_each_spec {A} (run : A -> TRLProvider.reply TRLProvider.trl_data)
    (type : string) (id : A -> option string) (truthy : A -> bool) (items : list A) :
  (forall x, if truthy x
             then TRLProvider.reply_success (run x) = true
                  /\ level_1_to_9 (TRLProvider.reply_trl (run x))
             else TRLProvider.reply_success (run x) = false) ->
  length (TRLProvider.classify_each run type id items) = count_if truthy items
  /\ Forall level_1_to_9 (map TRLProvider.cls_trl (TRLProvider.classify_each run type id items)).
Proof.
  intros Hrun. unfold TRLProvider.classify_each, count_if.
  induction items as [|x items [IH1 IH2]]; simpl; [by split|].
  specialize (Hrun x). destruct (truthy x).
  - destruct Hrun as [-> Hlevel]. simpl. split; [by rewrite IH1|]. by constructor.
  - rewrite Hrun. simpl. by split.
Qed.

Lemma fetch_component_reply c now :
  if TRLProvider.component_truthy c
  then TRLProvider.reply_success (TRLProvider.fetch (Some c) None None now) = true
       /\ level_1_to_9 (TRLProvider.reply_trl (TRLProvider.fetch (Some c) None None now))
  else TRLProvider.reply_success (TRLProvider.fetch (Some c) None None now) = false.
Proof.
  unfold TRLProvider.fetch. simpl. destruct (TRLProvider.component_truthy c); [|done].
  assert (1 <= (TRLProvider._classify_component c).1.1 <= 9)%Z as Hrange.
  { pose proof (classify_component_level c) as H.
    rewrite !elem_of_cons, elem_of_nil in H. lia. }
  apply (classified_well _ "component" (default "unknown" (Component.part_number c)) now)
    in Hrange.
  by apply well_classified_valid in Hrange as (_ & ? & ?).
Qed.

Lemma fetch_paper_reply p now :
  if TRLProvider.paper_truthy p
  then TRLProvider.reply_success (TRLProvider.fetch None (Some p) None now) = true
       /\ level_1_to_9 (TRLProvider.reply_trl (TRLProvider.fetch None (Some p) None now))
  else TRLProvider.reply_success (TRLProvider.fetch None (Some p) None now) = false.
Proof.
  unfold TRLProvider.fetch. simpl. destruct (TRLProvider.paper_truthy p); [|done].
  assert (1 <= (TRLProvider._classify_paper p).1.1 <= 9)%Z as Hrange.
  { pose proof (classify_paper_level p). lia. }
  apply (classified_well _ "paper" (default "unknown" (Paper.title p)) now) in Hrange.
  by apply well_classified_valid in Hrange as (_ & ? & ?).
Qed.

Lemma fetch_patent_reply p now :
  if TRLProvider.patent_truthy p
  then TRLProvider.reply_success (TRLProvider.fetch None None (Some p) now) = true
       /\ level_1_to_9 (TRLProvider.reply_trl (TRLProvider.fetch None None (Some p) now))
  else TRLProvider.reply_success (TRLProvider.fetch None None (Some p) now) = false.
Proof.
  unfold TRLProvider.fetch. simpl. destruct (TRLProvider.patent_truthy p); [|done].
  assert (1 <= (TRLProvider._classify_patent p).1.1 <= 9)%Z as Hrange.
  { pose proof (classify_patent_level p). lia. }
  apply (classified_well _ "patent" (default "unknown" (Patent.patent_number p)) now)
    in Hrange.
  by apply well_classified_valid in Hrange as (_ & ? & ?).
Qed.

(** X11: the batch mode of the level provider.  [classify_batch] never
    raises: every level it feeds into the histogram comes from [fetch]
    and has a row.  It classifies exactly the records that are no empty
    dictionary; the histogram has the nine rows, row [i] counts the
    classifications of level [i], and the rows sum to the number of
    classifications, as do the three phases research, development and
    production together.  The analysis is [no_data] when nothing was
    classified and otherwise reports that number as its total. *)
Theorem X11_classify_batch (format_pct : nat -> nat -> string)
    (components : list Component.t) (papers : list Paper.t) (patents : list Patent.t)
    (now : string) :
  let n := (count_if TRLProvider.component_truthy components
            + count_if TRLProvider.paper_truthy papers
            + count_if TRLProvider.patent_truthy patents)%nat in
  exists data,
    TRLProvider.classify_batch format_pct components papers patents now
    = inr (TRLProvider.Reply "TRLProvider" true (Some data) None now)
    /\ length (TRLProvider.batch_classifications data) = n
    /\ Forall (fun c => level_1_to_9 (TRLProvider.cls_trl c))
              (TRLProvider.batch_classifications data)
    /\ dom (TRLProvider.batch_distribution data) = dom zero_distribution
    /\ (forall i, (1 <= i <= 9)%Z ->
                  level_count (TRLProvider.batch_distribution data) i
                  = tally i (map TRLProvider.cls_trl (TRLProvider.batch_classifications data)))
    /\ sum_values (TRLProvider.batch_distribution data) = n
    /\ (levels_count (TRLProvider.batch_distribution data) [1; 2; 3]%Z
        + levels_count (TRLProvider.batch_distribution data) [4; 5; 6]%Z
        + levels_count (TRLProvider.batch_distribution data) [7; 8; 9]%Z)%nat = n
    /\ TRLProvider.an_status (TRLProvider.batch_analysis data)
       = (if decide (n = 0%nat) then Some "no_data" else None)
    /\ TRLProvider.an_total_classified (TRLProvider.batch_analysis data)
       = (if decide (n = 0%nat) then None else Some n).
Proof.
  intros n. unfold TRLProvider.classify_batch.
  set (classifications := _ ++ _ ++ _).
  assert (length classifications = n
          /\ Forall level_1_to_9 (map TRLProvider.cls_trl classifications)) as [Hlen Hlevels].
  { subst classifications n. rewrite !length_app, !map_app, !Forall_app.
    destruct (classify_each_spec (fun comp => TRLProvider.fetch (Some comp) None None now)
                "component" Component.part_number TRLProvider.component_truthy components
                (fun c => fetch_component_reply c now)) as [-> ?].
    destruct (classify_each_spec (fun paper => TRLProvider.fetch None (Some paper) None now)
                "paper" TRLProvider.paper_batch_id TRLProvider.paper_truthy papers
                (fun p => fetch_paper_reply p now)) as [-> ?].
    destruct (classify_each_spec (fun patent => TRLProvider.fetch None None (Some patent) now)
                "patent" Patent.patent_number TRLProvider.patent_truthy patents
                (fun p => fetch_patent_reply p now)) as [-> ?].
    split; [lia|done]. }
  destruct (levels_1_to_9_counted _ Hlevels) as [Hfirst Hcounted].
  pose proof (count_trls_spec (map TRLProvider.cls_trl classifications)
                              zero_distribution eq_refl) as Hspec.
  rewrite Hfirst in Hspec. destruct Hspec as (d & Hd & Hdom & Hrows & Hsum).
  rewrite sum_values_zero_distribution, Hcounted, length_map, Hlen, Nat.add_0_r in Hsum.
  unfold TRLProvider._calculate_distribution. rewrite Hd. simpl.
  eexists. split; [reflexivity|]. simpl. split_and!.
  - done.
  - by apply Forall_map.
  - done.
  - intros i Hi. rewrite (Hrows i Hi), level_count_zero_distribution. lia.
  - done.
  - unfold levels_count. simpl.
    rewrite !Hrows by lia. rewrite !level_count_zero_distribution.
    pose proof (levels_1_to_9_tally _ Hlevels) as Htally.
    rewrite length_map, Hlen in Htally. lia.
  - unfold TRLProvider._analyze_distribution. rewrite Hsum.
    by destruct (decide (n = 0%nat)).
  - unfold TRLProvider._analyze_distribution. rewrite Hsum.
    by destruct (decide (n = 0%nat)).
Qed.

(** * The pipeline as a whole *)

(** A provider entry is answered when it is missing or carries [data]. *)
Definition answered {A} (entry : option (Response.t A)) : bool :=
  match entry with
  | Some r => match Response.data r with Some _ => true | None => false end
  | None => true
  end.
Definition raw_list {A} (entry : option (Response.t A)) : list A :=
  match entry with
  | Some r => default [] (Response.data r)
  | None => []
  end.
Definition all_answered (raw : Raw.t) : bool :=
  answered (Raw.papers raw) && answered (Raw.patents raw)
  && answered (Raw.components raw) && answered (Raw.supply_chain raw).

Lemma raw_items_answered {A} (entry : option (Response.t A)) :
  raw_items entry = if answered entry then inr (raw_list entry) else inl none_has_no_get.
Proof. destruct entry as [r|]; simpl; [|done]. by destruct (Response.data r). Qed.

Lemma submseteq_Forall {A} (P : A -> Prop) (l k : list A) :
  l ⊆+ k -> Forall P k -> Forall P l.
Proof. rewrite !Forall_forall. eauto using elem_of_submseteq. Qed.

Lemma submseteq_NoDup_map {A B} (f : A -> B) (l k : list A) :
  l ⊆+ k -> NoDup (map f k) -> NoDup (map f l).
Proof.
  intros Hsub Hk. apply (fmap_submseteq f) in Hsub.
  apply submseteq_sublist_l in Hsub as (m & Hsub & Hperm).
  apply (sublist_NoDup _ m); [|done]. by rewrite Hperm.
Qed.

Lemma ranked_submseteq {A K} (ltb : K -> K -> bool) (key : A -> K) (n : nat) (l : list A) :
  Py.slice_to n (Py.sort_desc ltb key l) ⊆+ l.
Proof.
  etrans; [apply submseteq_take|]. apply Permutation_submseteq, sort_desc_perm.
Qed.

Lemma ranked_length {A K} (ltb : K -> K -> bool) (key : A -> K) (n : nat) (l : list A) :
  length (Py.slice_to n (Py.sort_desc ltb key l)) <= n.
Proof. unfold Py.slice_to. rewrite length_take. lia. Qed.

Lemma in_table_first (trls : list (option Z)) :
  Forall (fun trl => out_of_table trl = None) trls -> first_out_of_table trls = None.
Proof.
  induction 1 as [|trl trls Htrl _ IH]; [done|].
  by rewrite first_out_of_table_cons, Htrl.
Qed.

Section PipelineFacts.
Variable md5_hexdigest : string -> string.
Variable format_pct : nat -> nat -> string.

Lemma deduplicate_answered (raw : Raw.t) :
  _deduplicate md5_hexdigest raw
  = if all_answered raw
    then inr (Results.mk (_deduplicate_papers md5_hexdigest (raw_list (Raw.papers raw)))
                         (_deduplicate_patents (raw_list (Raw.patents raw)))
                         (_deduplicate_components (raw_list (Raw.components raw)))
                         (raw_list (Raw.supply_chain raw)) None None)
    else inl none_has_no_get.
Proof.
  unfold _deduplicate, all_answered. rewrite !raw_items_answered.
  destruct (answered (Raw.papers raw)); [|done].
  destruct (answered (Raw.patents raw)); [|done].
  destruct (answered (Raw.components raw)); [|done].
  by destruct (answered (Raw.supply_chain raw)).
Qed.

(** The lists after stage 4, for a [raw_results] that is answered. *)
Definition filtered_of (raw : Raw.t) (q : Query.t) : Results.t :=
  _filter_regional
    (_filter_relevance
       (_filter_quality
          (Results.mk (_deduplicate_papers md5_hexdigest (raw_list (Raw.papers raw)))
                      (_deduplicate_patents (raw_list (Raw.patents raw)))
                      (_deduplicate_components (raw_list (Raw.components raw)))
                      (raw_list (Raw.supply_chain raw)) None None)) q) q.

Lemma stages_1_to_4_answered (raw : Raw.t) (q : Query.t) :
  stages_1_to_4 md5_hexdigest raw q
  = if all_answered raw then inr (filtered_of raw q) else inl none_has_no_get.
Proof.
  unfold stages_1_to_4. rewrite deduplicate_answered. by destruct (all_answered raw).
Qed.

Lemma filtered_papers_sublist raw q :
  Results.papers (filtered_of raw q)
  `sublist_of` _deduplicate_papers md5_hexdigest (raw_list (Raw.papers raw)).
Proof. simpl. etrans; [apply filter_sublist|]. apply filter_sublist. Qed.

Lemma filtered_patents_sublist raw q :
  Results.patents (filtered_of raw q)
  `sublist_of` _deduplicate_patents (raw_list (Raw.patents raw)).
Proof. simpl. etrans; [apply filter_sublist|]. apply filter_sublist. Qed.

Lemma filtered_components_sublist raw q :
  Results.components (filtered_of raw q)
  `sublist_of` _deduplicate_components (raw_list (Raw.components raw)).
Proof. simpl. etrans; [apply filter_sublist|]. apply filter_sublist. Qed.

Lemma deduplicate_papers_sublist papers :
  _deduplicate_papers md5_hexdigest papers `sublist_of` papers.
Proof. rewrite deduplicate_papers_loop. apply dedup_from_sublist. Qed.

Lemma deduplicate_patents_sublist patents : _deduplicate_patents patents `sublist_of` patents.
Proof. rewrite deduplicate_patents_loop. apply dedup_from_sublist. Qed.

Lemma deduplicate_components_sublist components :
  _deduplicate_components components `sublist_of` components.
Proof. rewrite deduplicate_components_loop. apply dedup_from_sublist. Qed.

Lemma filtered_keys_NoDup raw q :
  NoDup (map (paper_identifier md5_hexdigest) (Results.papers (filtered_of raw q)))
  /\ NoDup (map Patent.patent_number (Results.patents (filtered_of raw q)))
  /\ NoDup (map Component.part_number (Results.components (filtered_of raw q))).
Proof.
  split_and!.
  - eapply submseteq_NoDup_map;
      [apply sublist_submseteq, filtered_papers_sublist|apply papers_identifiers_NoDup].
  - eapply submseteq_NoDup_map; [apply sublist_submseteq, filtered_patents_sublist|].
    rewrite deduplicate_patents_loop. apply (survivors_numbers_NoDup Patent.patent_number).
  - eapply submseteq_NoDup_map; [apply sublist_submseteq, filtered_components_sublist|].
    rewrite deduplicate_components_loop.
    apply (survivors_numbers_NoDup Component.part_number).
Qed.
End PipelineFacts.

(** X12: stages 1 to 4 and the one fault they can raise.  If some
    provider entry is present without [data], stage 1 raises
    [AttributeError], and [process] returns the fixed error result with
    the caller's [raw_results].  Otherwise the four stages return: each
    list is a sublist of the provider's list (nothing is added or
    reordered), the identifiers of the papers, the patent numbers and
    the part numbers are pairwise distinct, and every paper, patent and
    component passes the quality test of stage 2. *)
Theorem X12_stages_1_to_4 (md5_hexdigest : string -> string)
    (format_pct : nat -> nat -> string) (raw : Raw.t) (q : Query.t)
    (now_report now_meta : string) :
  if all_answered raw
  then exists filtered,
      stages_1_to_4 md5_hexdigest raw q = inr filtered
      /\ Results.papers filtered `sublist_of` raw_list (Raw.papers raw)
      /\ Results.patents filtered `sublist_of` raw_list (Raw.patents raw)
      /\ Results.components filtered `sublist_of` raw_list (Raw.components raw)
      /\ Results.supply_chain filtered `sublist_of` raw_list (Raw.supply_chain raw)
      /\ NoDup (map (paper_identifier md5_hexdigest) (Results.papers filtered))
      /\ NoDup (map Patent.patent_number (Results.patents filtered))
      /\ NoDup (map Component.part_number (Results.components filtered))
      /\ Forall (fun p => paper_quality p = true) (Results.papers filtered)
      /\ Forall (fun p => patent_quality p = true) (Results.patents filtered)
      /\ Forall (fun c => component_quality c = true) (Results.components filtered)
  else process md5_hexdigest format_pct raw q now_report now_meta
       = Output.mk (Some "'NoneType' object has no attribute 'get'") (inl raw)
                   Synthesis.empty "Error processing results" None.
Proof.
  destruct (all_answered raw) eqn:Hanswered.
  - exists (filtered_of md5_hexdigest raw q).
    rewrite stages_1_to_4_answered, Hanswered.
    destruct (filtered_keys_NoDup md5_hexdigest raw q) as (Hpapers & Hpatents & Hcomponents).
    split_and!; try done.
    + etrans; [apply filtered_papers_sublist|apply deduplicate_papers_sublist].
    + etrans; [apply filtered_patents_sublist|apply deduplicate_patents_sublist].
    + etrans; [apply filtered_components_sublist|apply deduplicate_components_sublist].
    + apply filter_sublist.
    + simpl. eapply submseteq_Forall; [apply sublist_submseteq, filter_sublist|].
      apply filter_Forall.
    + simpl. eapply submseteq_Forall; [apply sublist_submseteq, filter_sublist|].
      apply filter_Forall.
    + simpl. eapply submseteq_Forall; [apply sublist_submseteq, filter_sublist|].
      apply filter_Forall.
  - unfold process. rewrite stages_1_to_4_answered, Hanswered. reflexivity.
Qed.

(** ** A complete run *)

Definition raw_levels (raw : Raw.t) : list (option Z) :=
  map Paper.trl (raw_list (Raw.papers raw))
  ++ map Patent.trl (raw_list (Raw.patents raw))
  ++ map Component.trl (raw_list (Raw.components raw)).

(** What [process] returns when no stage raises. *)
Definition complete_run (md5_hexdigest : string -> string)
    (format_pct : nat -> nat -> string) (raw : Raw.t) (q : Query.t)
    (now_report now_meta : string) : Prop :=
  exists results synthesis distribution,
    process md5_hexdigest format_pct raw q now_report now_meta
    = Output.mk None (inr results) synthesis
                (_generate_report format_pct synthesis q now_report)
                (Some (Metadata.mk 10 (_count_findings results) now_meta))
    /\ _synthesize_findings results q = inr synthesis
    /\ Results.papers results ⊆+ map placeholder_paper (raw_list (Raw.papers raw))
    /\ Results.patents results ⊆+ map placeholder_patent (raw_list (Raw.patents raw))
    /\ Results.components results
       ⊆+ map placeholder_component (raw_list (Raw.components raw))
    /\ Results.supply_chain results `sublist_of` raw_list (Raw.supply_chain raw)
    /\ length (Results.papers results) <= 20
    /\ length (Results.patents results) <= 20
    /\ length (Results.components results) <= 30
    /\ NoDup (map (paper_identifier md5_hexdigest) (Results.papers results))
    /\ NoDup (map Patent.patent_number (Results.patents results))
    /\ NoDup (map Component.part_number (Results.components results))
    /\ Forall (fun p => is_Some (Paper.trl p)) (Results.papers results)
    /\ Forall (fun p => is_Some (Patent.trl p)) (Results.patents results)
    /\ Forall (fun c => is_Some (Component.trl c)) (Results.components results)
    /\ Synthesis.trl_distribution synthesis = Some distribution
    /\ sum_values distribution = counted (levels_of results).

Lemma placeholder_paper_identifier md5_hexdigest p :
  paper_identifier md5_hexdigest (placeholder_paper p) = paper_identifier md5_hexdigest p.
Proof. unfold placeholder_paper. by destruct (Paper.trl p). Qed.

Lemma placeholder_patent_number p :
  Patent.patent_number (placeholder_patent p) = Patent.patent_number p.
Proof. unfold placeholder_patent. by destruct (Patent.trl p). Qed.

Lemma placeholder_component_number c :
  Component.part_number (placeholder_component c) = Component.part_number c.
Proof.
  unfold placeholder_component. destruct (Component.trl c); [done|].
  by destruct (bool_decide _).
Qed.

Lemma placeholder_paper_in_table p :
  out_of_table (Paper.trl p) = None -> out_of_table (Paper.trl (placeholder_paper p)) = None.
Proof. rewrite placeholder_paper_level. by destruct (Paper.trl p). Qed.

Lemma placeholder_patent_in_table p :
  out_of_table (Patent.trl p) = None ->
  out_of_table (Patent.trl (placeholder_patent p)) = None.
Proof.
  rewrite placeholder_patent_level. destruct (Patent.trl p); [done|].
  by destruct (bool_decide _).
Qed.

Lemma placeholder_component_in_table c :
  out_of_table (Component.trl c) = None ->
  out_of_table (Component.trl (placeholder_component c)) = None.
Proof.
  rewrite placeholder_component_level. destruct (Component.trl c); [done|].
  by destruct (bool_decide _).
Qed.

(** X13: a complete run.  When every provider entry that is present
    carries [data] and every level that arrives with a record is 0 or
    lies in 1..9, no stage raises.  [process] then returns no [error],
    the report of the synthesis and the metadata of ten stages, and the
    lists it returns invent nothing: each is, up to order, part of the
    provider's list with the placeholder levels of stage 5 filled in.
    There are at most 20 papers, 20 patents and 30 components; paper
    identifiers, patent numbers and part numbers are pairwise distinct;
    every record carries a level; and the histogram of the synthesis
    sums to the number of returned records with a non-zero level. *)
Theorem X13_complete_run (md5_hexdigest : string -> string)
    (format_pct : nat -> nat -> string) (raw : Raw.t) (q : Query.t)
    (now_report now_meta : string) :
  all_answered raw = true ->
  Forall (fun trl => out_of_table trl = None) (raw_levels raw) ->
  complete_run md5_hexdigest format_pct raw q now_report now_meta.
Proof.
  intros Hanswered Hlevels. unfold raw_levels in Hlevels.
  apply Forall_app in Hlevels as [Hpapers Hlevels].
  apply Forall_app in Hlevels as [Hpatents Hcomponents].
  apply Forall_map in Hpapers, Hpatents, Hcomponents.
  set (filtered := filtered_of md5_hexdigest raw q).
  set (results := stages_5_to_8 filtered q).
  assert (Results.papers results ⊆+ map placeholder_paper (Results.papers filtered))
    as Hsub_papers by apply ranked_submseteq.
  assert (Results.patents results ⊆+ map placeholder_patent (Results.patents filtered))
    as Hsub_patents by apply ranked_submseteq.
  assert (Results.components results
          ⊆+ map placeholder_component (Results.components filtered))
    as Hsub_components by apply ranked_submseteq.
  assert (Results.papers results ⊆+ map placeholder_paper (raw_list (Raw.papers raw)))
    as Hraw_papers.
  { etrans; [exact Hsub_papers|]. apply (fmap_submseteq placeholder_paper).
    apply sublist_submseteq.
    etrans; [apply filtered_papers_sublist|apply deduplicate_papers_sublist]. }
  assert (Results.patents results ⊆+ map placeholder_patent (raw_list (Raw.patents raw)))
    as Hraw_patents.
  { etrans; [exact Hsub_patents|]. apply (fmap_submseteq placeholder_patent).
    apply sublist_submseteq.
    etrans; [apply filtered_patents_sublist|apply deduplicate_patents_sublist]. }
  assert (Results.components results
          ⊆+ map placeholder_component (raw_list (Raw.components raw)))
    as Hraw_components.
  { etrans; [exact Hsub_components|]. apply (fmap_submseteq placeholder_component).
    apply sublist_submseteq.
    etrans; [apply filtered_components_sublist|apply deduplicate_components_sublist]. }
  assert (Forall (fun trl => out_of_table trl = None) (levels_of results)) as Hin_table.
  { unfold levels_of. rewrite !Forall_app. split_and!; apply Forall_map.
    - eapply submseteq_Forall; [exact Hraw_papers|]. apply Forall_map.
      eapply Forall_impl; [exact Hpapers|]. apply placeholder_paper_in_table.
    - eapply submseteq_Forall; [exact Hraw_patents|]. apply Forall_map.
      eapply Forall_impl; [exact Hpatents|]. apply placeholder_patent_in_table.
    - eapply submseteq_Forall; [exact Hraw_components|]. apply Forall_map.
      eapply Forall_impl; [exact Hcomponents|]. apply placeholder_component_in_table. }
  pose proof (count_trls_spec (levels_of results) zero_distribution eq_refl) as Hspec.
  rewrite (in_table_first _ Hin_table) in Hspec.
  destruct Hspec as (d & Hd & _ & _ & Hsum).
  rewrite sum_values_zero_distribution, Nat.add_0_r in Hsum.
  rewrite <- calculate_as_count_trls in Hd.
  destruct (filtered_keys_NoDup md5_hexdigest raw q) as (Hnd_papers & Hnd_patents & Hnd_comps).
  eexists results, _, d.
  split; [|split].
  { unfold process. rewrite stages_1_to_4_answered, Hanswered.
    fold filtered. fold results. unfold _synthesize_findings. rewrite Hd. reflexivity. }
  { unfold _synthesize_findings. rewrite Hd. reflexivity. }
  split_and!; try done.
  - apply filter_sublist.
  - apply ranked_length.
  - apply ranked_length.
  - apply ranked_length.
  - eapply submseteq_NoDup_map; [exact Hsub_papers|]. rewrite map_map.
    erewrite map_ext; [exact Hnd_papers|]. apply placeholder_paper_identifier.
  - eapply submseteq_NoDup_map; [exact Hsub_patents|]. rewrite map_map.
    erewrite map_ext; [exact Hnd_patents|]. apply placeholder_patent_number.
  - eapply submseteq_NoDup_map; [exact Hsub_components|]. rewrite map_map.
    erewrite map_ext; [exact Hnd_comps|]. apply placeholder_component_number.
  - eapply submseteq_Forall; [exact Hsub_papers|]. apply Forall_map, Forall_forall.
    intros p _. simpl. by rewrite placeholder_paper_level.
  - eapply submseteq_Forall; [exact Hsub_patents|]. apply Forall_map, Forall_forall.
    intros p _. simpl. by rewrite placeholder_patent_level.
  - eapply submseteq_Forall; [exact Hsub_components|]. apply Forall_map, Forall_forall.
    intros c _. simpl. by rewrite placeholder_component_level.
Qed.

Lemma X13_complete_run_witness :
  complete_run digest_stub format_pct_stub raw_crowded query_gallium
               "2026-01-01 00:00 UTC" "2026-01-01T00:00:00".
Proof.
  apply X13_complete_run.
  - reflexivity.
  - unfold raw_levels, raw_crowded. simpl.
    repeat (constructor; [reflexivity|]). constructor.
Defined.

(** * The streaming summary *)

(** One update chunk; [count], [preview] and [summary] are the keys a
    chunk may lack. *)
Module Chunk.
Record t := mk {
    type : string;
    message : string;
    count : option nat;
    preview : option (list (option string));
    summary : option string
  }.
End Chunk.

(** [papers[:3]] on a provider response: a dictionary takes no slice
    ([TypeError], or [KeyError] where slices are hashable). *)
Inductive stream_fault := SliceOfResponse (key : string).

(** [if l: chunks.append({... "preview": [x.get(k) for x in l[:3]]})] *)
Definition preview_chunk {A} (type : string) (noun : string) (id : A -> option string)
    (l : list A) : list Chunk.t :=
  match l with
  | [] => []
  | _ :: _ =>
      [Chunk.mk type ("Found " +:+ Py.str_of_nat (length l) +:+ " " +:+ noun)
                (Some (length l)) (Some (map id (Py.slice_to 3 l))) None]
  end.

Definition supply_chain_chunk (n : nat) : Chunk.t :=
  Chunk.mk "supply_chain"
           ("Checked supply chain for " +:+ Py.str_of_nat n +:+ " components")
           (Some n) None None.

(** [bool(synthesis)]: the dictionary has a key. *)
Definition has_key {A} (o : option A) : bool :=
  match o with
  | Some _ => true
  | None => false
  end.
Definition synthesis_truthy (s : Synthesis.t) : bool :=
  has_key (Synthesis.summary s) || has_key (Synthesis.key_findings s)
  || has_key (Synthesis.technology_trends s)
  || has_key (Synthesis.component_recommendations s)
  || has_key (Synthesis.supply_chain_status s) || has_key (Synthesis.trl_distribution s).

Definition synthesis_chunk (s : Synthesis.t) : list Chunk.t :=
  if synthesis_truthy s
  then [Chunk.mk "synthesis" "Analysis complete" None None
                 (Some (default "" (Synthesis.summary s)))]
  else [].

(** After a fault [processed_results] is the caller's [raw_results],
    whose entries are provider responses: dictionaries of six keys, which
    are true, have length 6 and take no slice. *)
Definition create_summary_for_streaming (results : Output.t) : stream_fault + list Chunk.t :=
  match Output.processed_results results with
  | inr processed =>
      inr (preview_chunk "papers" "academic papers" Paper.title (Results.papers processed)
           ++ preview_chunk "patents" "patents" Patent.patent_number
                            (Results.patents processed)
           ++ preview_chunk "components" "components" Component.part_number
                            (Results.components processed)
           ++ match Results.supply_chain processed with
              | [] => []
              | _ :: _ => [supply_chain_chunk (length (Results.supply_chain processed))]
              end
           ++ synthesis_chunk (Output.synthesis results))
  | inl raw =>
      match Raw.papers raw with
      | Some _ => inl (SliceOfResponse "papers")
      | None =>
          match Raw.patents raw with
          | Some _ => inl (SliceOfResponse "patents")
          | None =>
              match Raw.components raw with
              | Some _ => inl (SliceOfResponse "components")
              | None =>
                  inr (match Raw.supply_chain raw with
                       | Some r => [supply_chain_chunk (Response.len r)]
                       | None => []
                       end
                       ++ synthesis_chunk (Output.synthesis results))
              end
          end
      end
  end.

Arguments create_summary_for_streaming : simpl never.
Arguments preview_chunk : simpl never.
Arguments synthesis_chunk : simpl never.

Definition sum_counts (chunks : list Chunk.t) : nat :=
  foldr (fun chunk acc => default 0%nat (Chunk.count chunk) + acc)%nat 0%nat chunks.

Definition chunk_order : list string :=
  ["papers"; "patents"; "components"; "supply_chain"; "synthesis"].

Lemma preview_chunk_facts {A} type noun (id : A -> option string) (l : list A) :
  sum_counts (preview_chunk type noun id l) = length l
  /\ map Chunk.type (preview_chunk type noun id l) `sublist_of` [type]
  /\ Forall (fun chunk => length (default [] (Chunk.preview chunk)) <= 3)
            (preview_chunk type noun id l).
Proof.
  unfold preview_chunk. destruct l as [|x l]; simpl.
  - split_and!; [done|by constructor|constructor].
  - split_and!; [lia|done|]. constructor; [|constructor]. simpl.
    rewrite length_map. unfold Py.slice_to. rewrite length_take. lia.
Qed.

Lemma sum_counts_app a b : sum_counts (a ++ b) = (sum_counts a + sum_counts b)%nat.
Proof. unfold sum_counts. induction a as [|x a IH]; simpl; [done|]. rewrite IH. lia. Qed.

Lemma synthesize_findings_truthy results q synthesis :
  _synthesize_findings results q = inr synthesis ->
  synthesis_chunk synthesis
  = [Chunk.mk "synthesis" "Analysis complete" None None
              (Some (_create_summary (Results.papers results) (Results.patents results)
                                     (Results.components results)))].
Proof.
  unfold _synthesize_findings.
  destruct (_calculate_trl_distribution results) as [e|d]; [done|].
  simpl. intros [= <-]. reflexivity.
Qed.

(** X14: the streaming summary of what [process] returns.  After a
    complete run it returns at most five chunks, in the order papers,
    patents, components, supply chain, synthesis; the counts of the
    chunks add up to the [total_findings] of the metadata, a preview
    holds at most three entries, and the last chunk is the synthesis
    chunk with the summary of stage 9.  After a fault
    [processed_results] holds provider responses: the summary raises as
    soon as the caller's [raw_results] has a papers, patents or
    components entry, and otherwise it reports at most the supply chain,
    with the six keys of the response as its count. *)
Theorem X14_streaming_summary (md5_hexdigest : string -> string)
    (format_pct : nat -> nat -> string) (raw : Raw.t) (q : Query.t)
    (now_report now_meta : string) :
  let out := process md5_hexdigest format_pct raw q now_report now_meta in
  match Output.metadata out with
  | Some metadata =>
      exists chunks processed,
        create_summary_for_streaming out = inr chunks
        /\ Output.processed_results out = inr processed
        /\ sum_counts chunks = Metadata.total_findings metadata
        /\ map Chunk.type chunks `sublist_of` chunk_order
        /\ Forall (fun chunk => length (default [] (Chunk.preview chunk)) <= 3) chunks
        /\ last chunks
           = Some (Chunk.mk "synthesis" "Analysis complete" None None
                            (Some (_create_summary (Results.papers processed)
                                                   (Results.patents processed)
                                                   (Results.components processed))))
  | None =>
      match Raw.papers raw, Raw.patents raw, Raw.components raw with
      | Some _, _, _ => create_summary_for_streaming out = inl (SliceOfResponse "papers")
      | None, Some _, _ => create_summary_for_streaming out = inl (SliceOfResponse "patents")
      | None, None, Some _ =>
          create_summary_for_streaming out = inl (SliceOfResponse "components")
      | None, None, None =>
          create_summary_for_streaming out
          = inr (match Raw.supply_chain raw with
                 | Some _ => [supply_chain_chunk 6]
                 | None => []
                 end)
      end
  end.
Proof.
  intros out. subst out. unfold process.
  destruct (stages_1_to_4 md5_hexdigest raw q) as [e|filtered]; simpl.
  - unfold create_summary_for_streaming. simpl.
    destruct (Raw.papers raw); [done|]. destruct (Raw.patents raw); [done|].
    destruct (Raw.components raw); [done|]. by destruct (Raw.supply_chain raw).
  - destruct (_synthesize_findings (stages_5_to_8 filtered q) q) as [e|synthesis] eqn:Hsyn;
      simpl.
    + unfold create_summary_for_streaming. simpl.
      destruct (Raw.papers raw); [done|]. destruct (Raw.patents raw); [done|].
      destruct (Raw.components raw); [done|]. by destruct (Raw.supply_chain raw).
    + set (processed := stages_5_to_8 filtered q) in *.
      apply synthesize_findings_truthy in Hsyn.
      unfold create_summary_for_streaming.
      cbn [Output.processed_results Output.synthesis]. rewrite Hsyn.
      destruct (preview_chunk_facts "papers" "academic papers" Paper.title
                  (Results.papers processed)) as (Hc1 & Ht1 & Hp1).
      destruct (preview_chunk_facts "patents" "patents" Patent.patent_number
                  (Results.patents processed)) as (Hc2 & Ht2 & Hp2).
      destruct (preview_chunk_facts "components" "components" Component.part_number
                  (Results.components processed)) as (Hc3 & Ht3 & Hp3).
      eexists _, processed. split; [reflexivity|]. split; [reflexivity|]. split_and!.
      * rewrite !sum_counts_app, Hc1, Hc2, Hc3. unfold _count_findings.
        destruct (Results.supply_chain processed); simpl; lia.
      * rewrite !map_app. unfold chunk_order.
        apply (sublist_app _ ["papers"] _ _ Ht1).
        apply (sublist_app _ ["patents"] _ _ Ht2).
        apply (sublist_app _ ["components"] _ _ Ht3).
        destruct (Results.supply_chain processed); simpl.
        -- by constructor.
        -- done.
      * rewrite !Forall_app. split_and!; try done.
        -- destruct (Results.supply_chain processed); repeat constructor.
        -- repeat constructor.
      * rewrite !app_assoc. apply last_snoc.
Qed.

(** * The key findings of a ranked run *)

Lemma filter_take_descending {A} (key : A -> Z) (t : Z) (n : nat) (l : list A) :
  StronglySorted (descending Z.le key) l ->
  List.filter (fun x => bool_decide (t <= key x)%Z) (take n l)
  = take n (List.filter (fun x => bool_decide (t <= key x)%Z) l).
Proof.
  intros Hsorted. revert n.
  induction Hsorted as [|x l Hl IH Hx]; intros [|n]; simpl; try done.
  destruct (bool_decide (t <= key x)%Z) eqn:Hkey; simpl; [by rewrite IH|].
  apply bool_decide_eq_false in Hkey.
  assert (List.filter (fun y => bool_decide (t <= key y)%Z) l = []) as Hnone.
  { clear IH Hl. induction Hx as [|y l Hy _ IH]; simpl; [done|].
    unfold descending in Hy. rewrite bool_decide_eq_false_2 by lia. exact IH. }
  rewrite IH, Hnone. by destruct n.
Qed.

Lemma filter_length_perm {A} (f : A -> bool) (l l' : list A) :
  l ≡ₚ l' -> length (List.filter f l) = length (List.filter f l').
Proof.
  induction 1 as [|x l l' _ IH|x y l|l l' l'' _ IH1 _ IH2]; simpl.
  - done.
  - destruct (f x); simpl; by rewrite IH.
  - by destruct (f x), (f y).
  - by rewrite IH1.
Qed.

Definition production_ready (c : Component.t) : bool :=
  bool_decide (8 <= default 0 (Component.trl c))%Z.

(** X15: the key findings of stage 9 on the lists of stages 7 and 8.
    The highlight names the newest paper of the input of the ranker: a
    paper whose year is the greatest, and the first such in the order of
    the input; with no paper there is no highlight.  The second finding
    counts the production-ready components among the 30 the ranker
    keeps: as the ranker sorts by level, that is the number of
    components of level 8 or more in its input, capped at 30; it is
    omitted when there is none. *)
Theorem X15_key_findings_after_ranking (results : Results.t) (q : Query.t) :
  let ranked := _cluster_results (_rank_results results q) in
  let n := length (List.filter production_ready (Results.components results)) in
  let production :=
    if decide (n = 0)%nat then []
    else [Py.str_of_nat (min 30 n) +:+ " production-ready components identified"] in
  match Results.papers results with
  | [] => _extract_key_findings ranked = production
  | _ :: _ =>
      exists first,
        first ∈ Results.papers results
        /\ Forall (fun p => (year_key p <= year_key first)%Z) (Results.papers results)
        /\ head (with_key year_key (year_key first) (Results.papers results)) = Some first
        /\ _extract_key_findings ranked
           = ("Recent research highlights: " +:+ default "Unknown" (Paper.title first))
             :: production
  end.
Proof.
  intros ranked n production.
  assert (match List.filter production_ready (Results.components ranked) with
          | [] => []
          | _ :: _ =>
              [Py.str_of_nat (length (List.filter production_ready
                                                  (Results.components ranked)))
               +:+ " production-ready components identified"]
          end = production) as Hproduction.
  { subst ranked production n. simpl. unfold Py.slice_to, production_ready.
    change (fun c : Component.t => bool_decide (8 <= default 0 (Component.trl c))%Z)
      with (fun c : Component.t => bool_decide (8 <= trl_key c)%Z).
    rewrite filter_take_descending by apply sort_desc_Z_sorted.
    rewrite (filter_length_perm _ (Results.components results)
               (Py.sort_desc Z.ltb trl_key (Results.components results)))
      by (symmetry; apply sort_desc_perm).
    set (kept := List.filter _ (Py.sort_desc Z.ltb trl_key (Results.components results))).
    rewrite length_take. destruct kept as [|c kept']; [done|].
    change (take 30 (c :: kept')) with (c :: take 29 kept'). cbv iota.
    by rewrite decide_False. }
  subst ranked.
  pose proof (sort_desc_perm Z.ltb year_key (Results.papers results)) as Hperm.
  pose proof (sort_desc_Z_sorted year_key (Results.papers results)) as Hsorted.
  pose proof (sort_desc_stable Z.ltb year_key Z.ltb_irrefl) as Hstable.
  unfold _extract_key_findings in *.
  fold production_ready in *.
  change (Results.papers (_cluster_results (_rank_results results q)))
    with (Py.slice_to 20 (Py.sort_desc Z.ltb year_key (Results.papers results))).
  destruct (Results.papers results) as [|p papers] eqn:Hpapers.
  - change (Py.sort_desc Z.ltb year_key []) with (@nil Paper.t).
    change (Py.slice_to 3 (Py.slice_to 20 (@nil Paper.t))) with (@nil Paper.t).
    cbv zeta. cbv iota. rewrite <- Hproduction.
    by destruct (List.filter production_ready (Results.components (_cluster_results _))).
  - destruct (Py.sort_desc Z.ltb year_key (p :: papers)) as [|first rest] eqn:Hsort.
    { apply Permutation_length in Hperm. done. }
    exists first. split_and!.
    + rewrite <- Hperm. left.
    + rewrite <- Hperm. apply StronglySorted_cons in Hsorted as [Hfirst _].
      constructor; [lia|]. exact Hfirst.
    + rewrite <- (Hstable (year_key first) (p :: papers)), Hsort.
      unfold with_key. simpl. by rewrite bool_decide_eq_true_2.
    + change (Py.slice_to 3 (Py.slice_to 20 (first :: rest)))
        with (first :: take 2 (take 19 rest)).
      cbv zeta. cbv iota. rewrite <- Hproduction.
      by destruct (List.filter production_ready (Results.components (_cluster_results _))).
Qed.

(** * The supply-chain assessment *)

Definition stock_of (sc : SupplyChain.t) : Z := total_stock (SupplyChain.availability sc).
Definition sum_Z (l : list Z) : Z := foldr Z.add 0%Z l.
Definition active_record (sc : SupplyChain.t) : bool :=
  bool_decide (SupplyChain.lifecycle sc = Some "Active").

Lemma stock_loop (l : list SupplyChain.t) (acc : Z) :
  foldl (fun acc sc => acc + total_stock (SupplyChain.availability sc))%Z acc l
  = (acc + sum_Z (map stock_of l))%Z.
Proof.
  revert acc. induction l as [|sc l IH]; intros acc; simpl; [lia|].
  rewrite IH. unfold stock_of. lia.
Qed.

Lemma sum_Z_perm (l l' : list Z) : l ≡ₚ l' -> sum_Z l = sum_Z l'.
Proof.
  induction 1 as [|x l l' _ IH|x y l|l l' l'' _ IH1 _ IH2]; simpl; lia.
Qed.

Lemma assess_supply_chain_cons sc rest :
  _assess_supply_chain (sc :: rest)
  = SCStatus.mk
      (Some (if bool_decide (5000 < sum_Z (map stock_of (sc :: rest)))%Z
             then "healthy" else "low_stock"))
      (Some (sum_Z (map stock_of (sc :: rest))))
      (Some (length (List.filter active_record (sc :: rest))))
      (Some (length (sc :: rest))).
Proof.
  unfold _assess_supply_chain. rewrite stock_loop, Z.add_0_l. reflexivity.
Qed.

(** X16: the supply-chain assessment of stage 9.  An empty list gives
    [no_data].  Otherwise the total is the sum of the stocks of all
    distributors of all records (a record that is listed twice counts
    twice), the status is [healthy] exactly when that sum exceeds 5000,
    and the number of active records is at most the number of records
    checked.  The assessment does not depend on the order of the
    records. *)
Theorem X16_supply_chain_assessment (supply_chain : list SupplyChain.t) :
  match supply_chain with
  | [] => _assess_supply_chain supply_chain = SCStatus.no_data
  | _ :: _ =>
      exists active,
        _assess_supply_chain supply_chain
        = SCStatus.mk
            (Some (if bool_decide (5000 < sum_Z (map stock_of supply_chain))%Z
                   then "healthy" else "low_stock"))
            (Some (sum_Z (map stock_of supply_chain)))
            (Some active) (Some (length supply_chain))
        /\ active = length (List.filter active_record supply_chain)
        /\ active <= length supply_chain
  end
  /\ _assess_supply_chain (supply_chain ++ supply_chain)
     = match supply_chain with
       | [] => SCStatus.no_data
       | _ :: _ =>
           SCStatus.mk
             (Some (if bool_decide (5000 < 2 * sum_Z (map stock_of supply_chain))%Z
                    then "healthy" else "low_stock"))
             (Some (2 * sum_Z (map stock_of supply_chain))%Z)
             (Some (2 * length (List.filter active_record supply_chain)))
             (Some (2 * length supply_chain))
       end
  /\ forall reordered,
       supply_chain ≡ₚ reordered ->
       _assess_supply_chain reordered = _assess_supply_chain supply_chain.
Proof.
  split_and!.
  - destruct supply_chain as [|sc rest]; [done|].
    exists (length (List.filter active_record (sc :: rest))).
    split_and!; [apply assess_supply_chain_cons|done|].
    apply submseteq_length, sublist_submseteq, filter_sublist.
  - destruct supply_chain as [|sc rest]; [done|].
    change ((sc :: rest) ++ sc :: rest) with (sc :: (rest ++ sc :: rest)).
    rewrite assess_supply_chain_cons.
    change (sc :: (rest ++ sc :: rest)) with ((sc :: rest) ++ sc :: rest).
    assert (sum_Z (map stock_of ((sc :: rest) ++ sc :: rest))
            = 2 * sum_Z (map stock_of (sc :: rest)))%Z as ->.
    { rewrite map_app. generalize (map stock_of (sc :: rest)). intros l.
      assert (forall a b, sum_Z (a ++ b) = sum_Z a + sum_Z b)%Z as Happ.
      { intros a b. induction a as [|x a IH]; simpl; lia. }
      rewrite Happ. lia. }
    rewrite List.filter_app, !length_app. do 2 f_equal; f_equal; lia.
  - intros reordered Hperm.
    destruct supply_chain as [|sc rest].
    + apply Permutation_nil_l in Hperm. by subst.
    + destruct reordered as [|sc' rest'].
      { symmetry in Hperm. by apply Permutation_nil_l in Hperm. }
      rewrite !assess_supply_chain_cons.
      rewrite (sum_Z_perm _ _ (Permutation_map stock_of Hperm)).
      rewrite (filter_length_perm active_record _ _ Hperm).
      by rewrite (Permutation_length Hperm).
Qed.

(** * The pros and cons of the report generator *)

Definition component_stock (c : Component.t) : Z := total_stock (Component.supply_chain c).
Definition component_price (c : Component.t) : Qc :=
  default (Q2Qc 0) (Component.pricing_unit_price_usd c).

(** X17: the pros and cons of a recommended component.  The pros are at
    most three features followed by [Production-proven] for a level of 8
    or more and [Long-term availability] for an active lifecycle: they
    are never more than five, so the final slice cuts nothing.  The cons
    are never empty and never more than four; they are the one entry
    [None significant] exactly when the lifecycle is not [NRND], the
    stock is at least 100, the level at least 7 and the price at most
    10.  An active component with a stock below 100 is given both
    [Long-term availability] and [Limited availability]. *)
Theorem X17_pros_and_cons (format_number : Qc -> string) (c : Component.t) :
  let pros := ReportGenerator._extract_pros c in
  let cons := ReportGenerator._extract_cons format_number c in
  pros = take 3 (Component.features c)
         ++ (if bool_decide (8 <= default 0 (Component.trl c))%Z
             then ["Production-proven"] else [])
         ++ (if bool_decide (Component.lifecycle c = Some "Active")
             then ["Long-term availability"] else [])
  /\ length pros <= 5
  /\ cons ≠ []
  /\ length cons <= 4
  /\ (cons = ["None significant"]
      <-> (Component.lifecycle c ≠ Some "NRND"
           /\ (100 <= component_stock c)%Z
           /\ (7 <= default 0 (Component.trl c))%Z
           /\ ReportGenerator.Qc_ltb (Q2Qc 10) (component_price c) = false))
  /\ (Component.lifecycle c = Some "Active" -> (component_stock c < 100)%Z ->
      "Long-term availability" ∈ pros /\ "Limited availability" ∈ cons).
Proof.
  intros pros cons.
  assert (pros = take 3 (Component.features c)
                 ++ (if bool_decide (8 <= default 0 (Component.trl c))%Z
                     then ["Production-proven"] else [])
                 ++ (if bool_decide (Component.lifecycle c = Some "Active")
                     then ["Long-term availability"] else [])) as Hpros.
  { subst pros. unfold ReportGenerator._extract_pros, Py.slice_to.
    assert (length (take 3 (Component.features c)) <= 3) as Hthree
      by (rewrite length_take; lia).
    set (shown := take 3 (Component.features c)) in *. clearbody shown.
    destruct (bool_decide (8 <= _)%Z), (bool_decide (Component.lifecycle c = _));
      (rewrite take_ge; [by rewrite ?app_nil_r, <- ?app_assoc|]);
      rewrite ?length_app; simpl; lia. }
  assert (length pros <= 5) as Hpros_len.
  { assert (length (take 3 (Component.features c)) <= 3) as Hthree
      by (rewrite length_take; lia).
    rewrite Hpros. set (shown := take 3 (Component.features c)) in *. clearbody shown.
    rewrite !length_app.
    destruct (bool_decide (8 <= _)%Z), (bool_decide (Component.lifecycle c = _));
      simpl; lia. }
  subst cons. unfold ReportGenerator._extract_cons.
  fold (component_stock c). fold (component_price c).
  split; [exact Hpros|]. split; [exact Hpros_len|].
  destruct (bool_decide (Component.lifecycle c = Some "NRND")) eqn:Hnrnd;
    destruct (bool_decide (component_stock c < 100)%Z) eqn:Hstock;
    destruct (bool_decide (default 0 (Component.trl c) < 7)%Z) eqn:Htrl;
    destruct (ReportGenerator.Qc_ltb (Q2Qc 10) (component_price c)) eqn:Hprice;
    try apply bool_decide_eq_true in Hnrnd; try apply bool_decide_eq_false in Hnrnd;
    try apply bool_decide_eq_true in Hstock; try apply bool_decide_eq_false in Hstock;
    try apply bool_decide_eq_true in Htrl; try apply bool_decide_eq_false in Htrl;
    simpl;
    (split_and!;
     [done
     |lia
     |split;
      [intros Heq; first [discriminate Heq|split_and!; first [done|lia]]
      |intros (H1 & H2 & H3 & H4); first [reflexivity|done|lia|congruence]]
     |intros Hactive Hlow; try lia;
      (split; [rewrite Hpros, (bool_decide_eq_true_2 _ Hactive);
               rewrite !elem_of_app; right; right; left
              |rewrite !elem_of_cons; tauto])]).
Qed.

(** * The report of a synthesis of stage 9 *)

Lemma in_table_tally (trls : list (option Z)) :
  first_out_of_table trls = None ->
  (tally 1 trls + tally 2 trls + tally 3 trls
   + (tally 4 trls + tally 5 trls + tally 6 trls)
   + (tally 7 trls + tally 8 trls + tally 9 trls))%nat = counted trls.
Proof.
  induction trls as [|trl trls IH]; [done|].
  rewrite first_out_of_table_cons.
  destruct (out_of_table trl) as [v|] eqn:Hout; [done|]. intros Hrest.
  specialize (IH Hrest). unfold tally, counted in *. simpl.
  destruct trl as [v|]; simpl in *.
  - destruct (decide (v = 0 \/ 1 <= v <= 9)%Z) as [Hv|]; [|done].
    assert (v = 0 \/ v = 1 \/ v = 2 \/ v = 3 \/ v = 4 \/ v = 5 \/ v = 6 \/ v = 7 \/ v = 8
            \/ v = 9)%Z as Hcases by lia.
    repeat (destruct Hcases as [->|Hcases];
            [repeat case_bool_decide; simplify_eq; simpl; lia|]).
    subst. repeat case_bool_decide; simplify_eq; simpl; lia.
  - repeat case_bool_decide; simplify_eq; simpl; lia.
Qed.

(** X18: which sections the report of stage 10 has for the synthesis of
    stage 9.  The synthesis fails only with the [KeyError] of the
    histogram.  Otherwise the Key Findings section is omitted exactly
    when there is no paper and no component of level 8 or more, the
    Recommended Components section exactly when there is no component,
    the Supply Chain Status section exactly when the supply-chain list
    is empty, and the Technology Readiness Distribution and the Maturity
    Assessment sections are omitted together, exactly when no record
    has a non-zero level. *)
Theorem X18_report_sections (format_pct : nat -> nat -> string)
    (results : Results.t) (q : Query.t) :
  match _synthesize_findings results q with
  | inl e =>
      exists v, first_out_of_table (levels_of results) = Some v
                /\ e = KeyError (trl_label v)
  | inr synthesis =>
      (key_findings_section synthesis = ""
       <-> Results.papers results = []
           /\ List.filter production_ready (Results.components results) = [])
      /\ (recommended_components_section synthesis = ""
          <-> Results.components results = [])
      /\ (supply_chain_section synthesis = "" <-> Results.supply_chain results = [])
      /\ (trl_distribution_section synthesis = "" <-> counted (levels_of results) = 0%nat)
      /\ (maturity_section format_pct synthesis = ""
          <-> counted (levels_of results) = 0%nat)
  end.
Proof.
  unfold _synthesize_findings. rewrite calculate_as_count_trls.
  pose proof (count_trls_spec (levels_of results) zero_distribution eq_refl) as Hspec.
  destruct (first_out_of_table (levels_of results)) as [v|] eqn:Hfirst.
  - rewrite Hspec. simpl. by exists v.
  - destruct Hspec as (d & -> & Hdom & Hrows & Hsum). simpl.
    rewrite sum_values_zero_distribution, Nat.add_0_r in Hsum.
    split_and!.
    + rewrite key_findings_section_omitted. simpl.
      unfold _extract_key_findings, Py.slice_to. fold production_ready.
      destruct (Results.papers results) as [|p papers];
        destruct (List.filter production_ready (Results.components results));
        simpl; split; try done; by intros [? ?].
    + rewrite recommended_components_section_omitted. simpl.
      unfold _recommend_components, Py.slice_to.
      by destruct (Results.components results).
    + rewrite supply_chain_section_omitted. simpl.
      destruct (Results.supply_chain results) as [|sc rest]; [done|].
      rewrite assess_supply_chain_cons. simpl.
      split; [|done]. by destruct (bool_decide _).
    + rewrite trl_distribution_section_omitted. simpl. by rewrite Hsum.
    + rewrite maturity_section_omitted. simpl. unfold levels_count. simpl.
      rewrite !Hrows by lia. rewrite !level_count_zero_distribution.
      pose proof (in_table_tally _ Hfirst) as Htally. split; lia.
Qed.
